(** * AI-ContentGen-Pro: the orchestration core, embedded in Rocq

    A shallow embedding of the parts of [src/utils.py], [src/prompt_engine.py],
    [src/api_manager.py] and [src/content_generator.py] that decide the
    behaviour of template rendering, registration, the retry decorator, the
    result cache, the history and the statistics.

    Conventions of the embedding.
    - A Python [str] is a Rocq [string]; a character is a code point below
      256 (Latin-1).  [len] is [String.length].
    - A Python [float] is modelled by [pyfloat]: NaN, the two infinities, or
      a finite value carried as a rational.  Costs, delays and durations are
      finite and carried as [Q]; the embedding uses only zero tests, order
      comparisons, sums and decimal rounding on them.
    - A Python [dict] is an association list in insertion order with unique
      keys, built with [dict_set].
    - An exception is a value of [exn]; a function that may raise returns
      [A + exn].
    - Calls to the logger are omitted: they have no effect on any value. *)

From Stdlib Require Import Bool Arith ZArith QArith Qround Qabs Lia List Ascii String.
From Stdlib Require Import Sorted Permutation.
Import ListNotations.

Open Scope string_scope.
Open Scope bool_scope.
Open Scope nat_scope.

(* ===================================================================== *)
(** * Python strings *)
(* ===================================================================== *)

Module PyStr.

Definition code (c : ascii) : N := N_of_ascii c.

Definition in_range (lo hi : N) (c : ascii) : bool :=
  (lo <=? code c)%N && (code c <=? hi)%N.

(** [str.isspace] on one character (Latin-1 part of the Unicode table). *)
Definition isspace (c : ascii) : bool :=
  in_range 9 13 c || in_range 28 32 c || (code c =? 133)%N || (code c =? 160)%N.

(** Decimal digits: only [0-9] below code point 256. *)
Definition isdecimal (c : ascii) : bool := in_range 48 57 c.

(** [str.isalnum] on one character (Latin-1 part of the Unicode table). *)
Definition isalnum (c : ascii) : bool :=
  in_range 48 57 c || in_range 65 90 c || in_range 97 122 c
  || (code c =? 170)%N || (code c =? 181)%N || (code c =? 186)%N
  || in_range 178 179 c || (code c =? 185)%N || in_range 188 190 c
  || in_range 192 214 c || in_range 216 246 c || in_range 248 255 c.

(** ASCII case mapping, as used when an ASCII letter of a pattern is
    compared under [re.IGNORECASE]. *)
Definition lower (c : ascii) : ascii :=
  if in_range 65 90 c then ascii_of_N (code c + 32) else c.

Definition upper (c : ascii) : ascii :=
  if in_range 97 122 c then ascii_of_N (code c - 32) else c.

Fixpoint lstrip (s : string) : string :=
  match s with
  | String c t => if isspace c then lstrip t else s
  | EmptyString => EmptyString
  end.

(** [rstrip] keeps a character when it is not a space or when something
    is left after it. *)
Fixpoint rstrip (s : string) : string :=
  match s with
  | String c t =>
      match rstrip t with
      | EmptyString => if isspace c then EmptyString else String c EmptyString
      | t' => String c t'
      end
  | EmptyString => EmptyString
  end.

Definition strip (s : string) : string := rstrip (lstrip s).

(** Truth value of a string: [bool(s)]. *)
Definition truthy (s : string) : bool :=
  match s with EmptyString => false | _ => true end.

(** [s.replace(old, new)] for a non-empty [old]: leftmost, non-overlapping
    occurrences.  [skip] counts the characters of a matched occurrence that
    are still to be dropped. *)
Fixpoint replace_from (old new : string) (skip : nat) (s : string) : string :=
  match s with
  | EmptyString => EmptyString
  | String c t =>
      match skip with
      | S k => replace_from old new k t
      | O =>
          if prefix old s
          then new ++ replace_from old new (pred (length old)) t
          else String c (replace_from old new 0 t)
      end
  end.

(** With an empty [old], Python inserts [new] before every character and at
    the end. *)
Fixpoint interleave (new s : string) : string :=
  match s with
  | EmptyString => new
  | String c t => new ++ String c (interleave new t)
  end.

Definition replace (old new s : string) : string :=
  match old with
  | EmptyString => interleave new s
  | _ => replace_from old new 0 s
  end.

(** [sub in s] *)
Fixpoint contains (sub s : string) : bool :=
  prefix sub s ||
  match s with
  | EmptyString => false
  | String _ t => contains sub t
  end.

Fixpoint join (sep : string) (l : list string) : string :=
  match l with
  | [] => EmptyString
  | [x] => x
  | x :: t => x ++ sep ++ join sep t
  end.

Fixpoint mem_char (c : ascii) (s : string) : bool :=
  match s with
  | EmptyString => false
  | String d t => Ascii.eqb c d || mem_char c t
  end.

Definition hex_digit (n : N) : ascii :=
  if (n <? 10)%N then ascii_of_N (48 + n) else ascii_of_N (87 + n).

(** [str.isprintable] on one character. *)
Definition isprintable (c : ascii) : bool :=
  in_range 32 126 c || (in_range 161 255 c && negb (code c =? 173)%N).

Definition repr_char (quote : ascii) (c : ascii) : string :=
  if Ascii.eqb c quote then String "\" (String c EmptyString)
  else if Ascii.eqb c "\" then "\\"
  else if (code c =? 9)%N then "\t"
  else if (code c =? 10)%N then "\n"
  else if (code c =? 13)%N then "\r"
  else if isprintable c then String c EmptyString
  else String "\" (String "x" (String (hex_digit (code c / 16))
                                (String (hex_digit (code c mod 16)) EmptyString))).

Fixpoint repr_body (quote : ascii) (s : string) : string :=
  match s with
  | EmptyString => EmptyString
  | String c t => repr_char quote c ++ repr_body quote t
  end.

(** [repr(s)]: single quotes unless the text has a single quote and no
    double quote. *)
Definition dquote : ascii := ascii_of_N 34.

Definition repr (s : string) : string :=
  let q := if mem_char "'" s && negb (mem_char dquote s) then dquote else "'"%char in
  String q (repr_body q s ++ String q EmptyString).

(** [repr] of a list of strings, as an f-string prints it. *)
Definition repr_list (l : list string) : string :=
  "[" ++ join ", " (map repr l) ++ "]".

Definition digit_char (n : N) : ascii := ascii_of_N (48 + n).

Fixpoint pos_digits (fuel : nat) (n : N) (acc : string) : string :=
  match fuel with
  | O => acc
  | S f =>
      let acc' := String (digit_char (n mod 10)) acc in
      if (n / 10 =? 0)%N then acc' else pos_digits f (n / 10) acc'
  end.

(** [str(n)] for an [int]. *)
Definition str_of_Z (z : Z) : string :=
  let n := Z.to_N (Z.abs z) in
  let d := pos_digits (S (N.to_nat (N.log2 n))) n EmptyString in
  if (z <? 0)%Z then String "-" d else d.

Definition str_of_nat (n : nat) : string := str_of_Z (Z.of_nat n).

End PyStr.


(* ===================================================================== *)
(** * Regular expressions ([re.search], [re.match])

    The patterns of the source are written as syntax trees and decided by a
    backtracking matcher in continuation-passing style.  Only the existence
    of a match is used by the code ([if re.search(...)], [if not
    re.match(...)]), so greedy and lazy repetition coincide. *)
(* ===================================================================== *)

Module Regex.
Import PyStr.

Inductive cset : Type :=
| CChar (c : ascii)
| CRange (lo hi : ascii)
| CWord      (* \w *)
| CDigit     (* \d *)
| CSpace.    (* \s *)

Inductive re : Type :=
| Eps
| Lit (c : ascii)
| Any                                   (* .  *)
| OneOf (negated : bool) (items : list cset)   (* [...] and [^...] *)
| Seq (r1 r2 : re)
| Alt (r1 r2 : re)
| Star (r : re)
| Bol                                   (* ^  *)
| Eol                                   (* $  *)
| WordB.                                (* \b *)

Definition Plus (r : re) : re := Seq r (Star r).
Definition Opt (r : re) : re := Alt r Eps.
Definition cat (l : list re) : re := fold_right Seq Eps l.
Definition alts (l : list re) : re :=
  match l with
  | [] => Eps
  | r :: t => fold_left Alt t r
  end.

Fixpoint text (s : string) : re :=
  match s with
  | EmptyString => Eps
  | String c t => Seq (Lit c) (text t)
  end.

Record flags : Type := { ignorecase : bool; dotall : bool }.

Definition is_word (c : ascii) : bool := isalnum c || Ascii.eqb c "_".

Definition newline : ascii := ascii_of_N 10.

Definition in_item (x : ascii) (i : cset) : bool :=
  match i with
  | CChar c => Ascii.eqb x c
  | CRange lo hi => in_range (code lo) (code hi) x
  | CWord => is_word x
  | CDigit => isdecimal x
  | CSpace => isspace x
  end.

Definition in_set (fl : flags) (negated : bool) (items : list cset) (x : ascii) : bool :=
  xorb negated
    (existsb (in_item x) items
     || (ignorecase fl
         && (existsb (in_item (lower x)) items || existsb (in_item (upper x)) items))).

Definition lit_eq (fl : flags) (c x : ascii) : bool :=
  if ignorecase fl then Ascii.eqb (lower c) (lower x) else Ascii.eqb c x.

Definition word_opt (o : option ascii) : bool :=
  match o with Some c => is_word c | None => false end.

Definition head (s : string) : option ascii :=
  match s with String c _ => Some c | EmptyString => None end.

(** [m fl r prev s k]: some prefix of [s] matches [r] and [k] accepts what
    is left.  [prev] is the character before the current position ([None]
    at the start of the text).  An iteration of [Star] that consumes
    nothing is never needed, so the loop asks for progress. *)
Fixpoint m (fl : flags) (r : re) (prev : option ascii) (s : string)
           (k : option ascii -> string -> bool) {struct r} : bool :=
  match r with
  | Eps => k prev s
  | Lit c =>
      match s with
      | String x t => if lit_eq fl c x then k (Some x) t else false
      | EmptyString => false
      end
  | Any =>
      match s with
      | String x t =>
          if dotall fl || negb (Ascii.eqb x newline) then k (Some x) t else false
      | EmptyString => false
      end
  | OneOf negated items =>
      match s with
      | String x t => if in_set fl negated items x then k (Some x) t else false
      | EmptyString => false
      end
  | Seq r1 r2 => m fl r1 prev s (fun p' s' => m fl r2 p' s' k)
  | Alt r1 r2 => m fl r1 prev s k || m fl r2 prev s k
  | Star r1 =>
      (fix loop (n : nat) (p : option ascii) (s0 : string) {struct n} : bool :=
         k p s0 ||
         match n with
         | O => false
         | S n' =>
             m fl r1 p s0
               (fun p' s' => if length s' <? length s0 then loop n' p' s' else false)
         end) (length s) prev s
  | Bol => match prev with None => k prev s | Some _ => false end
  | Eol =>
      match s with
      | EmptyString => k prev s
      | String x EmptyString => if Ascii.eqb x newline then k prev s else false
      | _ => false
      end
  | WordB => if xorb (word_opt prev) (word_opt (head s)) then k prev s else false
  end.

(** [re.match(r, s)] is not [None]. *)
Definition matches (fl : flags) (r : re) (s : string) : bool :=
  m fl r None s (fun _ _ => true).

Fixpoint search_from (fl : flags) (r : re) (prev : option ascii) (s : string) : bool :=
  m fl r prev s (fun _ _ => true) ||
  match s with
  | EmptyString => false
  | String x t => search_from fl r (Some x) t
  end.

(** [re.search(r, s)] is not [None]. *)
Definition search (fl : flags) (r : re) (s : string) : bool :=
  search_from fl r None s.

Definition ws : re := OneOf false [CSpace].
Definition wd : re := OneOf false [CWord].
Definition dg : re := OneOf false [CDigit].
Definition quote : re := OneOf false [CChar "'"; CChar dquote].

End Regex.

(* ===================================================================== *)
(** * Python values, dictionaries, exceptions *)
(* ===================================================================== *)

(** A [float]. *)
Inductive pyfloat : Type :=
| FNan
| FInf (negative : bool)
| FFin (q : Q).

#[local] Set Warnings "-register-all".

(** The values a caller can put into a variable map.  An object of any
    other class is carried with its class name and its [str()] and [repr()]
    texts. *)
Inductive pyval : Type :=
| VNone
| VStr (s : string)
| VBool (b : bool)
| VInt (n : Z)
| VFloat (f : pyfloat)
| VList (items : list pyval)
| VDict (items : list (string * pyval))
| VObject (type_name : string) (text : string) (repr_text : string).

Definition dict (V : Type) : Type := list (string * V).

Section Dict.
Context {V : Type}.

Fixpoint dict_get (d : dict V) (k : string) : option V :=
  match d with
  | [] => None
  | (k', v) :: t => if String.eqb k k' then Some v else dict_get t k
  end.

Definition dict_mem (d : dict V) (k : string) : bool :=
  match dict_get d k with Some _ => true | None => false end.

(** [d[k] = v]: an existing key keeps its position, a new key goes last. *)
Fixpoint dict_set (d : dict V) (k : string) (v : V) : dict V :=
  match d with
  | [] => [(k, v)]
  | (k', v') :: t =>
      if String.eqb k k' then (k', v) :: t else (k', v') :: dict_set t k v
  end.

(** [del d[k]] for a key that may be absent. *)
Definition dict_del (d : dict V) (k : string) : dict V :=
  filter (fun kv => negb (String.eqb k (fst kv))) d.

(** [d.update(items)] *)
Definition dict_update (d : dict V) (items : list (string * V)) : dict V :=
  fold_left (fun acc kv => dict_set acc (fst kv) (snd kv)) items d.

(** [dict(items)], also the reading of a dict display [{k1: v1, ...}]. *)
Definition dict_of_items (items : list (string * V)) : dict V :=
  dict_update [] items.

Definition dict_keys (d : dict V) : list string := map fst d.

End Dict.

(** Exceptions, with the text [str(e)] gives. *)
Inductive exn : Type :=
| TemplateNotFoundError (msg : string)
| TemplateValidationError (msg : string)
| VariableValidationError (msg : string)
| SanitizationError (msg : string)
| KeyError (key : string)
| IndexError (msg : string)
| ValueError (msg : string)
| TypeError (msg : string)
| AttributeError (msg : string).

Definition exn_str (e : exn) : string :=
  match e with
  | TemplateNotFoundError m | TemplateValidationError m
  | VariableValidationError m | SanitizationError m
  | IndexError m | ValueError m | TypeError m | AttributeError m => m
  | KeyError k => PyStr.repr k
  end.

Definition py_type_name (v : pyval) : string :=
  match v with
  | VNone => "NoneType"
  | VStr _ => "str"
  | VBool _ => "bool"
  | VInt _ => "int"
  | VFloat _ => "float"
  | VList _ => "list"
  | VDict _ => "dict"
  | VObject ty _ _ => ty
  end.

(* ===================================================================== *)
(** * utils.py *)
(* ===================================================================== *)

Module Utils.
Import PyStr Regex.

Definition MAX_STRING_LENGTH : Z := 10000.

Definition len (s : string) : Z := Z.of_nat (length s).

Definition sql_flags : flags := {| ignorecase := true; dotall := false |}.

Definition SQL_INJECTION_PATTERNS : list re :=
  [ cat [WordB; text "SELECT"; Plus ws; Plus Any; Plus ws; text "FROM"; Plus ws; Plus wd];
    cat [WordB; alts [text "INSERT"; text "UPDATE"; text "DELETE"]; Plus ws; Star Any;
         alts [text "INTO"; text "FROM"; text "SET"]; Plus ws; Plus wd];
    cat [WordB; text "DROP"; Plus ws;
         alts [text "TABLE"; text "DATABASE"; text "INDEX"; text "VIEW"]; WordB];
    cat [WordB; text "EXEC"; Opt (text "UTE"); Star ws; Lit "("];
    cat [WordB; text "CREATE"; Plus ws;
         alts [text "TABLE"; text "DATABASE"; text "INDEX"; text "VIEW"]; WordB];
    cat [WordB; text "ALTER"; Plus ws; alts [text "TABLE"; text "DATABASE"]; WordB];
    cat [Lit ";"; Star ws; text "--"];
    cat [text "/*"; Star Any; text "*/"];
    cat [WordB; text "OR"; WordB; Plus ws; quote; Plus dg; Opt quote; Star ws; Lit "=";
         Star ws; quote; Plus dg];
    cat [WordB; text "AND"; WordB; Plus ws; quote; Plus dg; Opt quote; Star ws; Lit "=";
         Star ws; quote; Plus dg];
    cat [Lit "'"; Star ws; text "OR"; Plus ws; Lit "'"; Star wd; Lit "'"; Star ws; Lit "=";
         Star ws; Lit "'"; Star wd];
    cat [Lit ";"; Star ws;
         alts [text "DROP"; text "DELETE"; text "TRUNCATE"; text "INSERT"; text "UPDATE"];
         WordB];
    cat [text "UNION"; Plus ws; Opt (Seq (text "ALL") (Plus ws)); text "SELECT"];
    cat [text "xp_"; Plus wd] ].

Definition TEMPLATE_NAME_PATTERN : re :=
  cat [Bol; Plus (OneOf false [CRange "a" "z"; CRange "A" "Z"; CRange "0" "9"; CChar "_"]);
       Eol].

Definition no_flags : flags := {| ignorecase := false; dotall := false |}.

Definition Qabs_gt (q : Q) (bound : Z) : bool :=
  negb (Qle_bool (Qabs q) (inject_Z bound)).

(** The first list item that is a string longer than the ceiling. *)
Fixpoint long_item (i : nat) (items : list pyval) : option nat :=
  match items with
  | [] => None
  | VStr s :: t => if (MAX_STRING_LENGTH <? len s)%Z then Some i else long_item (S i) t
  | _ :: t => long_item (S i) t
  end.

(** The body of the loop over [variables.items()]: the error it returns
    for one entry, if any. *)
Definition validate_variable (var_name : string) (var_value : pyval) : option string :=
  if negb (truthy var_name) then Some "Variable name cannot be empty"
  else
    match var_value with
    | VNone => Some ("Variable '" ++ var_name ++ "' cannot be None")
    | VStr s =>
        if negb (truthy (strip s))
        then Some ("Variable '" ++ var_name ++ "' cannot be empty or whitespace-only")
        else if (MAX_STRING_LENGTH <? len s)%Z
        then Some ("Variable '" ++ var_name ++ "' exceeds maximum length of "
                   ++ str_of_Z MAX_STRING_LENGTH ++ " characters (got "
                   ++ str_of_Z (len s) ++ ")")
        else if existsb (fun p => search sql_flags p s) SQL_INJECTION_PATTERNS
        then Some ("Variable '" ++ var_name ++ "' contains potential SQL injection pattern")
        else None
    | VBool _ => None
    | VInt n =>
        if (10 ^ 12 <? Z.abs n)%Z
        then Some ("Variable '" ++ var_name ++ "' integer value is unreasonably large")
        else None
    | VFloat FNan | VFloat (FInf _) =>
        Some ("Variable '" ++ var_name ++ "' is NaN or Infinity")
    | VFloat (FFin q) =>
        if Qabs_gt q (10 ^ 12)
        then Some ("Variable '" ++ var_name ++ "' float value is unreasonably large")
        else None
    | VList items =>
        match items with
        | [] => Some ("Variable '" ++ var_name ++ "' list cannot be empty")
        | _ =>
            if 1000 <? List.length items
            then Some ("Variable '" ++ var_name ++ "' list is too large (max 1000 items)")
            else
              match long_item 0 items with
              | Some i =>
                  Some ("Variable '" ++ var_name ++ "' list item " ++ str_of_nat i
                        ++ " exceeds maximum length of " ++ str_of_Z MAX_STRING_LENGTH
                        ++ " characters")
              | None => None
              end
        end
    | VDict _ => None
    | VObject ty _ _ =>
        Some ("Variable '" ++ var_name ++ "' has unsupported type " ++ ty)
    end.

Fixpoint validate_variables_loop (variables : dict pyval) : option string :=
  match variables with
  | [] => None
  | (var_name, var_value) :: rest =>
      match validate_variable var_name var_value with
      | Some err => Some err
      | None => validate_variables_loop rest
      end
  end.

(** [validate_input(template_name, variables)]: [(is_valid, error_message)]. *)
Definition validate_input (template_name : string) (variables : dict pyval)
  : bool * option string :=
  if negb (truthy template_name) then (false, Some "Template name cannot be empty")
  else if negb (matches no_flags TEMPLATE_NAME_PATTERN template_name)
  then (false, Some ("Template name must contain only alphanumeric characters "
                     ++ "and underscores (a-z, A-Z, 0-9, _)"))
  else
    match validate_variables_loop variables with
    | Some err => (false, Some err)
    | None => (true, None)
    end.

End Utils.

(* ===================================================================== *)
(** * [str.format] with keyword arguments

    The markup iterator and the field parser follow CPython's
    [unicode_format.h].  Every value in [kwargs] is a string.  A replacement
    field that is only a name is rendered here; what attribute and index
    access, a conversion and a non-empty format specification do to a string
    is left to two parameters, [ext_access] and [ext_render], which cannot
    raise [KeyError]: only the lookup of the field's first name in [kwargs]
    does. *)
(* ===================================================================== *)

Module Format.
Import PyStr.

Inductive ext_error : Type :=
| ExtValueError (msg : string)
| ExtIndexError (msg : string)
| ExtTypeError (msg : string)
| ExtAttributeError (msg : string).

Definition exn_of_ext (e : ext_error) : exn :=
  match e with
  | ExtValueError m => ValueError m
  | ExtIndexError m => IndexError m
  | ExtTypeError m => TypeError m
  | ExtAttributeError m => AttributeError m
  end.

(** A parsed replacement field. *)
Record field : Type := {
  field_name : string;
  conversion : option ascii;
  format_spec : string;
  format_spec_needs_expanding : bool
}.

(** States of the scanner.  Accumulators hold text in reverse. *)
Inductive pstate : Type :=
| PLit
| PName (acc : string) (in_bracket : bool)
| PConvChar (fname : string)
| PConvEnd (fname : string) (conv : ascii)
| PSpec (fname : string) (conv : option ascii) (acc : string) (count : nat)
        (expanding : bool).

Fixpoint rev_append (acc out : string) : string :=
  match acc with
  | EmptyString => out
  | String c t => rev_append t (String c out)
  end.

Definition unrev (acc : string) : string := rev_append acc EmptyString.

(** [field_name_split]: the first name runs to the first '.' or '['. *)
Fixpoint split_first (s : string) : string * string :=
  match s with
  | EmptyString => (EmptyString, EmptyString)
  | String c t =>
      if Ascii.eqb c "." || Ascii.eqb c "["
      then (EmptyString, s)
      else let (a, b) := split_first t in (String c a, b)
  end.

Definition PY_SSIZE_T_MAX : Z := 2 ^ 63 - 1.

(** [get_integer]: [None] when the text is empty or has a non-digit (the
    C code's -1); [Some (inr tt)] on overflow. *)
Fixpoint get_integer_from (acc : Z) (s : string) : option (Z + unit) :=
  match s with
  | EmptyString => Some (inl acc)
  | String c t =>
      if isdecimal c then
        let d := (Z.of_N (code c) - 48)%Z in
        if (PY_SSIZE_T_MAX / 10 <? acc)%Z then Some (inr tt)
        else if (PY_SSIZE_T_MAX - d <? acc * 10)%Z then Some (inr tt)
        else get_integer_from (acc * 10 + d)%Z t
      else None
  end.

Definition get_integer (s : string) : option (Z + unit) :=
  match s with
  | EmptyString => None
  | _ => get_integer_from 0%Z s
  end.

Section Render.

Variable ext_access : string -> option ascii -> string -> option ext_error.
Variable ext_render : string -> option ascii -> string -> string -> string + ext_error.
(** The formatter one level down, used to expand a nested specification. *)
Variable expand : dict string -> string -> string + exn.

Variable kwargs : dict string.

(** [output_markup]: look the field up, then access, convert, expand the
    specification and render. *)
Definition render_field (f : field) : string + exn :=
  let (first, rest) := split_first (field_name f) in
  match get_integer first with
  | Some (inr _) => inr (ValueError "Too many decimal digits in format string")
  | Some (inl i) =>
      inr (IndexError ("Replacement index " ++ str_of_Z i
                       ++ " out of range for positional args tuple"))
  | None =>
      match first with
      | EmptyString =>
          inr (IndexError "Replacement index 0 out of range for positional args tuple")
      | _ =>
          match dict_get kwargs first with
          | None => inr (KeyError first)
          | Some v =>
              let plain :=
                match rest, conversion f with
                | EmptyString, None => true
                | _, _ => false
                end in
              match (if plain then None else ext_access rest (conversion f) v) with
              | Some e => inr (exn_of_ext e)
              | None =>
                  let spec :=
                    if format_spec_needs_expanding f
                    then expand kwargs (format_spec f)
                    else inl (format_spec f) in
                  match spec with
                  | inr e => inr e
                  | inl sp =>
                      match plain, sp with
                      | true, EmptyString => inl v
                      | _, _ =>
                          match ext_render rest (conversion f) sp v with
                          | inl out => inl out
                          | inr e => inr (exn_of_ext e)
                          end
                      end
                  end
              end
          end
      end
  end.

Definition finish (fname : string) (conv : option ascii) (spec : string)
                  (expanding : bool) : string + exn :=
  render_field {| field_name := unrev fname; conversion := conv;
                  format_spec := unrev spec;
                  format_spec_needs_expanding := expanding |}.

(** The scanner: [out] is the text produced so far, in reverse. *)
Fixpoint scan (s : string) (st : pstate) (out : string) {struct s} : string + exn :=
  match s with
  | EmptyString =>
      match st with
      | PLit => inl (unrev out)
      | PName _ _ => inr (ValueError "expected '}' before end of string")
      | PConvChar _ =>
          inr (ValueError "end of string while looking for conversion specifier")
      | PConvEnd _ _ | PSpec _ _ _ _ _ =>
          inr (ValueError "unmatched '{' in format spec")
      end
  | String c t =>
      match st with
      | PLit =>
          if Ascii.eqb c "{" then
            match t with
            | EmptyString => inr (ValueError "Single '{' encountered in format string")
            | String c' t' =>
                if Ascii.eqb c' "{" then scan t' PLit (String "{" out)
                else scan t (PName EmptyString false) out
            end
          else if Ascii.eqb c "}" then
            match t with
            | String c' t' =>
                if Ascii.eqb c' "}" then scan t' PLit (String "}" out)
                else inr (ValueError "Single '}' encountered in format string")
            | EmptyString => inr (ValueError "Single '}' encountered in format string")
            end
          else scan t PLit (String c out)
      | PName acc true =>
          if Ascii.eqb c "]" then scan t (PName (String c acc) false)  out
          else scan t (PName (String c acc) true) out
      | PName acc false =>
          if Ascii.eqb c "{" then inr (ValueError "unexpected '{' in field name")
          else if Ascii.eqb c "[" then scan t (PName (String c acc) true) out
          else if Ascii.eqb c "}" then
            match finish acc None EmptyString false with
            | inl txt => scan t PLit (rev_append txt out)
            | inr e => inr e
            end
          else if Ascii.eqb c ":" then scan t (PSpec acc None EmptyString 1 false) out
          else if Ascii.eqb c "!" then scan t (PConvChar acc) out
          else scan t (PName (String c acc) false) out
      | PConvChar fname => scan t (PConvEnd fname c) out
      | PConvEnd fname conv =>
          if Ascii.eqb c "}" then
            match finish fname (Some conv) EmptyString false with
            | inl txt => scan t PLit (rev_append txt out)
            | inr e => inr e
            end
          else if Ascii.eqb c ":" then scan t (PSpec fname (Some conv) EmptyString 1 false) out
          else inr (ValueError "expected ':' after conversion specifier")
      | PSpec fname conv acc count expanding =>
          if Ascii.eqb c "{" then scan t (PSpec fname conv (String c acc) (S count) true) out
          else if Ascii.eqb c "}" then
            match count with
            | S O | O =>
                match finish fname conv acc expanding with
                | inl txt => scan t PLit (rev_append txt out)
                | inr e => inr e
                end
            | S n => scan t (PSpec fname conv (String c acc) n expanding) out
            end
          else scan t (PSpec fname conv (String c acc) count expanding) out
      end
  end.

End Render.

Section Levels.

Variable ext_access : string -> option ascii -> string -> option ext_error.
Variable ext_render : string -> option ascii -> string -> string -> string + ext_error.

(** [build_string] at recursion depth 0, 1 and 2. *)
Definition build_string_0 (kwargs : dict string) (s : string) : string + exn :=
  inr (ValueError "Max string recursion exceeded").

Definition build_string_1 (kwargs : dict string) (s : string) : string + exn :=
  scan ext_access ext_render build_string_0 kwargs s PLit EmptyString.

(** [s.format] applied to the keyword arguments [kwargs]. *)
Definition format (s : string) (kwargs : dict string) : string + exn :=
  scan ext_access ext_render build_string_1 kwargs s PLit EmptyString.

End Levels.

End Format.

(* ===================================================================== *)
(** * What the embedding takes from outside the repository *)
(* ===================================================================== *)

(** Library functions whose result is used only as an opaque text.
    [sanitize_output] is [utils.sanitize_output]: its rewriting of the
    generated text is kept abstract, every statement below holds for any
    such function. *)
Class PyRuntime : Type := {
  float_str : Q -> string;
  ext_access : string -> option ascii -> string -> option Format.ext_error;
  ext_render : string -> option ascii -> string -> string -> string + Format.ext_error;
  md5_hexdigest : string -> string;
  json_dumps_sorted : dict pyval -> string;
  sanitize_output : string -> string
}.

Section PyText.
Context `{PyRuntime}.

Definition pyfloat_str (f : pyfloat) : string :=
  match f with
  | FNan => "nan"
  | FInf true => "-inf"
  | FInf false => "inf"
  | FFin q => float_str q
  end.

(** [repr(v)] *)
Fixpoint py_repr (v : pyval) : string :=
  match v with
  | VNone => "None"
  | VStr s => PyStr.repr s
  | VBool true => "True"
  | VBool false => "False"
  | VInt n => PyStr.str_of_Z n
  | VFloat f => pyfloat_str f
  | VList items => "[" ++ PyStr.join ", " (map py_repr items) ++ "]"
  | VDict items =>
      "{" ++ PyStr.join ", "
               (map (fun kv => match kv with
                               | (k, x) => PyStr.repr k ++ ": " ++ py_repr x
                               end) items) ++ "}"
  | VObject _ _ r => r
  end.

(** [str(v)] *)
Definition py_str (v : pyval) : string :=
  match v with
  | VStr s => s
  | VObject _ t _ => t
  | _ => py_repr v
  end.

End PyText.

(* ===================================================================== *)
(** * prompt_engine.py: PromptTemplate *)
(* ===================================================================== *)

Module PromptTemplate.
Import PyStr Regex.

Definition MAX_TEMPLATE_LENGTH : Z := 10000.
Definition MAX_VARIABLE_LENGTH : Z := 5000.
Definition MAX_NAME_LENGTH : Z := 100.

Definition dangerous_flags (with_dotall : bool) : flags :=
  {| ignorecase := true; dotall := with_dotall |}.

Definition DANGEROUS_PATTERNS : list (flags * re) :=
  [ (dangerous_flags false,
     cat [alts [text "drop"; text "delete"; text "truncate"; text "alter"; text "insert";
                text "update"];
          Plus ws; alts [text "table"; text "database"; text "schema"]]);
    (dangerous_flags true,
     cat [text "<script"; Star (OneOf true [CChar ">"]); Lit ">"; Star Any;
          text "</script>"]);
    (dangerous_flags false, text "javascript:");
    (dangerous_flags false, cat [text "on"; Plus wd; Star ws; Lit "="]) ].

Record t : Type := {
  name : string;
  category : string;
  template : string;
  system_instructions : string;
  default_tone : string;
  required_variables : list string;
  optional_variables : dict string;
  max_tokens_recommendation : Z;
  temperature_recommendation : pyfloat;
  version : string;
  description : string;
  tags : list string;
  ab_test_group : option string;
  enabled : bool
}.

(** [lo <= f <= hi] on floats: false as soon as [f] is NaN. *)
Definition float_between (lo hi : Q) (f : pyfloat) : bool :=
  match f with
  | FNan | FInf _ => false
  | FFin q => Qle_bool lo q && Qle_bool q hi
  end.

Section WithRuntime.
Context `{PyRuntime}.

(** [_validate_template], run by [__post_init__]: the exception it raises,
    if any.  The two checks that only log a warning are left out. *)
Definition _validate_template (self : t) : option exn :=
  if negb (truthy (name self))
  then Some (TemplateValidationError "Template name must be a non-empty string")
  else if (MAX_NAME_LENGTH <? Utils.len (name self))%Z
  then Some (TemplateValidationError
               ("Template name exceeds maximum length of " ++ str_of_Z MAX_NAME_LENGTH))
  else if negb (truthy (template self))
  then Some (TemplateValidationError "Template must be a non-empty string")
  else if (MAX_TEMPLATE_LENGTH <? Utils.len (template self))%Z
  then Some (TemplateValidationError
               ("Template exceeds maximum length of " ++ str_of_Z MAX_TEMPLATE_LENGTH))
  else if negb (float_between 0 2 (temperature_recommendation self))
  then Some (TemplateValidationError
               ("Temperature must be between 0.0 and 2.0, got "
                ++ pyfloat_str (temperature_recommendation self)))
  else if (max_tokens_recommendation self <? 1)%Z
  then Some (TemplateValidationError "max_tokens_recommendation must be at least 1")
  else None.

(** The constructor: the dataclass fields, then [__post_init__]. *)
Definition new (fields : t) : t + exn :=
  match _validate_template fields with
  | Some e => inr e
  | None => inl fields
  end.

Definition is_missing (variables : dict pyval) (var : string) : bool :=
  match dict_get variables var with
  | None => true
  | Some VNone => true
  | Some (VStr s) => negb (truthy (strip s))
  | Some _ => false
  end.

(** [validate_variables]: [(is_valid, missing)]. *)
Definition validate_variables (self : t) (variables : dict pyval) : bool * list string :=
  let missing := filter (is_missing variables) (required_variables self) in
  (match missing with [] => true | _ => false end, missing).

Definition escape_braces (s : string) : string :=
  replace "}" "}}" (replace "{" "{{" s).

Definition unescape_braces (s : string) : string :=
  replace "}}" "}" (replace "{{" "{" s).

(** [_sanitize_value] *)
Definition _sanitize_value (value : pyval) : string + exn :=
  let str_value := match value with VNone => EmptyString | _ => py_str value end in
  if (MAX_VARIABLE_LENGTH <? Utils.len str_value)%Z
  then inr (SanitizationError
              ("Variable value exceeds maximum length of " ++ str_of_Z MAX_VARIABLE_LENGTH))
  else if existsb (fun p => search (fst p) (snd p) str_value) DANGEROUS_PATTERNS
  then inr (SanitizationError "Input contains potentially malicious content")
  else inl (escape_braces str_value).

(** The loop [for key, value in variables.items()] of [generate]. *)
Fixpoint override_vars (sanitize : bool) (merged_vars : dict string)
                       (variables : dict pyval) : dict string + exn :=
  match variables with
  | [] => inl merged_vars
  | (key, value) :: rest =>
      if sanitize then
        match _sanitize_value value with
        | inr e => inr e
        | inl v => override_vars sanitize (dict_set merged_vars key v) rest
        end
      else
        override_vars sanitize
          (dict_set merged_vars key
                    (match value with VNone => EmptyString | _ => py_str value end))
          rest
  end.

(** [merged_vars] before the loop: the optional defaults, then the default
    tone when neither side has the key. *)
Definition initial_vars (self : t) (variables : dict pyval) : dict string :=
  let merged_vars := optional_variables self in
  if negb (dict_mem merged_vars "tone") && negb (dict_mem variables "tone")
  then dict_set merged_vars "tone" (default_tone self)
  else merged_vars.

Definition final_vars (merged_vars : dict string) : dict string :=
  map (fun kv => (fst kv, unescape_braces (snd kv))) merged_vars.

(** [generate(variables, sanitize, include_system)] *)
Definition generate (self : t) (variables : dict pyval)
                    (sanitize include_system : bool) : string + exn :=
  let (is_valid, missing) := validate_variables self variables in
  if negb is_valid
  then inr (VariableValidationError
              ("Missing required variables for template '" ++ name self ++ "': "
               ++ repr_list missing))
  else
    match override_vars sanitize (initial_vars self variables) variables with
    | inr e => inr e
    | inl merged_vars =>
        match Format.format ext_access ext_render (template self) (final_vars merged_vars) with
        | inr (KeyError k) =>
            inr (VariableValidationError
                   ("Template variable " ++ exn_str (KeyError k)
                    ++ " not provided and has no default"))
        | inr e => inr e
        | inl result =>
            if include_system && truthy (system_instructions self)
            then inl ("[System: " ++ system_instructions self ++ "]"
                      ++ String Regex.newline (String Regex.newline result))
            else inl result
        end
    end.

End WithRuntime.

End PromptTemplate.

(* ===================================================================== *)
(** * prompt_engine.py: PromptEngine *)
(* ===================================================================== *)

Definition dq : string := String PyStr.dquote EmptyString.

Definition builtin_product_description : PromptTemplate.t :=
  {| PromptTemplate.name := "product_description";
     PromptTemplate.category := "marketing";
     PromptTemplate.template :=
       ("Write a {tone} product description for {product_name}. Key features: "
       ++ "{features}. Target audience: {audience}. Length: {length} words. "
       ++ "Include a compelling call-to-action.");
     PromptTemplate.system_instructions := "You are an expert e-commerce copywriter";
     PromptTemplate.default_tone := "persuasive";
     PromptTemplate.required_variables := ["product_name"; "features"; "audience"];
     PromptTemplate.optional_variables := [("tone", "persuasive"); ("length", "100")];
     PromptTemplate.max_tokens_recommendation := 300;
     PromptTemplate.temperature_recommendation := (FFin (7 # 10));
     PromptTemplate.version := "1.0.0";
     PromptTemplate.description := "Generate compelling product descriptions for e-commerce";
     PromptTemplate.tags := ["e-commerce"; "copywriting"; "product"; "marketing"];
     PromptTemplate.ab_test_group := None;
     PromptTemplate.enabled := true |}.

Definition builtin_social_media_post : PromptTemplate.t :=
  {| PromptTemplate.name := "social_media_post";
     PromptTemplate.category := "social_media";
     PromptTemplate.template :=
       ("Create a {platform}-optimized post about {topic}. Tone: {tone}. "
       ++ "Include {hashtag_count} relevant hashtags and a strong call-to-action: "
       ++ "{cta}. Character limit: {char_limit}.");
     PromptTemplate.system_instructions := "You are a social media marketing specialist";
     PromptTemplate.default_tone := "casual";
     PromptTemplate.required_variables := ["platform"; "topic"; "cta"];
     PromptTemplate.optional_variables := [("tone", "engaging"); ("hashtag_count", "3"); ("char_limit", "280")];
     PromptTemplate.max_tokens_recommendation := 200;
     PromptTemplate.temperature_recommendation := (FFin (4 # 5));
     PromptTemplate.version := "1.0.0";
     PromptTemplate.description := "Create platform-optimized social media posts";
     PromptTemplate.tags := ["social-media"; "marketing"; "engagement"];
     PromptTemplate.ab_test_group := None;
     PromptTemplate.enabled := true |}.

Definition builtin_email_subject_line : PromptTemplate.t :=
  {| PromptTemplate.name := "email_subject_line";
     PromptTemplate.category := "email";
     PromptTemplate.template :=
       ("Generate {count} email subject lines for {campaign_type}. Target "
       ++ "audience: {audience}. Goal: {goal}. Style: {style}. Each must be under "
       ++ "60 characters and avoid spam trigger words.");
     PromptTemplate.system_instructions := "You are an email marketing expert specializing in high open rates";
     PromptTemplate.default_tone := "professional";
     PromptTemplate.required_variables := ["campaign_type"; "audience"; "goal"];
     PromptTemplate.optional_variables := [("count", "5"); ("style", "professional")];
     PromptTemplate.max_tokens_recommendation := 300;
     PromptTemplate.temperature_recommendation := (FFin (4 # 5));
     PromptTemplate.version := "1.0.0";
     PromptTemplate.description := "Generate high-converting email subject lines";
     PromptTemplate.tags := ["email"; "marketing"; "conversion"; "subject-lines"];
     PromptTemplate.ab_test_group := None;
     PromptTemplate.enabled := true |}.

Definition builtin_blog_post_outline : PromptTemplate.t :=
  {| PromptTemplate.name := "blog_post_outline";
     PromptTemplate.category := "content";
     PromptTemplate.template :=
       (("Create a detailed blog post outline for: " ++ dq ++ "{title}" ++ dq ++ ". Target keyword: ")
       ++ "{keyword}. Audience: {audience}. Include {section_count} main sections "
       ++ "with subsections. Add meta description and suggested internal links.");
     PromptTemplate.system_instructions := "You are a content strategist and SEO specialist";
     PromptTemplate.default_tone := "authoritative";
     PromptTemplate.required_variables := ["title"; "keyword"; "audience"];
     PromptTemplate.optional_variables := [("section_count", "5")];
     PromptTemplate.max_tokens_recommendation := 800;
     PromptTemplate.temperature_recommendation := (FFin (3 # 5));
     PromptTemplate.version := "1.0.0";
     PromptTemplate.description := "Create SEO-optimized blog post outlines";
     PromptTemplate.tags := ["blog"; "seo"; "content-strategy"; "outline"];
     PromptTemplate.ab_test_group := None;
     PromptTemplate.enabled := true |}.

Definition builtin_meta_description : PromptTemplate.t :=
  {| PromptTemplate.name := "meta_description";
     PromptTemplate.category := "seo";
     PromptTemplate.template :=
       ("Write an SEO-optimized meta description for a page about {topic}. "
       ++ "Primary keyword: {keyword}. Include a call-to-action. Must be 150-160 "
       ++ "characters and compelling for search results.");
     PromptTemplate.system_instructions := "You are an SEO specialist";
     PromptTemplate.default_tone := "professional";
     PromptTemplate.required_variables := ["topic"; "keyword"];
     PromptTemplate.optional_variables := [];
     PromptTemplate.max_tokens_recommendation := 100;
     PromptTemplate.temperature_recommendation := (FFin (1 # 2));
     PromptTemplate.version := "1.0.0";
     PromptTemplate.description := "Generate SEO-optimized meta descriptions";
     PromptTemplate.tags := ["seo"; "meta-description"; "search"];
     PromptTemplate.ab_test_group := None;
     PromptTemplate.enabled := true |}.

Definition builtin_tagline_slogan : PromptTemplate.t :=
  {| PromptTemplate.name := "tagline_slogan";
     PromptTemplate.category := "branding";
     PromptTemplate.template :=
       ("Generate {count} memorable taglines for {brand_name}. Industry: "
       ++ "{industry}. Brand personality: {personality}. Target emotion: "
       ++ "{emotion}. Each must be under 10 words and unique.");
     PromptTemplate.system_instructions := "You are a creative branding expert";
     PromptTemplate.default_tone := "creative";
     PromptTemplate.required_variables := ["brand_name"; "industry"; "personality"; "emotion"];
     PromptTemplate.optional_variables := [("count", "5")];
     PromptTemplate.max_tokens_recommendation := 250;
     PromptTemplate.temperature_recommendation := (FFin (9 # 10));
     PromptTemplate.version := "1.0.0";
     PromptTemplate.description := "Generate memorable brand taglines and slogans";
     PromptTemplate.tags := ["branding"; "tagline"; "slogan"; "creative"];
     PromptTemplate.ab_test_group := None;
     PromptTemplate.enabled := true |}.

Definition builtin_faq_generator : PromptTemplate.t :=
  {| PromptTemplate.name := "faq_generator";
     PromptTemplate.category := "support";
     PromptTemplate.template :=
       ("Generate {count} frequently asked questions and detailed answers for "
       ++ "{product_or_service}. Target audience: {audience}. Tone: {tone}. Focus "
       ++ "on common concerns about {focus_area}.");
     PromptTemplate.system_instructions := "You are a customer support expert";
     PromptTemplate.default_tone := "helpful";
     PromptTemplate.required_variables := ["product_or_service"; "audience"; "focus_area"];
     PromptTemplate.optional_variables := [("tone", "helpful"); ("count", "5")];
     PromptTemplate.max_tokens_recommendation := 1000;
     PromptTemplate.temperature_recommendation := (FFin (1 # 2));
     PromptTemplate.version := "1.0.0";
     PromptTemplate.description := "Generate comprehensive FAQ content";
     PromptTemplate.tags := ["faq"; "support"; "customer-service"; "documentation"];
     PromptTemplate.ab_test_group := None;
     PromptTemplate.enabled := true |}.

Definition builtin_email_newsletter : PromptTemplate.t :=
  {| PromptTemplate.name := "email_newsletter";
     PromptTemplate.category := "email";
     PromptTemplate.template :=
       ("Write an engaging email newsletter about {topic}. Target: {audience}. "
       ++ "Include: attention-grabbing subject line, opening hook, "
       ++ "{section_count} content sections, and clear CTA: {cta}. Tone: {tone}.");
     PromptTemplate.system_instructions := "You are an email marketing copywriter";
     PromptTemplate.default_tone := "conversational";
     PromptTemplate.required_variables := ["topic"; "audience"; "cta"];
     PromptTemplate.optional_variables := [("section_count", "3"); ("tone", "conversational")];
     PromptTemplate.max_tokens_recommendation := 800;
     PromptTemplate.temperature_recommendation := (FFin (7 # 10));
     PromptTemplate.version := "1.0.0";
     PromptTemplate.description := "Create engaging email newsletter content";
     PromptTemplate.tags := ["email"; "newsletter"; "marketing"; "engagement"];
     PromptTemplate.ab_test_group := None;
     PromptTemplate.enabled := true |}.

Definition builtin_press_release : PromptTemplate.t :=
  {| PromptTemplate.name := "press_release";
     PromptTemplate.category := "marketing";
     PromptTemplate.template :=
       ("Write a professional press release for {company_name} announcing "
       ++ "{announcement}. Include: headline, subheadline, dateline ({location}), "
       ++ "lead paragraph, {body_paragraph_count} body paragraphs, boilerplate, "
       ++ "and contact info placeholder. Tone: {tone}. Target media: "
       ++ "{target_media}.");
     PromptTemplate.system_instructions := "You are a PR and communications specialist";
     PromptTemplate.default_tone := "formal";
     PromptTemplate.required_variables := ["company_name"; "announcement"; "location"];
     PromptTemplate.optional_variables := [("body_paragraph_count", "3"); ("tone", "formal"); ("target_media", "general news outlets")];
     PromptTemplate.max_tokens_recommendation := 800;
     PromptTemplate.temperature_recommendation := (FFin (2 # 5));
     PromptTemplate.version := "1.0.0";
     PromptTemplate.description := "Generate professional press releases";
     PromptTemplate.tags := ["pr"; "press-release"; "communications"; "announcement"];
     PromptTemplate.ab_test_group := None;
     PromptTemplate.enabled := true |}.

Definition builtin_competitor_analysis : PromptTemplate.t :=
  {| PromptTemplate.name := "competitor_analysis";
     PromptTemplate.category := "marketing";
     PromptTemplate.template :=
       ("Create a competitive analysis comparing {company} to competitors: "
       ++ "{competitors}. Industry: {industry}. Focus areas: {focus_areas}. "
       ++ "Include: strengths, weaknesses, opportunities, and threats for each. "
       ++ "Analysis depth: {depth}.");
     PromptTemplate.system_instructions := "You are a market research and competitive intelligence analyst";
     PromptTemplate.default_tone := "authoritative";
     PromptTemplate.required_variables := ["company"; "competitors"; "industry"; "focus_areas"];
     PromptTemplate.optional_variables := [("depth", "comprehensive")];
     PromptTemplate.max_tokens_recommendation := 1500;
     PromptTemplate.temperature_recommendation := (FFin (2 # 5));
     PromptTemplate.version := "1.0.0";
     PromptTemplate.description := "Generate competitive analysis reports";
     PromptTemplate.tags := ["analysis"; "competition"; "market-research"; "strategy"];
     PromptTemplate.ab_test_group := None;
     PromptTemplate.enabled := true |}.

(** [_create_builtin_templates] *)
Definition _create_builtin_templates : list PromptTemplate.t :=
  [ builtin_product_description;
    builtin_social_media_post;
    builtin_email_subject_line;
    builtin_blog_post_outline;
    builtin_meta_description;
    builtin_tagline_slogan;
    builtin_faq_generator;
    builtin_email_newsletter;
    builtin_press_release;
    builtin_competitor_analysis ].

Module PromptEngine.

(** [_templates] is the catalogue, [_active_templates] a set of names kept
    as a duplicate-free list, [_usage_stats] the per-name access counter. *)
Record t : Type := {
  _templates : dict PromptTemplate.t;
  _active_templates : list string;
  _usage_stats : dict nat
}.

Definition set_add (s : list string) (x : string) : list string :=
  if existsb (String.eqb x) s then s else (s ++ [x])%list.

Definition set_discard (s : list string) (x : string) : list string :=
  filter (fun y => negb (String.eqb x y)) s.

(** [PromptEngine()] *)
Definition empty : t :=
  {| _templates := []; _active_templates := []; _usage_stats := [] |}.

(** One round of the loop of [load_templates]. *)
Definition load_one (self : t) (template : PromptTemplate.t) : t :=
  {| _templates := dict_set (_templates self) (PromptTemplate.name template) template;
     _active_templates :=
       if PromptTemplate.enabled template
       then set_add (_active_templates self) (PromptTemplate.name template)
       else _active_templates self;
     _usage_stats := _usage_stats self |}.

Definition load_templates (self : t) : t :=
  fold_left load_one _create_builtin_templates self.

(** [create_engine_with_defaults()] *)
Definition create_engine_with_defaults : t := load_templates empty.

Section WithRuntime.
Context `{PyRuntime}.

(** [get_template(name)] with [use_cache=True].  [_get_template_cached]
    memoises [to_dict()] of the stored template.  [register_template] and
    [remove_template], the two methods embedded here that change the
    catalogue of an engine in use, clear that memo, so the memo holds the
    fields of the stored template, and [from_dict] builds a new template
    from them, which runs the constructor's validation again. *)
Definition get_template (self : t) (name : string) : (PromptTemplate.t + exn) * t :=
  match dict_get (_templates self) name with
  | None => (inr (TemplateNotFoundError ("Template '" ++ name ++ "' not found")), self)
  | Some template =>
      let count := match dict_get (_usage_stats self) name with
                   | Some n => n | None => 0 end in
      (PromptTemplate.new template,
       {| _templates := _templates self;
          _active_templates := _active_templates self;
          _usage_stats := dict_set (_usage_stats self) name (count + 1) |})
  end.

End WithRuntime.

(** [register_template(template)]: insert or overwrite by name. *)
Definition register_template (self : t) (template : PromptTemplate.t) : t :=
  {| _templates := dict_set (_templates self) (PromptTemplate.name template) template;
     _active_templates :=
       if PromptTemplate.enabled template
       then set_add (_active_templates self) (PromptTemplate.name template)
       else set_discard (_active_templates self) (PromptTemplate.name template);
     _usage_stats := _usage_stats self |}.

(** [remove_template(name)] *)
Definition remove_template (self : t) (name : string) : bool * t :=
  if dict_mem (_templates self) name
  then (true,
        {| _templates := dict_del (_templates self) name;
           _active_templates := set_discard (_active_templates self) name;
           _usage_stats := _usage_stats self |})
  else (false, self).

End PromptEngine.

(** The keyword arguments [create_template] passes on to the constructor. *)
Record template_options : Type := {
  opt_category : option string;
  opt_default_tone : option string;
  opt_max_tokens_recommendation : option Z;
  opt_temperature_recommendation : option pyfloat;
  opt_version : option string;
  opt_description : option string;
  opt_tags : option (list string);
  opt_ab_test_group : option string;
  opt_enabled : option bool
}.


Definition or_default {A : Type} (o : option A) (d : A) : A :=
  match o with Some x => x | None => d end.

Section CreateTemplate.
Context `{PyRuntime}.

(** [create_template(name, template, category, system_instructions,
    required_variables, optional_variables, ...)]: the dataclass defaults
    fill what the caller leaves out. *)
Definition create_template (name template : string) (system_instructions : string)
    (required_variables : option (list string))
    (optional_variables : option (dict string))
    (kwargs : template_options) : PromptTemplate.t + exn :=
  PromptTemplate.new
    {| PromptTemplate.name := name;
       PromptTemplate.category := or_default (opt_category kwargs) "general";
       PromptTemplate.template := template;
       PromptTemplate.system_instructions := system_instructions;
       PromptTemplate.default_tone := or_default (opt_default_tone kwargs) "professional";
       PromptTemplate.required_variables := or_default required_variables [];
       PromptTemplate.optional_variables := or_default optional_variables [];
       PromptTemplate.max_tokens_recommendation :=
         or_default (opt_max_tokens_recommendation kwargs) 500%Z;
       PromptTemplate.temperature_recommendation :=
         or_default (opt_temperature_recommendation kwargs) (FFin (7 # 10));
       PromptTemplate.version := or_default (opt_version kwargs) "1.0.0";
       PromptTemplate.description := or_default (opt_description kwargs) EmptyString;
       PromptTemplate.tags := or_default (opt_tags kwargs) [];
       PromptTemplate.ab_test_group := opt_ab_test_group kwargs;
       PromptTemplate.enabled := or_default (opt_enabled kwargs) true |}.

End CreateTemplate.

(* ===================================================================== *)
(** * content_generator.py: result records and the LRU cache *)
(* ===================================================================== *)

Record tokens : Type := { prompt : Z; completion : Z; total : Z }.

Definition no_tokens : tokens := {| prompt := 0; completion := 0; total := 0 |}.

(** The result dictionary of one generation attempt.  [error] is [None]
    when the key is absent. *)
Module Result.
Record t : Type := {
  success : bool;
  content : string;
  template_used : string;
  variables : dict pyval;
  timestamp : string;
  request_id : string;
  model : string;
  tokens_used : tokens;
  cost : Q;
  cached : bool;
  generation_time : Q;
  error : option string
}.

Definition set_error (r : t) (e : string) : t :=
  {| success := success r; content := content r; template_used := template_used r;
     variables := variables r; timestamp := timestamp r; request_id := request_id r;
     model := model r; tokens_used := tokens_used r; cost := cost r; cached := cached r;
     generation_time := generation_time r; error := Some e |}.

Definition set_generation_time (r : t) (d : Q) : t :=
  {| success := success r; content := content r; template_used := template_used r;
     variables := variables r; timestamp := timestamp r; request_id := request_id r;
     model := model r; tokens_used := tokens_used r; cost := cost r; cached := cached r;
     generation_time := d; error := error r |}.

(** The four assignments made to a cached result when it is replayed. *)
Definition replay (r : t) (rid ts : string) (d : Q) : t :=
  {| success := success r; content := content r; template_used := template_used r;
     variables := variables r; timestamp := ts; request_id := rid;
     model := model r; tokens_used := tokens_used r; cost := cost r; cached := true;
     generation_time := d; error := error r |}.
End Result.

(** What [api_manager.generate_content] returns, read through the [get]
    calls of the orchestrator. *)
Module ApiResponse.
Record t : Type := {
  success : bool;
  content : string;
  model : string;
  tokens_used : tokens;
  cost : Q;
  error : option string
}.
End ApiResponse.

(** Points in time ([datetime]) are integers, in microseconds. *)
Definition seconds (n : Z) : Z := (n * 1000000)%Z.

Module LRUCache.

Record entry : Type := { data : Result.t; expires_at : Z; created_at : Z }.

(** [_cache] is the [OrderedDict], oldest entry first. *)
Record t : Type := { _cache : dict entry; _hits : nat; _misses : nat }.

Definition empty : t := {| _cache := []; _hits := 0; _misses := 0 |}.

(** [move_to_end(key)] *)
Definition move_to_end (d : dict entry) (key : string) : dict entry :=
  match dict_get d key with
  | Some e => (dict_del d key ++ [(key, e)])%list
  | None => d
  end.

(** [get(key)] at time [now]. *)
Definition get (self : t) (key : string) (now : Z) : option Result.t * t :=
  match dict_get (_cache self) key with
  | None =>
      (None, {| _cache := _cache self; _hits := _hits self; _misses := _misses self + 1 |})
  | Some e =>
      if (expires_at e <? now)%Z
      then (None, {| _cache := dict_del (_cache self) key; _hits := _hits self;
                     _misses := _misses self + 1 |})
      else (Some (data e),
            {| _cache := move_to_end (_cache self) key; _hits := _hits self + 1;
               _misses := _misses self |})
  end.

(** [while len(self._cache) >= self._max_size: popitem(last=False)].  On an
    empty dictionary the loop is left: Python would raise there only for a
    capacity of zero, and the generator builds its cache with capacity
    [MAX_CACHE_SIZE]. *)
Fixpoint evict (max_size : nat) (d : dict entry) : dict entry :=
  match d with
  | [] => []
  | _ :: rest => if max_size <=? List.length d then evict max_size rest else d
  end.

(** [set(key, data)]; [now] and [now'] are the two readings of the clock. *)
Definition set (max_size : nat) (ttl_seconds : Z) (self : t) (key : string)
               (value : Result.t) (now now' : Z) : t :=
  let d := if dict_mem (_cache self) key then dict_del (_cache self) key
           else _cache self in
  {| _cache := (evict max_size d
                 ++ [(key, {| data := value;
                              expires_at := (now + seconds ttl_seconds)%Z;
                              created_at := now' |})])%list;
     _hits := _hits self; _misses := _misses self |}.

(** [clear()]: the number of entries dropped and the emptied cache. *)
Definition clear (self : t) : nat * t :=
  (List.length (_cache self),
   {| _cache := []; _hits := _hits self; _misses := _misses self |}).

(** [hit_rate], a percentage. *)
Definition hit_rate (self : t) : Q :=
  let n := _hits self + _misses self in
  if 0 <? n
  then (inject_Z (Z.of_nat (_hits self)) / inject_Z (Z.of_nat n) * 100)%Q
  else 0%Q.

Definition len (self : t) : nat := List.length (_cache self).

(** Replace the stored result of [key]: the effect, on the cache, of
    assigning to the dictionary that [get] handed out. *)
Fixpoint update_data (d : dict entry) (key : string) (value : Result.t) : dict entry :=
  match d with
  | [] => []
  | (k, e) :: rest =>
      if String.eqb key k
      then (k, {| data := value; expires_at := expires_at e; created_at := created_at e |})
           :: rest
      else (k, e) :: update_data rest key value
  end.

End LRUCache.

(* ===================================================================== *)
(** * content_generator.py: ContentGenerator *)
(* ===================================================================== *)

(** The keyword arguments [generate] hands to the API manager. *)
Record api_overrides : Type := {
  ov_temperature : option pyval;
  ov_max_tokens : option pyval;
  ov_model : option pyval
}.

(** One call of [api_manager.generate_content]: it returns a response
    dictionary or raises, and [str(e)] is what the orchestrator keeps. *)
Inductive api_outcome : Type :=
| ApiReturn (r : ApiResponse.t)
| ApiRaise (text : string).

(** The API manager seen from the orchestrator: any object with a
    [generate_content] method.  The first argument is the number of calls
    made before this one, so the manager may answer each call differently. *)
Class ApiManager : Type := {
  api_generate_content : nat -> string -> api_overrides -> api_outcome
}.

(** What one call of [generate] reads from its surroundings: the fresh
    request id, the timestamp, the elapsed time it measures, and the clock
    readings of the cache. *)
Record call_env : Type := {
  env_request_id : string;
  env_timestamp : string;
  env_elapsed : Q;
  env_now_get : Z;
  env_now_set : Z;
  env_now_created : Z
}.

(** What a function returns to its caller. *)
Inductive outcome (A : Type) : Type :=
| Returned (a : A)
| Raised (e : exn).
Arguments Returned {A} a.
Arguments Raised {A} e.

Module ContentGenerator.

Definition MAX_HISTORY_SIZE : nat := 1000.
Definition MAX_CACHE_SIZE : nat := 100.
Definition CACHE_TTL_SECONDS : Z := 3600.
Definition DEFAULT_RETRY_ATTEMPTS : nat := 1.
Definition DEFAULT_COST_ALERT_THRESHOLD : Q := 1.

(** The generator.  [api_manager] tells whether [self.api_manager] is an
    object or [None]; [api_calls] counts the calls of its
    [generate_content]; [_callbacks] lists the registered callbacks by a
    number and [callback_log] records what each was called with. *)
Record t : Type := {
  session_id : string;
  _session_start : string;
  api_manager : bool;
  api_calls : nat;
  prompt_engine : PromptEngine.t;
  _history : list Result.t;
  _cache : LRUCache.t;
  _callbacks : list nat;
  callback_log : list (nat * Result.t);
  _cost_alert_threshold : Q;
  _total_cost : Q;
  _cache_checks : nat;
  _cache_hits : nat
}.

(** [ContentGenerator(api_manager=..., prompt_engine=...,
    cost_alert_threshold=...)] *)
Definition init (sid start : string) (has_api_manager : bool)
                (engine : PromptEngine.t) (cost_alert_threshold : option Q) : t :=
  {| session_id := sid; _session_start := start;
     api_manager := has_api_manager; api_calls := 0;
     prompt_engine := engine; _history := []; _cache := LRUCache.empty;
     _callbacks := []; callback_log := [];
     _cost_alert_threshold :=
       match cost_alert_threshold with
       | Some q => if Qeq_bool q 0 then DEFAULT_COST_ALERT_THRESHOLD else q
       | None => DEFAULT_COST_ALERT_THRESHOLD
       end;
     _total_cost := 0; _cache_checks := 0; _cache_hits := 0 |}.

Definition with_engine (g : t) (e : PromptEngine.t) : t :=
  {| session_id := session_id g; _session_start := _session_start g;
     api_manager := api_manager g; api_calls := api_calls g;
     prompt_engine := e; _history := _history g; _cache := _cache g;
     _callbacks := _callbacks g; callback_log := callback_log g;
     _cost_alert_threshold := _cost_alert_threshold g; _total_cost := _total_cost g;
     _cache_checks := _cache_checks g; _cache_hits := _cache_hits g |}.

Definition with_history (g : t) (h : list Result.t) : t :=
  {| session_id := session_id g; _session_start := _session_start g;
     api_manager := api_manager g; api_calls := api_calls g;
     prompt_engine := prompt_engine g; _history := h; _cache := _cache g;
     _callbacks := _callbacks g; callback_log := callback_log g;
     _cost_alert_threshold := _cost_alert_threshold g; _total_cost := _total_cost g;
     _cache_checks := _cache_checks g; _cache_hits := _cache_hits g |}.

Definition with_cache (g : t) (c : LRUCache.t) : t :=
  {| session_id := session_id g; _session_start := _session_start g;
     api_manager := api_manager g; api_calls := api_calls g;
     prompt_engine := prompt_engine g; _history := _history g; _cache := c;
     _callbacks := _callbacks g; callback_log := callback_log g;
     _cost_alert_threshold := _cost_alert_threshold g; _total_cost := _total_cost g;
     _cache_checks := _cache_checks g; _cache_hits := _cache_hits g |}.

Definition with_counters (g : t) (checks hits : nat) : t :=
  {| session_id := session_id g; _session_start := _session_start g;
     api_manager := api_manager g; api_calls := api_calls g;
     prompt_engine := prompt_engine g; _history := _history g; _cache := _cache g;
     _callbacks := _callbacks g; callback_log := callback_log g;
     _cost_alert_threshold := _cost_alert_threshold g; _total_cost := _total_cost g;
     _cache_checks := checks; _cache_hits := hits |}.

Definition with_api_calls (g : t) (n : nat) : t :=
  {| session_id := session_id g; _session_start := _session_start g;
     api_manager := api_manager g; api_calls := n;
     prompt_engine := prompt_engine g; _history := _history g; _cache := _cache g;
     _callbacks := _callbacks g; callback_log := callback_log g;
     _cost_alert_threshold := _cost_alert_threshold g; _total_cost := _total_cost g;
     _cache_checks := _cache_checks g; _cache_hits := _cache_hits g |}.

Definition with_total_cost (g : t) (q : Q) : t :=
  {| session_id := session_id g; _session_start := _session_start g;
     api_manager := api_manager g; api_calls := api_calls g;
     prompt_engine := prompt_engine g; _history := _history g; _cache := _cache g;
     _callbacks := _callbacks g; callback_log := callback_log g;
     _cost_alert_threshold := _cost_alert_threshold g; _total_cost := q;
     _cache_checks := _cache_checks g; _cache_hits := _cache_hits g |}.

Definition with_callbacks (g : t) (cbs : list nat) (log : list (nat * Result.t)) : t :=
  {| session_id := session_id g; _session_start := _session_start g;
     api_manager := api_manager g; api_calls := api_calls g;
     prompt_engine := prompt_engine g; _history := _history g; _cache := _cache g;
     _callbacks := cbs; callback_log := log;
     _cost_alert_threshold := _cost_alert_threshold g; _total_cost := _total_cost g;
     _cache_checks := _cache_checks g; _cache_hits := _cache_hits g |}.

(** [register_callback] *)
Definition register_callback (g : t) (callback : nat) : t :=
  with_callbacks g (_callbacks g ++ [callback])%list (callback_log g).

(** [_invoke_callbacks(result)]: every callback, in registration order; an
    exception raised by a callback is caught and logged. *)
Definition _invoke_callbacks (g : t) (result : Result.t) : t :=
  with_callbacks g (_callbacks g)
    (callback_log g ++ map (fun cb => (cb, result)) (_callbacks g))%list.

(** [while len(self._history) > MAX_HISTORY_SIZE: self._history.pop(0)] *)
Fixpoint trim (h : list Result.t) : list Result.t :=
  match h with
  | [] => []
  | _ :: rest => if MAX_HISTORY_SIZE <? List.length h then trim rest else h
  end.

(** [_add_to_history(result)] *)
Definition _add_to_history (g : t) (result : Result.t) : t :=
  with_history g (trim (_history g ++ [result])%list).

(** [clear_history()] *)
Definition clear_history (g : t) : nat * t :=
  (List.length (_history g), with_history g []).

(** [clear_cache()] *)
Definition clear_cache (g : t) : nat * t :=
  let (count, c) := LRUCache.clear (_cache g) in (count, with_cache g c).

(** [get_history()] with the filters and the limit left at their defaults:
    a deep copy of the whole list. *)
Definition get_history (g : t) : list Result.t := _history g.

Definition opt_text (o : option string) : string :=
  match o with Some s => s | None => "None" end.

(** The split of [kwargs]: the three API overrides are taken out, what is
    left is merged into the variables. *)
Definition is_override_key (k : string) : bool :=
  String.eqb k "temperature" || String.eqb k "max_tokens" || String.eqb k "model".

Definition split_overrides (kwargs : dict pyval) : api_overrides * dict pyval :=
  ({| ov_temperature := dict_get kwargs "temperature";
      ov_max_tokens := dict_get kwargs "max_tokens";
      ov_model := dict_get kwargs "model" |},
   filter (fun kv => negb (is_override_key (fst kv))) kwargs).

Definition merge_variables (variables : option (list (string * pyval)))
                           (kwargs : list (string * pyval)) : dict pyval :=
  dict_update (dict_of_items (or_default variables []))
              (snd (split_overrides (dict_of_items kwargs))).

Definition base_result (template_name : string) (merged_variables : dict pyval)
                       (env : call_env) : Result.t :=
  {| Result.success := false; Result.content := EmptyString;
     Result.template_used := template_name; Result.variables := merged_variables;
     Result.timestamp := env_timestamp env; Result.request_id := env_request_id env;
     Result.model := EmptyString; Result.tokens_used := no_tokens; Result.cost := 0;
     Result.cached := false; Result.generation_time := 0; Result.error := None |}.

(** The template's recommendations fill the overrides the caller left out. *)
Definition apply_recommendations (ov : api_overrides) (template : PromptTemplate.t)
  : api_overrides :=
  {| ov_temperature :=
       match ov_temperature ov with
       | Some v => Some v
       | None => Some (VFloat (PromptTemplate.temperature_recommendation template))
       end;
     ov_max_tokens :=
       match ov_max_tokens ov with
       | Some v => Some v
       | None => Some (VInt (PromptTemplate.max_tokens_recommendation template))
       end;
     ov_model := ov_model ov |}.

(** The dictionary [_call_api_with_retry] returns when every attempt
    failed; the keys it lacks read as the defaults of the [get] calls. *)
Definition failed_after (attempts : nat) (last_error : option string) : ApiResponse.t :=
  {| ApiResponse.success := false; ApiResponse.content := EmptyString;
     ApiResponse.model := EmptyString; ApiResponse.tokens_used := no_tokens;
     ApiResponse.cost := 0;
     ApiResponse.error :=
       Some ("Failed after " ++ PyStr.str_of_nat attempts ++ " attempts: "
             ++ opt_text last_error) |}.

Section WithWorld.
Context `{PyRuntime} `{ApiManager}.

(** [_generate_cache_key] *)
Definition _generate_cache_key (template_name : string) (variables : dict pyval) : string :=
  md5_hexdigest (template_name ++ ":" ++ json_dumps_sorted variables).

(** The loop of [_call_api_with_retry]: [remaining] attempts are left,
    [calls] counts the calls of the API manager so far.  The pause between
    attempts has no effect on any value. *)
Fixpoint api_attempts (remaining : nat) (attempts : nat) (calls : nat)
    (prompt_text : string) (ov : api_overrides) (last_error : option string)
  : ApiResponse.t * nat :=
  match remaining with
  | O => (failed_after attempts last_error, calls)
  | S n =>
      match api_generate_content calls prompt_text ov with
      | ApiReturn r =>
          if ApiResponse.success r then (r, S calls)
          else api_attempts n attempts (S calls) prompt_text ov (ApiResponse.error r)
      | ApiRaise text =>
          api_attempts n attempts (S calls) prompt_text ov (Some text)
      end
  end.

Definition _call_api_with_retry (g : t) (prompt_text : string) (ov : api_overrides)
    (retry_on_failure : bool) : ApiResponse.t * t :=
  let attempts := if retry_on_failure then DEFAULT_RETRY_ATTEMPTS + 1 else 1 in
  let (r, calls) := api_attempts attempts attempts (api_calls g) prompt_text ov None in
  (r, with_api_calls g calls).

(** An early [return result] of [generate]: the error is set, the attempt
    goes to the history. *)
Definition return_failed (g : t) (result : Result.t) (message : string)
  : (Result.t + exn) * t :=
  let result' := Result.set_error result message in
  (inl result', _add_to_history g result').

(** The part of [generate] after the cache lookup missed. *)
Definition generate_remote (g : t) (env : call_env) (result : Result.t)
    (template : PromptTemplate.t) (prompt_text cache_key : string)
    (api_overrides0 : api_overrides) (retry_on_failure : bool)
  : (Result.t + exn) * t :=
  if negb (api_manager g) then return_failed g result "API manager not initialized"
  else
    let ov := apply_recommendations api_overrides0 template in
    let (api_result, g1) := _call_api_with_retry g prompt_text ov retry_on_failure in
    if negb (ApiResponse.success api_result) then
      let result' :=
        {| Result.success := Result.success result;
           Result.content := Result.content result;
           Result.template_used := Result.template_used result;
           Result.variables := Result.variables result;
           Result.timestamp := Result.timestamp result;
           Result.request_id := Result.request_id result;
           Result.model := Result.model result;
           Result.tokens_used := Result.tokens_used result;
           Result.cost := Result.cost result;
           Result.cached := Result.cached result;
           Result.generation_time := env_elapsed env;
           Result.error := ApiResponse.error api_result |} in
      (inl result', _add_to_history g1 result')
    else
      let result' :=
        {| Result.success := true;
           Result.content := sanitize_output (ApiResponse.content api_result);
           Result.template_used := Result.template_used result;
           Result.variables := Result.variables result;
           Result.timestamp := Result.timestamp result;
           Result.request_id := Result.request_id result;
           Result.model := ApiResponse.model api_result;
           Result.tokens_used := ApiResponse.tokens_used api_result;
           Result.cost := ApiResponse.cost api_result;
           Result.cached := false;
           Result.generation_time := env_elapsed env;
           Result.error := Result.error result |} in
      let g2 := with_total_cost g1 (_total_cost g1 + Result.cost result')%Q in
      let g3 := with_cache g2
                  (LRUCache.set MAX_CACHE_SIZE CACHE_TTL_SECONDS (_cache g2) cache_key
                                result' (env_now_set env) (env_now_created env)) in
      let g4 := _add_to_history g3 result' in
      (inl result', _invoke_callbacks g4 result').

(** The part of [generate] from the cache lookup on. *)
Definition generate_cached (g : t) (env : call_env) (result : Result.t)
    (template : PromptTemplate.t) (prompt_text cache_key : string)
    (api_overrides0 : api_overrides) (use_cache retry_on_failure : bool)
  : (Result.t + exn) * t :=
  let g1 := with_counters g (_cache_checks g + 1) (_cache_hits g) in
  let (hit, g2) :=
    if use_cache
    then let (o, c) := LRUCache.get (_cache g1) cache_key (env_now_get env) in
         (o, with_cache g1 c)
    else (None, g1) in
  match hit with
  | Some cached_result =>
      let cached_result' :=
        Result.replay cached_result (env_request_id env) (env_timestamp env)
                      (env_elapsed env) in
      let g3 := with_counters g2 (_cache_checks g2) (_cache_hits g2 + 1) in
      let g4 := with_cache g3
                  {| LRUCache._cache :=
                       LRUCache.update_data (LRUCache._cache (_cache g3)) cache_key
                                            cached_result';
                     LRUCache._hits := LRUCache._hits (_cache g3);
                     LRUCache._misses := LRUCache._misses (_cache g3) |} in
      let g5 := _add_to_history g4 cached_result' in
      (inl cached_result', _invoke_callbacks g5 cached_result')
  | None =>
      generate_remote g2 env result template prompt_text cache_key api_overrides0
                      retry_on_failure
  end.

(** The body of the [try] block of [generate]: what it returns or the
    exception that leaves it. *)
Definition generate_try (g : t) (env : call_env) (template_name : string)
    (merged_variables : dict pyval) (api_overrides0 : api_overrides)
    (use_cache retry_on_failure : bool) : (Result.t + exn) * t :=
  let result := base_result template_name merged_variables env in
  match Utils.validate_input template_name merged_variables with
  | (false, error_msg) =>
      return_failed g result ("Validation failed: " ++ opt_text error_msg)
  | (true, _) =>
      let (found, engine) := PromptEngine.get_template (prompt_engine g) template_name in
      let g1 := with_engine g engine in
      match found with
      | inr (TemplateNotFoundError _) =>
          return_failed g1 result ("Template not found: " ++ template_name)
      | inr e => (inr e, g1)
      | inl template =>
          match PromptTemplate.generate template merged_variables true true with
          | inr (VariableValidationError msg) =>
              return_failed g1 result ("Variable validation failed: " ++ msg)
          | inr e => (inr e, g1)
          | inl prompt_text =>
              generate_cached g1 env result template prompt_text
                (_generate_cache_key template_name merged_variables)
                api_overrides0 use_cache retry_on_failure
          end
      end
  end.

(** [generate(template_name, variables, use_cache, retry_on_failure,
    ...kwargs)].  The handler of [except Exception] turns whatever leaves
    the [try] block into a failed result. *)
Definition generate (g : t) (env : call_env) (template_name : string)
    (variables : option (list (string * pyval))) (use_cache retry_on_failure : bool)
    (kwargs : list (string * pyval)) : outcome Result.t * t :=
  let merged_variables := merge_variables variables kwargs in
  let api_overrides0 := fst (split_overrides (dict_of_items kwargs)) in
  match generate_try g env template_name merged_variables api_overrides0
                     use_cache retry_on_failure with
  | (inl result, g') => (Returned result, g')
  | (inr e, g') =>
      let result :=
        Result.set_generation_time
          (Result.set_error (base_result template_name merged_variables env)
                            ("Unexpected error: " ++ exn_str e))
          (env_elapsed env) in
      (Returned result, _add_to_history g' result)
  end.

End WithWorld.

End ContentGenerator.

(* ===================================================================== *)
(** * content_generator.py: statistics, registration, sessions *)
(* ===================================================================== *)

(** [round(x, ndigits)]: to the nearest multiple of [10^-ndigits], a tie
    going to the even one. *)
Definition round_half_even (q : Q) : Z :=
  let f := Qfloor q in
  match Qcompare (q - inject_Z f) (1 # 2) with
  | Lt => f
  | Gt => (f + 1)%Z
  | Eq => if Z.even f then f else (f + 1)%Z
  end.

Definition py_round (q : Q) (ndigits : nat) : Q :=
  let scale := (10 ^ Z.of_nat ndigits)%Z in
  Qmake (round_half_even (q * inject_Z scale)) (Z.to_pos scale).

(** [sum(...)] of a list of costs. *)
Definition qsum (l : list Q) : Q := fold_left Qplus l 0%Q.

Module Statistics.
Record t : Type := {
  total_generations : nat;
  total_cost : Q;
  total_tokens : Z;
  templates_used : dict nat;
  success_rate : Q;
  cache_hit_rate : Q;
  average_generation_time : Q;
  cost_by_template : dict Q;
  session_id : string;
  session_start : string;
  history_size : option nat;
  cache_size : option nat
}.
End Statistics.

Module Session.
Import ContentGenerator.

Definition count_template (acc : dict nat) (h : Result.t) : dict nat :=
  dict_set acc (Result.template_used h)
           (or_default (dict_get acc (Result.template_used h)) 0 + 1).

Definition add_template_cost (acc : dict Q) (h : Result.t) : dict Q :=
  dict_set acc (Result.template_used h)
           (or_default (dict_get acc (Result.template_used h)) 0%Q + Result.cost h)%Q.

Definition positive_time (h : Result.t) : bool :=
  negb (Qle_bool (Result.generation_time h) 0).

(** [get_statistics()] *)
Definition get_statistics (g : t) : Statistics.t :=
  let history := _history g in
  match history with
  | [] =>
      {| Statistics.total_generations := 0; Statistics.total_cost := 0;
         Statistics.total_tokens := 0; Statistics.templates_used := [];
         Statistics.success_rate := 0;
         Statistics.cache_hit_rate := LRUCache.hit_rate (_cache g);
         Statistics.average_generation_time := 0; Statistics.cost_by_template := [];
         Statistics.session_id := session_id g;
         Statistics.session_start := _session_start g;
         Statistics.history_size := None; Statistics.cache_size := None |}
  | _ =>
      let total_generations := List.length history in
      let successful := filter Result.success history in
      let total_successful := List.length successful in
      let total_cost := qsum (map Result.cost history) in
      let total_tokens :=
        fold_left Z.add (map (fun h => total (Result.tokens_used h)) history) 0%Z in
      let gen_times := map Result.generation_time (filter positive_time history) in
      let avg_gen_time :=
        match gen_times with
        | [] => 0%Q
        | _ => (qsum gen_times / inject_Z (Z.of_nat (List.length gen_times)))%Q
        end in
      {| Statistics.total_generations := total_generations;
         Statistics.total_cost := py_round total_cost 6;
         Statistics.total_tokens := total_tokens;
         Statistics.templates_used := fold_left count_template history [];
         Statistics.success_rate :=
           if 0 <? total_generations
           then (inject_Z (Z.of_nat total_successful)
                 / inject_Z (Z.of_nat total_generations) * 100)%Q
           else 0%Q;
         Statistics.cache_hit_rate := LRUCache.hit_rate (_cache g);
         Statistics.average_generation_time := py_round avg_gen_time 3;
         Statistics.cost_by_template :=
           map (fun kv => (fst kv, py_round (snd kv) 6))
               (fold_left add_template_cost history []);
         Statistics.session_id := session_id g;
         Statistics.session_start := _session_start g;
         Statistics.history_size := Some (List.length history);
         Statistics.cache_size := Some (LRUCache.len (_cache g)) |}
  end.

(** A call of [generate] with everything it reads. *)
Record call : Type := {
  call_env_ : call_env;
  call_template_name : string;
  call_variables : option (list (string * pyval));
  call_use_cache : bool;
  call_retry_on_failure : bool;
  call_kwargs : list (string * pyval)
}.

(** The arguments of [ContentGenerator.register_template]. *)
Record registration : Type := {
  reg_name : string;
  reg_template : string;
  reg_system_instructions : string;
  reg_required_variables : option (list string);
  reg_optional_variables : option (dict string);
  reg_kwargs : template_options
}.

(** What a client does with a generator. *)
Inductive op : Type :=
| OpGenerate (c : call)
| OpClearCache
| OpClearHistory
| OpRegisterTemplate (r : registration)
| OpRemoveTemplate (name : string)
| OpRegisterCallback (callback : nat).

Section WithWorld.
Context `{PyRuntime} `{ApiManager}.

(** [ContentGenerator.register_template]: build the template, then hand it
    to the engine. *)
Definition register_template (g : t) (r : registration)
  : outcome PromptTemplate.t * t :=
  match create_template (reg_name r) (reg_template r) (reg_system_instructions r)
                        (reg_required_variables r) (reg_optional_variables r)
                        (reg_kwargs r) with
  | inr e => (Raised e, g)
  | inl new_template =>
      (Returned new_template,
       with_engine g (PromptEngine.register_template (prompt_engine g) new_template))
  end.

Definition run_call (g : t) (c : call) : outcome Result.t * t :=
  generate g (call_env_ c) (call_template_name c) (call_variables c)
           (call_use_cache c) (call_retry_on_failure c) (call_kwargs c).

Definition step (g : t) (o : op) : t :=
  match o with
  | OpGenerate c => snd (run_call g c)
  | OpClearCache => snd (clear_cache g)
  | OpClearHistory => snd (clear_history g)
  | OpRegisterTemplate r => snd (register_template g r)
  | OpRemoveTemplate name =>
      with_engine g (snd (PromptEngine.remove_template (prompt_engine g) name))
  | OpRegisterCallback cb => register_callback g cb
  end.

(** The generator after a sequence of operations. *)
Definition exec (g : t) (ops : list op) : t := fold_left step ops g.

(** A sequence of [generate] calls: the results they return, in call
    order, and the generator they leave. *)
Fixpoint run (g : t) (calls : list call) : list (outcome Result.t) * t :=
  match calls with
  | [] => ([], g)
  | c :: rest =>
      let (r, g1) := run_call g c in
      let (rs, g2) := run g1 rest in
      (r :: rs, g2)
  end.

End WithWorld.

End Session.

(* ===================================================================== *)
(** * api_manager.py: the retry decorator and OpenAIManager *)
(* ===================================================================== *)

Module OpenAIManager.

Definition MAX_RETRY_ATTEMPTS : nat := 3.
Definition BASE_RETRY_DELAY : Q := 2.
Definition RETRY_BACKOFF_MULTIPLIER : Q := 2.
Definition CACHE_TTL_SECONDS : Z := 3600.

(** An exception of the [openai] client, by the first [except] clause of
    [_make_api_call] that takes it; [text] is [str(e)]. *)
Inductive client_error : Type :=
| AuthenticationError (text : string)
| RateLimitError (text : string)
| APIConnectionError (text : string)
| OpenAIAPIError (text : string) (status_code : option Z)
| OtherException (text : string).

(** The exceptions that leave [_make_api_call] and its decorator: the
    manager's own classes, a client exception passed through, or the
    [TypeError] of [raise None]. *)
Inductive api_exn : Type :=
| RateLimitExceeded (msg : string)
| APIConnectionFailed (msg : string)
| InvalidPromptError (msg : string)
| APIKeyInvalidError (msg : string)
| APIServerError (msg : string) (status_code : option Z)
| RequestTimeoutError (msg : string)
| Unhandled (e : client_error)
| RaiseNone.

(** [isinstance(e, APIManagerError)] *)
Definition is_APIManagerError (e : api_exn) : bool :=
  match e with
  | Unhandled _ | RaiseNone => false
  | _ => true
  end.

Definition client_error_str (e : client_error) : string :=
  match e with
  | AuthenticationError t | RateLimitError t | APIConnectionError t
  | OpenAIAPIError t _ | OtherException t => t
  end.

Definition api_exn_str (e : api_exn) : string :=
  match e with
  | RateLimitExceeded m | APIConnectionFailed m | InvalidPromptError m
  | APIKeyInvalidError m | APIServerError m _ | RequestTimeoutError m => m
  | Unhandled c => client_error_str c
  | RaiseNone => "exceptions must derive from BaseException"
  end.

(** [isinstance(e, (RateLimitError, APIConnectionError))] *)
Definition is_transient (e : api_exn) : bool :=
  match e with
  | Unhandled (RateLimitError _) | Unhandled (APIConnectionError _) => true
  | _ => false
  end.

Section Retry.
Context {A : Type}.

Variable max_attempts : nat.
Variable base_delay : Q.
Variable backoff_multiplier : Q.
Variable retryable_exceptions : api_exn -> bool.
(** The decorated function; its argument is the number of earlier calls. *)
Variable func : nat -> A + api_exn.

(** What the wrapper raises once the loop is over. *)
Definition exhausted (last_exception : option api_exn) : api_exn :=
  match last_exception with
  | Some (Unhandled (RateLimitError _)) =>
      RateLimitExceeded ("Rate limit exceeded after " ++ PyStr.str_of_nat max_attempts
                         ++ " attempts")
  | Some (Unhandled (APIConnectionError _)) =>
      APIConnectionFailed ("Connection failed after " ++ PyStr.str_of_nat max_attempts
                           ++ " attempts")
  | Some e => e
  | None => RaiseNone
  end.

(** The run of the wrapper: its result, the pauses it slept, in order, and
    the number of calls of [func]. *)
Record run : Type := {
  result : A + api_exn;
  sleeps : list Q;
  calls : nat
}.

(** The [for] loop, [remaining] rounds before its end; [attempt] counts
    from 1. *)
Fixpoint retry_loop (remaining : nat) (attempt : nat) (delay : Q)
    (last_exception : option api_exn) (slept : list Q) : run :=
  match remaining with
  | O => {| result := inr (exhausted last_exception); sleeps := slept;
            calls := attempt - 1 |}
  | S n =>
      match func (attempt - 1) with
      | inl a => {| result := inl a; sleeps := slept; calls := attempt |}
      | inr e =>
          if retryable_exceptions e then
            if attempt <? max_attempts
            then retry_loop n (S attempt) (delay * backoff_multiplier)%Q (Some e)
                            (slept ++ [delay])%list
            else retry_loop n (S attempt) delay (Some e) slept
          else {| result := inr e; sleeps := slept; calls := attempt |}
      end
  end.

(** [retry_with_backoff(...)(func)] *)
Definition retry_with_backoff : run :=
  retry_loop max_attempts 1 base_delay None [].

End Retry.

(** A request to [client.chat.completions.create]. *)
Record request : Type := {
  rq_model : string;
  rq_messages : list (string * string);
  rq_max_tokens : Z;
  rq_temperature : pyfloat
}.

(** Its answer: the choices, each with the message content and the finish
    reason, and the usage block. *)
Record chat_completion : Type := {
  choices : list (option string * option string);
  usage : option tokens
}.

(** The client: the first argument is the number of requests sent before. *)
Class Client : Type := {
  chat_completions_create : nat -> request -> chat_completion + client_error;
  sha256_hexdigest : string -> string
}.

Record response : Type := {
  success : bool;
  content : string;
  model_used : string;
  tokens_used : tokens;
  cost : Q;
  timestamp : string;
  request_id : string;
  finish_reason : string;
  error : option string;
  latency_ms : Q
}.

Record UsageStatistics : Type := {
  total_requests : nat;
  successful_requests : nat;
  failed_requests : nat;
  total_prompt_tokens : Z;
  total_completion_tokens : Z;
  total_tokens : Z;
  total_cost : Q;
  requests_by_model : dict nat;
  tokens_by_model : dict Z;
  cost_by_model : dict Q
}.

Definition no_usage : UsageStatistics :=
  {| total_requests := 0; successful_requests := 0; failed_requests := 0;
     total_prompt_tokens := 0; total_completion_tokens := 0; total_tokens := 0;
     total_cost := 0; requests_by_model := []; tokens_by_model := [];
     cost_by_model := [] |}.

Record CacheEntry : Type := { cached_response : response; created_at : Z }.

(** The manager.  [client_calls] counts the requests sent to the client. *)
Record t : Type := {
  model : string;
  max_tokens : Z;
  temperature : pyfloat;
  _timeout : Z;
  _stats : UsageStatistics;
  _cache : dict CacheEntry;
  _request_counter : nat;
  client_calls : nat
}.

(** What one call of [generate_content] reads from its surroundings. *)
Record env : Type := {
  env_uuid8 : string;
  env_timestamp : string;
  env_now_check : Z;
  env_now_store : Z;
  env_latency_ms : Q
}.

(** [x or default] for an optional [int]. *)
Definition int_or (x : option Z) (default : Z) : Z :=
  match x with
  | Some n => if (n =? 0)%Z then default else n
  | None => default
  end.

(** [x or default] for an optional [float]: zero is falsy, NaN is not. *)
Definition float_or (x : option pyfloat) (default : pyfloat) : pyfloat :=
  match x with
  | Some (FFin q) => if Qeq_bool q 0 then default else FFin q
  | Some f => f
  | None => default
  end.

Definition MODEL_COSTS : dict (Q * Q) :=
  [ ("gpt-4", (3 # 100, 6 # 100));
    ("gpt-4-turbo", (1 # 100, 3 # 100));
    ("gpt-3.5-turbo", (5 # 10000, 15 # 10000));
    ("gpt-3.5-turbo-16k", (3 # 1000, 4 # 1000)) ]%Q.

(** [_calculate_cost] *)
Definition _calculate_cost (model : string) (prompt_tokens completion_tokens : Z) : Q :=
  match dict_get MODEL_COSTS model with
  | None => 0
  | Some (input, output) =>
      py_round ((inject_Z prompt_tokens / 1000) * input
                + (inject_Z completion_tokens / 1000) * output)%Q 6
  end.

Definition bump {V : Type} (add : V -> V -> V) (zero : V) (d : dict V) (k : string) (v : V)
  : dict V :=
  dict_set d k (add (or_default (dict_get d k) zero) v).

(** [_update_stats] *)
Definition _update_stats (s : UsageStatistics) (r : response) : UsageStatistics :=
  if success r then
    {| total_requests := total_requests s + 1;
       successful_requests := successful_requests s + 1;
       failed_requests := failed_requests s;
       total_prompt_tokens := (total_prompt_tokens s + prompt (tokens_used r))%Z;
       total_completion_tokens :=
         (total_completion_tokens s + completion (tokens_used r))%Z;
       total_tokens := (total_tokens s + total (tokens_used r))%Z;
       total_cost := (total_cost s + cost r)%Q;
       requests_by_model := bump Nat.add 0 (requests_by_model s) (model_used r) 1;
       tokens_by_model :=
         bump Z.add 0%Z (tokens_by_model s) (model_used r) (total (tokens_used r));
       cost_by_model := bump Qplus 0%Q (cost_by_model s) (model_used r) (cost r) |}
  else
    {| total_requests := total_requests s + 1;
       successful_requests := successful_requests s;
       failed_requests := failed_requests s + 1;
       total_prompt_tokens := total_prompt_tokens s;
       total_completion_tokens := total_completion_tokens s;
       total_tokens := total_tokens s;
       total_cost := total_cost s;
       requests_by_model := requests_by_model s;
       tokens_by_model := tokens_by_model s;
       cost_by_model := cost_by_model s |}.

Definition with_state (m : t) (stats : UsageStatistics) (cache : dict CacheEntry)
                      (counter calls : nat) : t :=
  {| model := model m; max_tokens := max_tokens m; temperature := temperature m;
     _timeout := _timeout m; _stats := stats; _cache := cache;
     _request_counter := counter; client_calls := calls |}.

Fixpoint lower_string (s : string) : string :=
  match s with
  | EmptyString => EmptyString
  | String c t => String (PyStr.lower c) (lower_string t)
  end.

Section WithClient.
Context `{Client}.

(** The body of [_make_api_call], one attempt: the request goes to the
    client and the exception, if any, is mapped. *)
Definition _make_api_call_body (self : t) (rq : request) (sent : nat)
  : chat_completion + api_exn :=
  match chat_completions_create sent rq with
  | inl c => inl c
  | inr (AuthenticationError text) =>
      inr (APIKeyInvalidError ("Invalid API key: " ++ text))
  | inr (RateLimitError text) => inr (Unhandled (RateLimitError text))
  | inr (APIConnectionError text) => inr (Unhandled (APIConnectionError text))
  | inr (OpenAIAPIError text status) =>
      inr (APIServerError ("OpenAI server error: " ++ text) status)
  | inr (OtherException text) =>
      if PyStr.contains "timeout" (lower_string text)
      then inr (RequestTimeoutError
                  ("Request timed out after " ++ PyStr.str_of_Z (_timeout self) ++ "s"))
      else inr (Unhandled (OtherException text))
  end.

(** [_make_api_call], decorated with [retry_with_backoff(max_attempts=
    MAX_RETRY_ATTEMPTS, base_delay=BASE_RETRY_DELAY, retryable_exceptions=
    (RateLimitError, APIConnectionError))]; the multiplier is the
    decorator's default. *)
Definition _make_api_call (self : t) (rq : request) : run (A := chat_completion) :=
  retry_with_backoff MAX_RETRY_ATTEMPTS BASE_RETRY_DELAY RETRY_BACKOFF_MULTIPLIER
    is_transient
    (fun earlier => _make_api_call_body self rq (client_calls self + earlier)).

(** [_get_cache_key] *)
Definition _get_cache_key (prompt_text : string) (system_message : option string)
                          (model : string) : string :=
  sha256_hexdigest (prompt_text ++ "|" ++ or_default system_message EmptyString
                    ++ "|" ++ model).

Definition failed_response (e : env) (rid : string) (message : string) : response :=
  {| success := false; content := EmptyString; model_used := EmptyString;
     tokens_used := no_tokens; cost := 0; timestamp := env_timestamp e;
     request_id := rid; finish_reason := EmptyString; error := Some message;
     latency_ms := 0 |}.

(** The result of one call of [generate_content]: what it returns or
    raises, the manager afterwards, the requests it sent and the pauses it
    slept. *)
Record generation : Type := {
  returned : response + api_exn;
  manager : t;
  sent : list request;
  slept : list Q
}.

(** [generate_content(prompt, max_tokens, temperature, system_message,
    use_cache)] *)
Definition generate_content (self : t) (e : env) (prompt_text : string)
    (max_tokens_arg : option Z) (temperature_arg : option pyfloat)
    (system_message : option string) (use_cache : bool) : generation :=
  let counter := _request_counter self + 1 in
  let rid := "req-" ++ env_uuid8 e ++ "-" ++ PyStr.str_of_nat counter in
  let self1 := with_state self (_stats self) (_cache self) counter (client_calls self) in
  if negb (PyStr.truthy prompt_text) || negb (PyStr.truthy (PyStr.strip prompt_text))
  then {| returned := inr (InvalidPromptError "Prompt cannot be empty");
          manager := self1; sent := []; slept := [] |}
  else
    let model_ := model self in
    let max_tokens_ := int_or max_tokens_arg (max_tokens self) in
    let temperature_ := float_or temperature_arg (temperature self) in
    let cache_key := _get_cache_key prompt_text system_message model_ in
    let lookup :=
      if use_cache then
        match dict_get (_cache self1) cache_key with
        | Some entry =>
            if (created_at entry + seconds CACHE_TTL_SECONDS <? env_now_check e)%Z
            then (None, dict_del (_cache self1) cache_key)
            else (Some entry, _cache self1)
        | None => (None, _cache self1)
        end
      else (None, _cache self1) in
    match lookup with
    | (Some entry, cache1) =>
        let r := cached_response entry in
        let r' := {| success := success r; content := content r;
                     model_used := model_used r; tokens_used := tokens_used r;
                     cost := cost r; timestamp := env_timestamp e; request_id := rid;
                     finish_reason := finish_reason r; error := error r;
                     latency_ms := latency_ms r |} in
        {| returned := inl r';
           manager := with_state self1 (_stats self1)
                        (dict_set cache1 cache_key
                           {| cached_response := r'; created_at := created_at entry |})
                        counter (client_calls self1);
           sent := []; slept := [] |}
    | (None, cache1) =>
        let messages :=
          (match system_message with
           | Some s => if PyStr.truthy s then [("system", s)] else []
           | None => []
           end ++ [("user", prompt_text)])%list in
        let rq := {| rq_model := model_; rq_messages := messages;
                     rq_max_tokens := max_tokens_; rq_temperature := temperature_ |} in
        let attempt := _make_api_call self1 rq in
        let calls' := client_calls self1 + calls attempt in
        let requests := repeat rq (calls attempt) in
        let fail message :=
          let r := failed_response e rid message in
          {| returned := inl r;
             manager := with_state self1 (_update_stats (_stats self1) r) cache1
                                   counter calls';
             sent := requests; slept := sleeps attempt |} in
        match result attempt with
        | inr ex =>
            if is_APIManagerError ex then fail (api_exn_str ex)
            else fail ("Unexpected error: " ++ api_exn_str ex)
        | inl api_response =>
            match choices api_response with
            | [] => fail "Unexpected error: list index out of range"
            | (message_content, reason) :: _ =>
                match usage api_response with
                | None =>
                    fail ("Unexpected error: 'NoneType' object has no attribute "
                          ++ "'prompt_tokens'")
                | Some u =>
                    let r := {| success := true;
                                content := or_default message_content EmptyString;
                                model_used := model_;
                                tokens_used := u;
                                cost := _calculate_cost model_ (prompt u) (completion u);
                                timestamp := env_timestamp e; request_id := rid;
                                finish_reason :=
                                  match reason with
                                  | Some s => if PyStr.truthy s then s else "unknown"
                                  | None => "unknown"
                                  end;
                                error := None;
                                latency_ms := env_latency_ms e |} in
                    {| returned := inl r;
                       manager :=
                         with_state self1 (_update_stats (_stats self1) r)
                           (if use_cache
                            then dict_set cache1 cache_key
                                   {| cached_response := r;
                                      created_at := env_now_store e |}
                            else cache1)
                           counter calls';
                       sent := requests; slept := sleeps attempt |}
                end
            end
        end
    end.

End WithClient.

End OpenAIManager.

(* ===================================================================== *)
(** * Vocabulary of the statements *)
(* ===================================================================== *)

Module Spec.
Import ContentGenerator.

(** The structural checks a template must pass, in the words of the
    constructor's documentation: a non-empty name of at most 100
    characters, a non-empty body of at most 10,000 characters, a
    temperature between 0 and 2, at least one token. *)
Definition structurally_valid (f : PromptTemplate.t) : bool :=
  negb (String.eqb (PromptTemplate.name f) EmptyString)
  && (Utils.len (PromptTemplate.name f) <=? 100)%Z
  && negb (String.eqb (PromptTemplate.template f) EmptyString)
  && (Utils.len (PromptTemplate.template f) <=? 10000)%Z
  && match PromptTemplate.temperature_recommendation f with
     | FFin q => Qle_bool 0 q && Qle_bool q 2
     | _ => false
     end
  && (1 <=? PromptTemplate.max_tokens_recommendation f)%Z.

(** A character of the class [A-Za-z0-9_]. *)
Definition name_char (c : ascii) : bool :=
  PyStr.in_range 65 90 c || PyStr.in_range 97 122 c || PyStr.in_range 48 57 c
  || Ascii.eqb c "_".

Fixpoint all_chars (p : ascii -> bool) (s : string) : bool :=
  match s with
  | EmptyString => true
  | String c t => p c && all_chars p t
  end.

(** The name is in the language of [[A-Za-z0-9_]+]. *)
Definition name_pattern_ok (s : string) : bool :=
  negb (String.eqb s EmptyString) && all_chars name_char s.


(** Every brace of the text written twice. *)
Fixpoint double_braces (s : string) : string :=
  match s with
  | EmptyString => EmptyString
  | String c t =>
      if Ascii.eqb c "{" || Ascii.eqb c "}"
      then String c (String c (double_braces t))
      else String c (double_braces t)
  end.

(** Every occurrence of one character written twice. *)
Fixpoint double_char (c : ascii) (s : string) : string :=
  match s with
  | EmptyString => EmptyString
  | String x t =>
      if Ascii.eqb x c then String x (String x (double_char c t))
      else String x (double_char c t)
  end.

(** The text [_sanitize_value] works on. *)
Definition text_of `{PyRuntime} (value : pyval) : string :=
  match value with VNone => EmptyString | _ => py_str value end.

(** The results a sequence of calls returned. *)
Fixpoint records (l : list (outcome Result.t)) : list Result.t :=
  match l with
  | [] => []
  | Returned r :: t => r :: records t
  | Raised _ :: t => records t
  end.

(** The last [n] elements of a list. *)
Definition last_n {A : Type} (n : nat) (l : list A) : list A :=
  skipn (List.length l - n) l.

(** The same call at another moment. *)
Definition at_env (c : Session.call) (env : call_env) : Session.call :=
  {| Session.call_env_ := env;
     Session.call_template_name := Session.call_template_name c;
     Session.call_variables := Session.call_variables c;
     Session.call_use_cache := Session.call_use_cache c;
     Session.call_retry_on_failure := Session.call_retry_on_failure c;
     Session.call_kwargs := Session.call_kwargs c |}.

(** The cache key of a call. *)
Definition key_of `{PyRuntime} (c : Session.call) : string :=
  _generate_cache_key (Session.call_template_name c)
    (merge_variables (Session.call_variables c) (Session.call_kwargs c)).

(** When the result cached under [key] expires. *)
Definition expiry (g : t) (key : string) : option Z :=
  match dict_get (LRUCache._cache (_cache g)) key with
  | Some e => Some (LRUCache.expires_at e)
  | None => None
  end.

(** A failed result is well formed: it has a non-empty error text, no
    content and no cost. *)
Definition failure_ok (r : Result.t) : Prop :=
  Result.success r = false ->
  (exists e, Result.error r = Some e /\ e <> EmptyString)
  /\ Result.content r = EmptyString
  /\ Result.cost r = 0%Q.

(** What holds of every generator a client can reach. *)
Record invariant (g : t) : Prop := {
  inv_cached_success :
    forall k e, In (k, e) (LRUCache._cache (_cache g)) ->
                Result.success (LRUCache.data e) = true;
  inv_cache_needs_api :
    LRUCache._cache (_cache g) <> [] -> api_manager g = true;
  inv_history : Forall failure_ok (_history g)
}.

(** What a stage of [generate] does to the history: a returned result is
    appended, an exception leaves the history as it was. *)
Definition appended (g : t) (o : Result.t + exn) (g' : t) : Prop :=
  match o with
  | inl r => _history g' = trim (_history g ++ [r])%list
  | inr _ => _history g' = _history g
  end.

(** What every stage of [generate] guarantees. *)
Definition stage_ok (g : t) (o : Result.t + exn) (g' : t) : Prop :=
  invariant g'
  /\ api_manager g' = api_manager g
  /\ match o with inl r => failure_ok r | inr _ => True end.

End Spec.

(** How one attempt of [_make_api_call] ends: the client answered; or it
    raised something that is not retried; or it raised one of the two
    transient errors. *)
Module Attempt.
Import OpenAIManager.

Section WithClient.
Context `{Client}.


End WithClient.
End Attempt.

(* ===================================================================== *)
(** * Stand-ins for the outside world, used in the examples *)
(* ===================================================================== *)

Module Demo.

Definition float_text (q : Q) : string :=
  PyStr.str_of_Z (Qnum q) ++ "/" ++ PyStr.str_of_Z (Zpos (Qden q)).

Definition no_access (rest : string) (conv : option ascii) (v : string)
  : option Format.ext_error :=
  Some (Format.ExtValueError "unsupported format field").

Definition no_render (rest : string) (conv : option ascii) (spec v : string)
  : string + Format.ext_error :=
  inr (Format.ExtValueError "unsupported format field").

Definition runtime0 : PyRuntime :=
  {| float_str := float_text; ext_access := no_access; ext_render := no_render;
     md5_hexdigest := fun s => s; json_dumps_sorted := fun _ => EmptyString;
     sanitize_output := PyStr.strip |}.

Definition runtime : PyRuntime :=
  {| float_str := float_text; ext_access := no_access; ext_render := no_render;
     md5_hexdigest := fun s => s;
     json_dumps_sorted := fun d => @py_repr runtime0 (VDict d);
     sanitize_output := PyStr.strip |}.

(** [MockOpenAIManager.generate_content]: it has no [model] parameter. *)
Definition mock_manager : ApiManager :=
  {| api_generate_content := fun _ _ ov =>
       match ov_model ov with
       | Some _ =>
           ApiRaise ("MockOpenAIManager.generate_content() got an unexpected "
                     ++ "keyword argument 'model'")
       | None =>
           ApiReturn {| ApiResponse.success := true;
                        ApiResponse.content := "Mock generated content";
                        ApiResponse.model := "gpt-3.5-turbo";
                        ApiResponse.tokens_used :=
                          {| prompt := 50; completion := 50; total := 100 |};
                        ApiResponse.cost := 1 # 1000;
                        ApiResponse.error := None |}
       end |}.

Definition env_at (now : Z) : call_env :=
  {| env_request_id := "r" ++ PyStr.str_of_Z now; env_timestamp := PyStr.str_of_Z now;
     env_elapsed := 1 # 100; env_now_get := seconds now; env_now_set := seconds now;
     env_now_created := seconds now |}.

Definition fresh : ContentGenerator.t :=
  ContentGenerator.init "session" "start" true PromptEngine.create_engine_with_defaults
                        None.

Definition product_call (now : Z) : Session.call :=
  {| Session.call_env_ := env_at now;
     Session.call_template_name := "product_description";
     Session.call_variables :=
       Some [("product_name", VStr "Smart Watch"); ("features", VStr "GPS, Heart Rate");
             ("audience", VStr "Athletes")];
     Session.call_use_cache := true;
     Session.call_retry_on_failure := true;
     Session.call_kwargs := [] |}.


(** A client that answers every request. *)
Definition answering : OpenAIManager.Client :=
  {| OpenAIManager.chat_completions_create := fun _ _ =>
       inl {| OpenAIManager.choices := [(Some "Hello", Some "stop")];
              OpenAIManager.usage :=
                Some {| prompt := 10; completion := 5; total := 15 |} |};
     OpenAIManager.sha256_hexdigest := fun s => s |}.

Definition manager : OpenAIManager.t :=
  {| OpenAIManager.model := "gpt-3.5-turbo"; OpenAIManager.max_tokens := 2000;
     OpenAIManager.temperature := FFin (7 # 10); OpenAIManager._timeout := 30;
     OpenAIManager._stats := OpenAIManager.no_usage; OpenAIManager._cache := [];
     OpenAIManager._request_counter := 0; OpenAIManager.client_calls := 0 |}.

Definition manager_env : OpenAIManager.env :=
  {| OpenAIManager.env_uuid8 := "0a1b2c3d"; OpenAIManager.env_timestamp := "t0";
     OpenAIManager.env_now_check := 0; OpenAIManager.env_now_store := 0;
     OpenAIManager.env_latency_ms := 50 |}.

Definition echo_template : PromptTemplate.t :=
  {| PromptTemplate.name := "echo"; PromptTemplate.category := "general";
     PromptTemplate.template := "Say {msg}";
     PromptTemplate.system_instructions := "Be brief.";
     PromptTemplate.default_tone := "professional";
     PromptTemplate.required_variables := ["msg"];
     PromptTemplate.optional_variables := [];
     PromptTemplate.max_tokens_recommendation := 500;
     PromptTemplate.temperature_recommendation := FFin (7 # 10);
     PromptTemplate.version := "1.0.0"; PromptTemplate.description := EmptyString;
     PromptTemplate.tags := []; PromptTemplate.ab_test_group := None;
     PromptTemplate.enabled := true |}.

Definition tone_template : PromptTemplate.t :=
  {| PromptTemplate.name := "note"; PromptTemplate.category := "general";
     PromptTemplate.template := "Write about {topic}. Tone: {tone}.";
     PromptTemplate.system_instructions := "You are a helpful assistant.";
     PromptTemplate.default_tone := "professional";
     PromptTemplate.required_variables := ["topic"];
     PromptTemplate.optional_variables := [];
     PromptTemplate.max_tokens_recommendation := 500;
     PromptTemplate.temperature_recommendation := FFin (7 # 10);
     PromptTemplate.version := "1.0.0"; PromptTemplate.description := EmptyString;
     PromptTemplate.tags := []; PromptTemplate.ab_test_group := None;
     PromptTemplate.enabled := true |}.


End Demo.

(* ===================================================================== *)
(** * Proof automation *)
(* ===================================================================== *)

(** Closes a goal about the [api_manager] field after the updates of a
    stage. *)
Ltac am :=
  cbn [ContentGenerator.api_manager ContentGenerator._invoke_callbacks
       ContentGenerator._add_to_history ContentGenerator.with_callbacks
       ContentGenerator.with_history ContentGenerator.with_cache
       ContentGenerator.with_total_cost ContentGenerator.with_api_calls
       ContentGenerator.with_counters ContentGenerator.with_engine];
  first [assumption | reflexivity].

(** One step of the scanner: split on the character tests and on the
    result of a finished field; [IH] settles the recursive calls, [K] the
    finished fields. *)
Ltac scan_step IH K :=
  repeat match goal with
         | |- context [if ?b then _ else _] => destruct b
         | |- context [match Format.finish ?ea ?er ?ex ?kw ?a ?b ?c ?d with _ => _ end] =>
             let F := fresh "F" in
             destruct (Format.finish ea er ex kw a b c d) as [txt | ex'] eqn:F
         end;
  try discriminate;
  try (apply IH; cbn [String.length] in *; lia);
  try (intros [= ->]; eapply K; eassumption).



(* ===================================================================== *)
(** * Python built-ins used by the catalogue: [sorted], [set], [str.lower] *)
(* ===================================================================== *)

Module PyList.

(** [sorted(l)] for a list of strings: ascending in the order of Python's
    string comparison, which compares code points from the left and puts a
    proper prefix first. *)
Fixpoint insert (x : string) (l : list string) : list string :=
  match l with
  | [] => [x]
  | y :: t => if String.leb x y then x :: l else y :: insert x t
  end.

Definition sorted (l : list string) : list string := fold_right insert [] l.

(** The elements of [set(l)]; the order in which Python enumerates a set
    is not used: every set of the source is sorted when it is read. *)
Definition set_of (l : list string) : list string := nodup String.string_dec l.

(** [x in l] *)
Definition mem (x : string) (l : list string) : bool := existsb (String.eqb x) l.

(** [l.remove(x)]: the first occurrence goes; [None] when there is none
    (Python raises [ValueError]). *)
Fixpoint remove_first (x : nat) (l : list nat) : option (list nat) :=
  match l with
  | [] => None
  | y :: t =>
      if Nat.eqb x y then Some t
      else match remove_first x t with
           | Some t' => Some (y :: t')
           | None => None
           end
  end.

(** [str.lower] on one character (Latin-1 part of the Unicode table). *)
Definition lower_char (c : ascii) : ascii :=
  if PyStr.in_range 65 90 c
     || (PyStr.in_range 192 222 c && negb (PyStr.code c =? 215)%N)
  then ascii_of_N (PyStr.code c + 32) else c.

Fixpoint lower (s : string) : string :=
  match s with
  | EmptyString => EmptyString
  | String c t => String (lower_char c) (lower t)
  end.

End PyList.

(* ===================================================================== *)
(** * prompt_engine.py: [to_dict], [from_dict], [clone] *)
(* ===================================================================== *)

(** The dictionary [to_dict] builds and [from_dict] reads.  A key that is
    absent is [None]; a value has the type of the field it is stored in. *)
Module TemplateDict.

Record t : Type := {
  d_name : option string;
  d_category : option string;
  d_template : option string;
  d_system_instructions : option string;
  d_default_tone : option string;
  d_required_variables : option (list string);
  d_optional_variables : option (dict string);
  d_max_tokens_recommendation : option Z;
  d_temperature_recommendation : option pyfloat;
  d_version : option string;
  d_description : option string;
  d_tags : option (list string);
  d_ab_test_group : option (option string);
  d_enabled : option bool
}.

(** [to_dict()] *)
Definition to_dict (self : PromptTemplate.t) : t :=
  {| d_name := Some (PromptTemplate.name self);
     d_category := Some (PromptTemplate.category self);
     d_template := Some (PromptTemplate.template self);
     d_system_instructions := Some (PromptTemplate.system_instructions self);
     d_default_tone := Some (PromptTemplate.default_tone self);
     d_required_variables := Some (PromptTemplate.required_variables self);
     d_optional_variables := Some (PromptTemplate.optional_variables self);
     d_max_tokens_recommendation := Some (PromptTemplate.max_tokens_recommendation self);
     d_temperature_recommendation := Some (PromptTemplate.temperature_recommendation self);
     d_version := Some (PromptTemplate.version self);
     d_description := Some (PromptTemplate.description self);
     d_tags := Some (PromptTemplate.tags self);
     d_ab_test_group := Some (PromptTemplate.ab_test_group self);
     d_enabled := Some (PromptTemplate.enabled self) |}.

Definition absent {A : Type} (o : option A) (key : string) : list string :=
  match o with Some _ => [] | None => [key] end.

(** [[f for f in required_fields if f not in data]] *)
Definition missing_fields (data : t) : list string :=
  (absent (d_name data) "name" ++ absent (d_category data) "category"
   ++ absent (d_template data) "template"
   ++ absent (d_system_instructions data) "system_instructions")%list.

(** [data["name"] = new_name] *)
Definition set_name (data : t) (new_name : string) : t :=
  {| d_name := Some new_name;
     d_category := d_category data;
     d_template := d_template data;
     d_system_instructions := d_system_instructions data;
     d_default_tone := d_default_tone data;
     d_required_variables := d_required_variables data;
     d_optional_variables := d_optional_variables data;
     d_max_tokens_recommendation := d_max_tokens_recommendation data;
     d_temperature_recommendation := d_temperature_recommendation data;
     d_version := d_version data;
     d_description := d_description data;
     d_tags := d_tags data;
     d_ab_test_group := d_ab_test_group data;
     d_enabled := d_enabled data |}.

Section WithRuntime.
Context `{PyRuntime}.

(** [PromptTemplate.from_dict(data)] *)
Definition from_dict (data : t) : PromptTemplate.t + exn :=
  match d_name data, d_category data, d_template data, d_system_instructions data with
  | Some name, Some category, Some template, Some system_instructions =>
      PromptTemplate.new
        {| PromptTemplate.name := name;
           PromptTemplate.category := category;
           PromptTemplate.template := template;
           PromptTemplate.system_instructions := system_instructions;
           PromptTemplate.default_tone := or_default (d_default_tone data) "professional";
           PromptTemplate.required_variables := or_default (d_required_variables data) [];
           PromptTemplate.optional_variables := or_default (d_optional_variables data) [];
           PromptTemplate.max_tokens_recommendation :=
             or_default (d_max_tokens_recommendation data) 500%Z;
           PromptTemplate.temperature_recommendation :=
             or_default (d_temperature_recommendation data) (FFin (7 # 10));
           PromptTemplate.version := or_default (d_version data) "1.0.0";
           PromptTemplate.description := or_default (d_description data) EmptyString;
           PromptTemplate.tags := or_default (d_tags data) [];
           PromptTemplate.ab_test_group := or_default (d_ab_test_group data) None;
           PromptTemplate.enabled := or_default (d_enabled data) true |}
  | _, _, _, _ =>
      inr (TemplateValidationError
             ("Missing required fields for template: "
              ++ PyStr.repr_list (missing_fields data)))
  end.

(** [clone(new_name)] *)
Definition clone (self : PromptTemplate.t) (new_name : string) : PromptTemplate.t + exn :=
  from_dict (set_name (to_dict self) new_name).

End WithRuntime.

End TemplateDict.

(* ===================================================================== *)
(** * prompt_engine.py: PromptEngine with the memo of [_get_template_cached]

    [MemoEngine.t] is one engine together with the entries that
    [functools.lru_cache] holds for it, least recently used first.  The
    methods that [PromptEngine] above leaves out are embedded on this
    state: they write the catalogue without clearing the memo. *)
(* ===================================================================== *)

(** One assignment of the [updates] dictionary of [clone_template]: a
    field with a value of its type, or a key that is no attribute of a
    template, which [hasattr] makes the loop skip. *)
Inductive field_update : Type :=
| SetName (v : string)
| SetCategory (v : string)
| SetTemplate (v : string)
| SetSystemInstructions (v : string)
| SetDefaultTone (v : string)
| SetRequiredVariables (v : list string)
| SetOptionalVariables (v : dict string)
| SetMaxTokensRecommendation (v : Z)
| SetTemperatureRecommendation (v : pyfloat)
| SetVersion (v : string)
| SetDescription (v : string)
| SetTags (v : list string)
| SetAbTestGroup (v : option string)
| SetEnabled (v : bool)
| NoSuchAttribute (key : string).

(** The attributes [search_templates] can be asked to read.  [getattr]
    gives a text, a list of texts, or something the search skips: [None]
    or a value of another type. *)
Inductive search_field : Type :=
| FieldName | FieldCategory | FieldTemplate | FieldSystemInstructions
| FieldDefaultTone | FieldRequiredVariables | FieldOptionalVariables
| FieldMaxTokensRecommendation | FieldTemperatureRecommendation
| FieldVersion | FieldDescription | FieldTags | FieldAbTestGroup | FieldEnabled
| FieldUnknown (key : string).

Inductive field_value : Type :=
| TextValue (s : string)
| ListValue (l : list string)
| Skipped.

Module MemoEngine.

Definition DEFAULT_CACHE_SIZE : nat := 128.

Record t : Type := {
  engine : PromptEngine.t;
  memo : dict TemplateDict.t
}.

(** [PromptEngine()]; the memo of a new engine is empty. *)
Definition empty : t := {| engine := PromptEngine.empty; memo := [] |}.

Definition with_templates (e : PromptEngine.t) (templates : dict PromptTemplate.t)
                          (active : list string) : PromptEngine.t :=
  {| PromptEngine._templates := templates;
     PromptEngine._active_templates := active;
     PromptEngine._usage_stats := PromptEngine._usage_stats e |}.

(** [self._usage_stats[name] = self._usage_stats.get(name, 0) + 1] *)
Definition count_use (e : PromptEngine.t) (name : string) : PromptEngine.t :=
  {| PromptEngine._templates := PromptEngine._templates e;
     PromptEngine._active_templates := PromptEngine._active_templates e;
     PromptEngine._usage_stats :=
       dict_set (PromptEngine._usage_stats e) name
                (or_default (dict_get (PromptEngine._usage_stats e) name) 0 + 1) |}.

(** A hit of the memo makes the entry the most recently used one. *)
Definition memo_touch (m : dict TemplateDict.t) (name : string) (d : TemplateDict.t)
  : dict TemplateDict.t :=
  (dict_del m name ++ [(name, d)])%list.

(** A miss stores the new entry; a full memo drops its least recently
    used entry first. *)
Definition memo_store (m : dict TemplateDict.t) (name : string) (d : TemplateDict.t)
  : dict TemplateDict.t :=
  ((if DEFAULT_CACHE_SIZE <=? List.length m then tl m else m) ++ [(name, d)])%list.

(** [load_templates()] *)
Definition load_templates (self : t) : t :=
  {| engine := PromptEngine.load_templates (engine self); memo := memo self |}.

(** [create_engine_with_defaults()] *)
Definition create_engine_with_defaults : t := load_templates empty.

Section WithRuntime.
Context `{PyRuntime}.

(** [get_template(name, use_cache)].  [_get_template_cached] is called
    only for a name that is in the catalogue, so what it returns and
    memoises is [to_dict()] of a template, a non-empty dictionary. *)
Definition get_template (self : t) (name : string) (use_cache : bool)
  : (PromptTemplate.t + exn) * t :=
  match dict_get (PromptEngine._templates (engine self)) name with
  | None => (inr (TemplateNotFoundError ("Template '" ++ name ++ "' not found")), self)
  | Some template =>
      let counted := count_use (engine self) name in
      if use_cache then
        match dict_get (memo self) name with
        | Some cached =>
            (TemplateDict.from_dict cached,
             {| engine := counted; memo := memo_touch (memo self) name cached |})
        | None =>
            let cached := TemplateDict.to_dict template in
            (TemplateDict.from_dict cached,
             {| engine := counted; memo := memo_store (memo self) name cached |})
        end
      else (inl template, {| engine := counted; memo := memo self |})
  end.

End WithRuntime.

(** [register_template(template)]: the memo is cleared. *)
Definition register_template (self : t) (template : PromptTemplate.t) : t :=
  {| engine := PromptEngine.register_template (engine self) template; memo := [] |}.

(** [remove_template(name)]: the memo is cleared when something was
    removed. *)
Definition remove_template (self : t) (name : string) : bool * t :=
  if dict_mem (PromptEngine._templates (engine self)) name
  then (true, {| engine := snd (PromptEngine.remove_template (engine self) name);
                 memo := [] |})
  else (false, self).

(** [setattr(cloned, key, value)], guarded by [hasattr]. *)
Definition apply_update (c : PromptTemplate.t) (u : field_update) : PromptTemplate.t :=
  let set name category template system_instructions default_tone required_variables
          optional_variables max_tokens temperature version description tags
          ab_test_group enabled :=
    {| PromptTemplate.name := name; PromptTemplate.category := category;
       PromptTemplate.template := template;
       PromptTemplate.system_instructions := system_instructions;
       PromptTemplate.default_tone := default_tone;
       PromptTemplate.required_variables := required_variables;
       PromptTemplate.optional_variables := optional_variables;
       PromptTemplate.max_tokens_recommendation := max_tokens;
       PromptTemplate.temperature_recommendation := temperature;
       PromptTemplate.version := version; PromptTemplate.description := description;
       PromptTemplate.tags := tags; PromptTemplate.ab_test_group := ab_test_group;
       PromptTemplate.enabled := enabled |} in
  let name := PromptTemplate.name c in
  let category := PromptTemplate.category c in
  let template := PromptTemplate.template c in
  let system_instructions := PromptTemplate.system_instructions c in
  let default_tone := PromptTemplate.default_tone c in
  let required_variables := PromptTemplate.required_variables c in
  let optional_variables := PromptTemplate.optional_variables c in
  let max_tokens := PromptTemplate.max_tokens_recommendation c in
  let temperature := PromptTemplate.temperature_recommendation c in
  let version := PromptTemplate.version c in
  let description := PromptTemplate.description c in
  let tags := PromptTemplate.tags c in
  let ab_test_group := PromptTemplate.ab_test_group c in
  let enabled := PromptTemplate.enabled c in
  match u with
  | SetName v =>
      set v category template system_instructions default_tone required_variables
          optional_variables max_tokens temperature version description tags
          ab_test_group enabled
  | SetCategory v =>
      set name v template system_instructions default_tone required_variables
          optional_variables max_tokens temperature version description tags
          ab_test_group enabled
  | SetTemplate v =>
      set name category v system_instructions default_tone required_variables
          optional_variables max_tokens temperature version description tags
          ab_test_group enabled
  | SetSystemInstructions v =>
      set name category template v default_tone required_variables
          optional_variables max_tokens temperature version description tags
          ab_test_group enabled
  | SetDefaultTone v =>
      set name category template system_instructions v required_variables
          optional_variables max_tokens temperature version description tags
          ab_test_group enabled
  | SetRequiredVariables v =>
      set name category template system_instructions default_tone v
          optional_variables max_tokens temperature version description tags
          ab_test_group enabled
  | SetOptionalVariables v =>
      set name category template system_instructions default_tone required_variables
          v max_tokens temperature version description tags ab_test_group enabled
  | SetMaxTokensRecommendation v =>
      set name category template system_instructions default_tone required_variables
          optional_variables v temperature version description tags
          ab_test_group enabled
  | SetTemperatureRecommendation v =>
      set name category template system_instructions default_tone required_variables
          optional_variables max_tokens v version description tags
          ab_test_group enabled
  | SetVersion v =>
      set name category template system_instructions default_tone required_variables
          optional_variables max_tokens temperature v description tags
          ab_test_group enabled
  | SetDescription v =>
      set name category template system_instructions default_tone required_variables
          optional_variables max_tokens temperature version v tags
          ab_test_group enabled
  | SetTags v =>
      set name category template system_instructions default_tone required_variables
          optional_variables max_tokens temperature version description v
          ab_test_group enabled
  | SetAbTestGroup v =>
      set name category template system_instructions default_tone required_variables
          optional_variables max_tokens temperature version description tags
          v enabled
  | SetEnabled v =>
      set name category template system_instructions default_tone required_variables
          optional_variables max_tokens temperature version description tags
          ab_test_group v
  | NoSuchAttribute _ => c
  end.

Section WithRuntime.
Context `{PyRuntime}.

(** [clone_template(name, new_name, updates)]: the clone is built by the
    constructor, the updates are assigned afterwards, and the result is
    stored under [new_name]; the memo is left as it is. *)
Definition clone_template (self : t) (name new_name : string)
    (updates : list field_update) : (PromptTemplate.t + exn) * t :=
  let templates := PromptEngine._templates (engine self) in
  match dict_get templates name with
  | None => (inr (TemplateNotFoundError ("Template '" ++ name ++ "' not found")), self)
  | Some source =>
      if dict_mem templates new_name
      then (inr (TemplateValidationError ("Template '" ++ new_name ++ "' already exists")),
            self)
      else
        match TemplateDict.clone source new_name with
        | inr e => (inr e, self)
        | inl cloned0 =>
            let cloned := fold_left apply_update updates cloned0 in
            (inl cloned,
             {| engine :=
                  with_templates (engine self) (dict_set templates new_name cloned)
                    (if PromptTemplate.enabled cloned
                     then PromptEngine.set_add
                            (PromptEngine._active_templates (engine self)) new_name
                     else PromptEngine._active_templates (engine self));
                memo := memo self |})
        end
  end.

End WithRuntime.

(** [self._templates[name].enabled = value] *)
Definition set_enabled (template : PromptTemplate.t) (value : bool) : PromptTemplate.t :=
  apply_update template (SetEnabled value).

(** [enable_template(name)] *)
Definition enable_template (self : t) (name : string) : bool * t :=
  let templates := PromptEngine._templates (engine self) in
  match dict_get templates name with
  | None => (false, self)
  | Some template =>
      (true,
       {| engine :=
            with_templates (engine self) (dict_set templates name (set_enabled template true))
              (PromptEngine.set_add (PromptEngine._active_templates (engine self)) name);
          memo := memo self |})
  end.

(** [disable_template(name)] *)
Definition disable_template (self : t) (name : string) : bool * t :=
  let templates := PromptEngine._templates (engine self) in
  match dict_get templates name with
  | None => (false, self)
  | Some template =>
      (true,
       {| engine :=
            with_templates (engine self) (dict_set templates name (set_enabled template false))
              (PromptEngine.set_discard (PromptEngine._active_templates (engine self)) name);
          memo := memo self |})
  end.

(** The three filters of [list_templates] on one template. *)
Definition listed (category : option string) (tags : option (list string))
                  (enabled_only : bool) (template : PromptTemplate.t) : bool :=
  (negb enabled_only || PromptTemplate.enabled template)
  && match category with
     | Some c => negb (PyStr.truthy c) || String.eqb (PromptTemplate.category template) c
     | None => true
     end
  && match tags with
     | Some wanted => forallb (fun tag => PyList.mem tag (PromptTemplate.tags template)) wanted
     | None => true
     end.

(** [list_templates(category, tags, enabled_only)] *)
Definition list_templates (self : t) (category : option string)
    (tags : option (list string)) (enabled_only : bool) : list string :=
  PyList.sorted
    (map fst (filter (fun kv => listed category tags enabled_only (snd kv))
                     (PromptEngine._templates (engine self)))).

(** [list_categories()] *)
Definition list_categories (self : t) : list string :=
  PyList.sorted
    (PyList.set_of (map (fun kv => PromptTemplate.category (snd kv))
                        (PromptEngine._templates (engine self)))).

(** [get_usage_stats()] *)
Definition get_usage_stats (self : t) : dict nat := PromptEngine._usage_stats (engine self).

(** What [get_template_info] returns: [to_dict()] with two more keys. *)
Record template_info : Type := {
  info : TemplateDict.t;
  usage_count : nat;
  is_active : bool
}.

(** [get_template_info(name)] *)
Definition get_template_info (self : t) (name : string) : template_info + exn :=
  match dict_get (PromptEngine._templates (engine self)) name with
  | None => inr (TemplateNotFoundError ("Template '" ++ name ++ "' not found"))
  | Some template =>
      inl {| info := TemplateDict.to_dict template;
             usage_count := or_default (dict_get (PromptEngine._usage_stats (engine self)) name) 0;
             is_active := PyList.mem name (PromptEngine._active_templates (engine self)) |}
  end.

(** [getattr(template, field, None)], by the branch of the search that
    takes the value. *)
Definition field_of (template : PromptTemplate.t) (f : search_field) : field_value :=
  match f with
  | FieldName => TextValue (PromptTemplate.name template)
  | FieldCategory => TextValue (PromptTemplate.category template)
  | FieldTemplate => TextValue (PromptTemplate.template template)
  | FieldSystemInstructions => TextValue (PromptTemplate.system_instructions template)
  | FieldDefaultTone => TextValue (PromptTemplate.default_tone template)
  | FieldRequiredVariables => ListValue (PromptTemplate.required_variables template)
  | FieldVersion => TextValue (PromptTemplate.version template)
  | FieldDescription => TextValue (PromptTemplate.description template)
  | FieldTags => ListValue (PromptTemplate.tags template)
  | FieldAbTestGroup =>
      match PromptTemplate.ab_test_group template with
      | Some g => TextValue g
      | None => Skipped
      end
  | FieldOptionalVariables | FieldMaxTokensRecommendation
  | FieldTemperatureRecommendation | FieldEnabled | FieldUnknown _ => Skipped
  end.

Definition field_matches (query_lower : string) (template : PromptTemplate.t)
                         (f : search_field) : bool :=
  match field_of template f with
  | TextValue value => PyStr.contains query_lower (PyList.lower value)
  | ListValue value =>
      existsb (fun v => PyStr.contains query_lower (PyList.lower v)) value
  | Skipped => false
  end.

(** [search_templates(query, fields)] *)
Definition search_templates (self : t) (query : string)
    (fields : option (list search_field)) : list string :=
  let fields := or_default fields [FieldName; FieldDescription; FieldTags] in
  let query_lower := PyList.lower query in
  PyList.sorted
    (map fst (filter (fun kv => existsb (field_matches query_lower (snd kv)) fields)
                     (PromptEngine._templates (engine self)))).

(** [export_templates(names)] *)
Definition export_templates (self : t) (names : option (list string))
  : list TemplateDict.t :=
  let templates := PromptEngine._templates (engine self) in
  flat_map (fun name => match dict_get templates name with
                        | Some template => [TemplateDict.to_dict template]
                        | None => []
                        end)
           (or_default names (dict_keys templates)).

Section WithRuntime.
Context `{PyRuntime}.

(** One round of the loop of [import_templates]: the two counters, or the
    exception that leaves the loop, and the engine. *)
Definition import_one (overwrite : bool) (acc : ((nat * nat) + exn) * t)
                      (data : TemplateDict.t) : ((nat * nat) + exn) * t :=
  match acc with
  | (inr e, self) => (inr e, self)
  | (inl (imported, skipped), self) =>
      let name := or_default (TemplateDict.d_name data) EmptyString in
      if dict_mem (PromptEngine._templates (engine self)) name && negb overwrite
      then (inl (imported, skipped + 1), self)
      else
        match TemplateDict.from_dict data with
        | inl template => (inl (imported + 1, skipped), register_template self template)
        | inr (TemplateValidationError _) | inr (KeyError _) =>
            (inl (imported, skipped + 1), self)
        | inr e => (inr e, self)
        end
  end.

(** [import_templates(templates_data, overwrite)]: [(imported, skipped)]
    or the exception raised, and the engine afterwards. *)
Definition import_templates (self : t) (templates_data : list TemplateDict.t)
    (overwrite : bool) : ((nat * nat) + exn) * t :=
  fold_left (import_one overwrite) templates_data (inl (0, 0), self).

(** What a client does with an engine, apart from enabling, disabling
    and reloading. *)
Inductive op : Type :=
| OpGet (name : string) (use_cache : bool)
| OpRegister (template : PromptTemplate.t)
| OpRemove (name : string)
| OpClone (name new_name : string) (updates : list field_update)
| OpImport (templates_data : list TemplateDict.t) (overwrite : bool).

Definition step (self : t) (o : op) : t :=
  match o with
  | OpGet name use_cache => snd (get_template self name use_cache)
  | OpRegister template => register_template self template
  | OpRemove name => snd (remove_template self name)
  | OpClone name new_name updates => snd (clone_template self name new_name updates)
  | OpImport templates_data overwrite => snd (import_templates self templates_data overwrite)
  end.

(** The engine after a sequence of operations. *)
Definition exec (self : t) (ops : list op) : t := fold_left step ops self.

End WithRuntime.

End MemoEngine.

(* ===================================================================== *)
(** * Vocabulary of the statements about the catalogue *)
(* ===================================================================== *)

Module Catalogue.
Import MemoEngine.

(** Python's [a <= b] on strings. *)
Definition str_le (a b : string) : Prop := String.leb a b = true.

(** A dictionary has no key twice. *)
Definition keys_unique {V : Type} (d : dict V) : Prop := NoDup (dict_keys d).

(** Every template is stored under its own name and passes the
    constructor's validation. *)
Definition well_formed `{PyRuntime} (d : dict PromptTemplate.t) : Prop :=
  keys_unique d
  /\ Forall (fun kv => PromptTemplate.name (snd kv) = fst kv
                       /\ PromptTemplate.new (snd kv) = inl (snd kv)) d.

(** Every entry of the memo is [to_dict()] of the template now stored
    under its key. *)
Definition coherent (s : t) : Prop :=
  Forall (fun kd => exists template,
            dict_get (PromptEngine._templates (engine s)) (fst kd) = Some template
            /\ snd kd = TemplateDict.to_dict template)
         (memo s).

End Catalogue.

(* ===================================================================== *)
(** * content_generator.py: callbacks, filtered history, batches, variations *)
(* ===================================================================== *)

(** One element of the [requests] list of [generate_batch]: something
    that is not a dictionary, or a dictionary read through its two [get]
    calls.  [None] stands for a key that is absent or holds [None]. *)
Inductive batch_request : Type :=
| NotADict
| RequestDict (template_name : option string)
              (variables : option (list (string * pyval))).

(** What the validation loop of [generate_batch] keeps of a request. *)
Inductive validated_request : Type :=
| Invalid (error : string)
| Valid (template_name : string) (variables : option (list (string * pyval))).

(** One element of the list [generate_batch] returns: the short dictionary
    built for an invalid request, or the result of [generate]. *)
Inductive batch_result : Type :=
| Rejected (error timestamp request_id : string)
| Generated (r : Result.t).

(** One element of the list [generate_multiple_variations] returns: the
    result of [generate] with the two keys added to it. *)
Record variation : Type := {
  variation_result : Result.t;
  variation_number : Z;
  variation_temperature : option Q
}.

Module Generator.
Import ContentGenerator.

(** [unregister_callback(callback)] *)
Definition unregister_callback (g : t) (callback : nat) : bool * t :=
  match PyList.remove_first callback (_callbacks g) with
  | Some l => (true, with_callbacks g l (callback_log g))
  | None => (false, g)
  end.

(** [l[start:]] for a list and any integer [start]. *)
Definition slice_from {A : Type} (start : Z) (l : list A) : list A :=
  if (start <? 0)%Z
  then skipn (Z.to_nat (Z.max 0 (Z.of_nat (List.length l) + start))) l
  else skipn (Z.to_nat start) l.

(** [get_history(limit, template_filter, start_date, success_only)].
    [start_date] is the text [start_iso] that the timestamps are compared
    with. *)
Definition get_history (g : t) (limit : option Z) (template_filter : option string)
    (start_date : option string) (success_only : bool) : list Result.t :=
  let filtered := _history g in
  let filtered :=
    match template_filter with
    | Some f =>
        if PyStr.truthy f
        then filter (fun h => String.eqb (Result.template_used h) f) filtered
        else filtered
    | None => filtered
    end in
  let filtered :=
    match start_date with
    | Some start_iso =>
        if PyStr.truthy start_iso
        then filter (fun h => String.leb start_iso (Result.timestamp h)) filtered
        else filtered
    | None => filtered
    end in
  let filtered := if success_only then filter Result.success filtered else filtered in
  match limit with
  | Some n => if (n =? 0)%Z then filtered else slice_from (- n) filtered
  | None => filtered
  end.

(** The validation of one request, [i] being its index. *)
Definition validate_request (i : nat) (req : batch_request) : validated_request :=
  match req with
  | NotADict => Invalid ("Request " ++ PyStr.str_of_nat i ++ " is not a dictionary")
  | RequestDict template_name variables =>
      match template_name with
      | Some name =>
          if PyStr.truthy name then Valid name variables
          else Invalid ("Request " ++ PyStr.str_of_nat i ++ " missing 'template_name'")
      | None => Invalid ("Request " ++ PyStr.str_of_nat i ++ " missing 'template_name'")
      end
  end.

(** [for i, req in enumerate(requests)] *)
Fixpoint validate_requests (i : nat) (requests : list batch_request)
  : list validated_request :=
  match requests with
  | [] => []
  | req :: rest => validate_request i req :: validate_requests (S i) rest
  end.

Section WithWorld.
Context `{PyRuntime} `{ApiManager}.

(** The sequential loop over the validated requests; the request at
    position [i] reads [envs i].  An exception of [generate] would leave
    the loop. *)
Fixpoint process_batch (g : t) (envs : nat -> call_env) (i : nat)
    (validated : list validated_request) : outcome (list batch_result) * t :=
  match validated with
  | [] => (Returned [], g)
  | req :: rest =>
      let (first, g1) :=
        match req with
        | Invalid error =>
            (Returned (Rejected error (env_timestamp (envs i)) (env_request_id (envs i))), g)
        | Valid template_name variables =>
            match generate g (envs i) template_name variables true true [] with
            | (Returned r, g') => (Returned (Generated r), g')
            | (Raised e, g') => (Raised e, g')
            end
        end in
      match first with
      | Raised e => (Raised e, g1)
      | Returned x =>
          match process_batch g1 envs (S i) rest with
          | (Returned xs, g2) => (Returned (x :: xs), g2)
          | (Raised e, g2) => (Raised e, g2)
          end
      end
  end.

(** [generate_batch(requests, parallel)] where it runs sequentially: with
    [parallel=False], or without an API manager. *)
Definition generate_batch (g : t) (envs : nat -> call_env)
    (requests : list batch_request) : outcome (list batch_result) * t :=
  match requests with
  | [] => (Returned [], g)
  | _ => process_batch g envs 0 (validate_requests 0 requests)
  end.

(** The temperature of variation [i] of [count], computed on the rationals
    as the costs are: the rounding of the floating-point operations is not
    modelled. *)
Definition variation_temp (temperature_range : Q * Q) (count : Z) (i : nat) : Q :=
  let (min_temp, max_temp) := temperature_range in
  if (1 <? count)%Z
  then (min_temp + (max_temp - min_temp)
                   * (inject_Z (Z.of_nat i) / inject_Z (count - 1)))%Q
  else ((min_temp + max_temp) / 2)%Q.

(** The loop [for i in range(count)], over the indices that are left. *)
Fixpoint variations_loop (g : t) (envs : nat -> call_env) (template_name : string)
    (variables : dict pyval) (count : Z) (temperature_range : option (Q * Q))
    (indices : list nat) : outcome (list variation) * t :=
  match indices with
  | [] => (Returned [], g)
  | i :: rest =>
      let temp := option_map (fun range => variation_temp range count i)
                             temperature_range in
      let overrides :=
        match temp with
        | Some q => [("temperature", VFloat (FFin q))]
        | None => []
        end in
      let variation_vars :=
        dict_set (dict_set variables "_variation_number" (VInt (Z.of_nat i + 1)))
                 "_total_variations" (VInt count) in
      match generate g (envs i) template_name (Some variation_vars) false true overrides with
      | (Raised e, g1) => (Raised e, g1)
      | (Returned result, g1) =>
          let v := {| variation_result := result;
                      variation_number := (Z.of_nat i + 1)%Z;
                      variation_temperature := temp |} in
          match variations_loop g1 envs template_name variables count temperature_range
                                rest with
          | (Returned vs, g2) => (Returned (v :: vs), g2)
          | (Raised e, g2) => (Raised e, g2)
          end
      end
  end.

(** [generate_multiple_variations(template_name, variables, count,
    temperature_range)]; variation [i] reads [envs i]. *)
Definition generate_multiple_variations (g : t) (envs : nat -> call_env)
    (template_name : string) (variables : dict pyval) (count : Z)
    (temperature_range : option (Q * Q)) : outcome (list variation) * t :=
  variations_loop g envs template_name variables count temperature_range
                  (seq 0 (Z.to_nat count)).

(** [validate_template_variables(template_name, variables)] *)
Definition validate_template_variables (g : t) (template_name : string)
    (variables : dict pyval) : outcome (bool * list string) * t :=
  let (found, engine) := PromptEngine.get_template (prompt_engine g) template_name in
  let g1 := with_engine g engine in
  match found with
  | inr (TemplateNotFoundError _) =>
      (Returned (false, ["Template '" ++ template_name ++ "' not found"]), g1)
  | inr e => (Raised e, g1)
  | inl template =>
      let missing := filter (fun var => negb (dict_mem variables var))
                            (PromptTemplate.required_variables template) in
      (Returned (match missing with [] => true | _ => false end, missing), g1)
  end.

End WithWorld.

End Generator.

(** What one call of [generate] does besides returning, stated for the
    stages of [generate]: [o] is the result returned or the exception that
    left the stage. *)
Module Effects.
Import ContentGenerator.

Definition invoked (g : t) (r : Result.t) : list (nat * Result.t) :=
  if Result.success r then map (fun cb => (cb, r)) (_callbacks g) else [].

Definition charged (r : Result.t) : Q :=
  if Result.cached r then 0%Q else Result.cost r.

Record of_result (g : t) (env : call_env) (use_cache : bool) (r : Result.t) (g' : t)
  : Prop := {
  ids : Result.request_id r = env_request_id env
        /\ Result.timestamp r = env_timestamp env;
  callbacks_kept : _callbacks g' = _callbacks g;
  log : callback_log g' = (callback_log g ++ invoked g r)%list;
  total_cost : (_total_cost g' == _total_cost g + charged r)%Q;
  cache_bound : LRUCache.len (_cache g) <= MAX_CACHE_SIZE ->
                LRUCache.len (_cache g') <= MAX_CACHE_SIZE;
  no_lookup : use_cache = false ->
              Result.cached r = false
              /\ LRUCache._hits (_cache g') = LRUCache._hits (_cache g)
              /\ LRUCache._misses (_cache g') = LRUCache._misses (_cache g)
              /\ _cache_hits g' = _cache_hits g
}.

Record of_exception (g g' : t) : Prop := {
  exn_callbacks_kept : _callbacks g' = _callbacks g;
  exn_log : callback_log g' = callback_log g;
  exn_total_cost : _total_cost g' = _total_cost g;
  exn_cache : _cache g' = _cache g;
  exn_cache_hits : _cache_hits g' = _cache_hits g
}.

Definition of_stage (g : t) (env : call_env) (use_cache : bool) (o : Result.t + exn)
                    (g' : t) : Prop :=
  match o with
  | inl r => of_result g env use_cache r g'
  | inr _ => of_exception g g'
  end.





End Effects.

(** Reduces the projections of a generator and of a result after the
    updates of a stage of [generate]. *)
Ltac gen_fields :=
  cbn [ContentGenerator._callbacks ContentGenerator.callback_log
       ContentGenerator._total_cost ContentGenerator._cache
       ContentGenerator._cache_hits ContentGenerator._cache_checks
       ContentGenerator._history ContentGenerator.api_manager
       ContentGenerator.prompt_engine ContentGenerator.api_calls
       ContentGenerator._invoke_callbacks ContentGenerator._add_to_history
       ContentGenerator.with_callbacks ContentGenerator.with_history
       ContentGenerator.with_cache ContentGenerator.with_total_cost
       ContentGenerator.with_api_calls ContentGenerator.with_counters
       ContentGenerator.with_engine
       Result.success Result.cached Result.cost Result.request_id Result.timestamp
       Result.error Result.content Result.template_used
       Result.set_error Result.set_generation_time Result.replay
       ContentGenerator.base_result].

(* ===================================================================== *)
(** * api_manager.py: sequences of calls, sequential batches *)
(* ===================================================================== *)

Module ManagerSession.
Import OpenAIManager.

(** [not prompt or not prompt.strip()] *)
Definition blank (prompt_text : string) : bool :=
  negb (PyStr.truthy prompt_text) || negb (PyStr.truthy (PyStr.strip prompt_text)).

(** One call of [generate_content] with its arguments. *)
Record call : Type := {
  call_env : env;
  call_prompt : string;
  call_max_tokens : option Z;
  call_temperature : option pyfloat;
  call_system_message : option string;
  call_use_cache : bool
}.

(** What a sequential batch gives: the list it returns or the exception
    that leaves the loop, the manager afterwards and the requests sent. *)
Record batch : Type := {
  batch_returned : list response + api_exn;
  batch_manager : t;
  batch_sent : list request
}.

Section WithClient.
Context `{Client}.

Definition run_call (self : t) (c : call) : generation :=
  generate_content self (call_env c) (call_prompt c) (call_max_tokens c)
                   (call_temperature c) (call_system_message c) (call_use_cache c).

(** The calls of a client one after the other; a caller that catches the
    exception of a call goes on with the same manager. *)
Fixpoint run (self : t) (calls : list call) : list generation :=
  match calls with
  | [] => []
  | c :: rest => run_call self c :: run (manager (run_call self c)) rest
  end.

(** The manager after the calls. *)
Definition after (self : t) (calls : list call) : t :=
  fold_left (fun m c => manager (run_call m c)) calls self.

(** [_generate_batch_sequential]: prompt [i] reads [envs i]; an exception
    of [generate_content] leaves the loop and the results so far are
    lost. *)
Fixpoint _generate_batch_sequential (self : t) (envs : nat -> env) (i : nat)
    (prompts : list string) (max_tokens_arg : option Z)
    (temperature_arg : option pyfloat) (system_message : option string) : batch :=
  match prompts with
  | [] => {| batch_returned := inl []; batch_manager := self; batch_sent := [] |}
  | prompt_text :: rest =>
      let first := generate_content self (envs i) prompt_text max_tokens_arg
                                    temperature_arg system_message true in
      match returned first with
      | inr e => {| batch_returned := inr e; batch_manager := manager first;
                    batch_sent := sent first |}
      | inl r =>
          let later := _generate_batch_sequential (manager first) envs (S i) rest
                         max_tokens_arg temperature_arg system_message in
          {| batch_returned :=
               match batch_returned later with
               | inl rs => inl (r :: rs)
               | inr e => inr e
               end;
             batch_manager := batch_manager later;
             batch_sent := (sent first ++ batch_sent later)%list |}
      end
  end.

(** [generate_batch(prompts, parallel=False, max_tokens, temperature,
    system_message)] *)
Definition generate_batch (self : t) (envs : nat -> env) (prompts : list string)
    (max_tokens_arg : option Z) (temperature_arg : option pyfloat)
    (system_message : option string) : batch :=
  match prompts with
  | [] => {| batch_returned := inl []; batch_manager := self; batch_sent := [] |}
  | _ => _generate_batch_sequential self envs 0 prompts max_tokens_arg temperature_arg
                                    system_message
  end.

End WithClient.

(** The statistics count every request as a success or as a failure. *)
Definition balanced (s : UsageStatistics) : Prop :=
  total_requests s = successful_requests s + failed_requests s.

(** The call reached the client. *)
Definition reached_client (gen : generation) : bool :=
  match sent gen with [] => false | _ => true end.

End ManagerSession.

(* ===================================================================== *)
(** * Sample values of the examples *)
(* ===================================================================== *)

Module Samples.

(** An engine that holds the two sample templates. *)
Definition engine : MemoEngine.t :=
  MemoEngine.register_template
    (MemoEngine.register_template MemoEngine.empty Demo.echo_template)
    Demo.tone_template.

Definition engine_ops : list MemoEngine.op :=
  [ MemoEngine.OpGet "echo" true;
    MemoEngine.OpClone "echo" "echo_copy" [SetDefaultTone "casual"];
    MemoEngine.OpGet "echo_copy" true;
    MemoEngine.OpRemove "note";
    MemoEngine.OpGet "echo" true ].

(** A cache of two results, the older one first. *)
Definition sample_result (text : string) : Result.t :=
  {| Result.success := true; Result.content := text;
     Result.template_used := "echo"; Result.variables := [];
     Result.timestamp := "t0"; Result.request_id := "r0";
     Result.model := "gpt-3.5-turbo"; Result.tokens_used := no_tokens;
     Result.cost := 1 # 1000; Result.cached := false; Result.generation_time := 0;
     Result.error := None |}.

Definition sample_entry (text : string) : LRUCache.entry :=
  {| LRUCache.data := sample_result text; LRUCache.expires_at := seconds 3600;
     LRUCache.created_at := 0 |}.

Definition two_entries : LRUCache.t :=
  {| LRUCache._cache := [("a", sample_entry "first"); ("b", sample_entry "second")];
     LRUCache._hits := 0; LRUCache._misses := 0 |}.

Definition manager_call (prompt_text : string) (use_cache : bool) : ManagerSession.call :=
  {| ManagerSession.call_env := Demo.manager_env;
     ManagerSession.call_prompt := prompt_text;
     ManagerSession.call_max_tokens := None;
     ManagerSession.call_temperature := None;
     ManagerSession.call_system_message := None;
     ManagerSession.call_use_cache := use_cache |}.

End Samples.

(* ===================================================================== *)
(** * Checks of the embedding on concrete inputs *)
(* ===================================================================== *)

Example validate_input_accepts :
  Utils.validate_input "product_description" [("product_name", VStr "X")] = (true, None).
Proof. vm_compute. reflexivity. Qed.

Example validate_input_rejects_drop :
  fst (Utils.validate_input "test" [("id", VStr "1; DROP TABLE users")]) = false.
Proof. vm_compute. reflexivity. Qed.

Example validate_input_rejects_name :
  fst (Utils.validate_input "te st" [("id", VStr "x")]) = false.
Proof. vm_compute. reflexivity. Qed.

Example render_greeting :
  @PromptTemplate.generate Demo.runtime Demo.echo_template [("msg", VStr "hello")]
    true false = inl "Say hello".
Proof. vm_compute. reflexivity. Qed.

Example builtins_pass_validation :
  forallb (fun f => match @PromptTemplate.new Demo.runtime f with
                    | inl _ => true | inr _ => false end)
          _create_builtin_templates = true.
Proof. vm_compute. reflexivity. Qed.

Example first_call_misses_second_hits :
  let '(r1, g1) := @Session.run_call Demo.runtime Demo.mock_manager Demo.fresh
                     (Demo.product_call 0) in
  let '(r2, g2) := @Session.run_call Demo.runtime Demo.mock_manager g1
                     (Demo.product_call 10) in
  Spec.records [r1; r2] <> []
  /\ map Result.cached (Spec.records [r1; r2]) = [false; true]
  /\ map Result.success (Spec.records [r1; r2]) = [true; true]
  /\ ContentGenerator.api_calls g2 = 1.
Proof. vm_compute. repeat split; try reflexivity. discriminate. Qed.

(* ===================================================================== *)
(** * Facts about dictionaries and strings *)
(* ===================================================================== *)

Section DictFacts.
Context {V : Type}.
Implicit Types (d : dict V) (k : string) (v : V).

Lemma dict_get_app d1 d2 k :
  dict_get (d1 ++ d2)%list k =
  match dict_get d1 k with Some v => Some v | None => dict_get d2 k end.
Proof.
  induction d1 as [|[k' v'] d1 IH]; simpl; [reflexivity|].
  destruct (String.eqb k k'); [reflexivity | exact IH].
Qed.

Lemma dict_get_del_same d k : dict_get (dict_del d k) k = None.
Proof.
  unfold dict_del. induction d as [|[k' v'] d IH]; simpl; [reflexivity|].
  destruct (String.eqb k k') eqn:E; simpl; [exact IH|].
  rewrite E. exact IH.
Qed.

Lemma dict_get_del_other d k k' :
  k <> k' -> dict_get (dict_del d k) k' = dict_get d k'.
Proof.
  intros Hne. unfold dict_del. induction d as [|[k0 v0] d IH]; simpl; [reflexivity|].
  destruct (String.eqb k k0) eqn:E; simpl.
  - apply String.eqb_eq in E. subst k0.
    destruct (String.eqb k' k) eqn:E'; [|exact IH].
    apply String.eqb_eq in E'. congruence.
  - destruct (String.eqb k' k0); [reflexivity | exact IH].
Qed.

Lemma dict_get_set_same d k v : dict_get (dict_set d k v) k = Some v.
Proof.
  induction d as [|[k' v'] d IH]; simpl.
  - rewrite String.eqb_refl. reflexivity.
  - destruct (String.eqb k k') eqn:E; simpl; rewrite E; [reflexivity | exact IH].
Qed.

Lemma dict_get_set_other d k k' v :
  k <> k' -> dict_get (dict_set d k v) k' = dict_get d k'.
Proof.
  intros Hne. induction d as [|[k0 v0] d IH]; simpl.
  - destruct (String.eqb k' k) eqn:E; [|reflexivity].
    apply String.eqb_eq in E. congruence.
  - destruct (String.eqb k k0) eqn:E; simpl.
    + apply String.eqb_eq in E. subst k0.
      destruct (String.eqb k' k) eqn:E'; [|reflexivity].
      apply String.eqb_eq in E'. congruence.
    + destruct (String.eqb k' k0); [reflexivity | exact IH].
Qed.

Lemma dict_get_In d k v : dict_get d k = Some v -> In (k, v) d.
Proof.
  induction d as [|[k' v'] d IH]; simpl; [discriminate|].
  destruct (String.eqb k k') eqn:E.
  - apply String.eqb_eq in E. subst. intros [= ->]. left. reflexivity.
  - intros Hg. right. exact (IH Hg).
Qed.

Lemma dict_get_None_In d k v : dict_get d k = None -> ~ In (k, v) d.
Proof.
  induction d as [|[k' v'] d IH]; simpl; [tauto|].
  destruct (String.eqb k k') eqn:E; [discriminate|].
  intros Hg [Heq | Hin]; [|exact (IH Hg Hin)].
  inversion Heq; subst. rewrite String.eqb_refl in E. discriminate.
Qed.

Lemma dict_mem_set d k k' v :
  dict_mem (dict_set d k v) k' = String.eqb k k' || dict_mem d k'.
Proof.
  unfold dict_mem. destruct (String.eqb k k') eqn:E.
  - apply String.eqb_eq in E. subst. rewrite dict_get_set_same. reflexivity.
  - rewrite dict_get_set_other; [reflexivity|].
    intros ->. rewrite String.eqb_refl in E. discriminate.
Qed.

End DictFacts.

Lemma dict_get_map {V W : Type} (f : V -> W) (d : dict V) (k : string) :
  dict_get (map (fun kv => (fst kv, f (snd kv))) d) k = option_map f (dict_get d k).
Proof.
  induction d as [|[k' v'] d IH]; simpl; [reflexivity|].
  destruct (String.eqb k k'); [reflexivity | exact IH].
Qed.

Lemma append_nonempty (a b : string) : a <> EmptyString -> (a ++ b) <> EmptyString.
Proof. destruct a; simpl; [congruence | discriminate]. Qed.

Lemma append_assoc (a b c : string) : (a ++ b) ++ c = a ++ (b ++ c).
Proof. induction a as [|x a IH]; cbn; [reflexivity | rewrite IH; reflexivity]. Qed.

Lemma append_nil_r (a : string) : a ++ EmptyString = a.
Proof. induction a as [|x a IH]; cbn; [reflexivity | rewrite IH; reflexivity]. Qed.

Lemma append_length (a b : string) :
  String.length (a ++ b) = String.length a + String.length b.
Proof. induction a as [|c a IH]; cbn; [reflexivity | rewrite IH; reflexivity]. Qed.

Lemma append_cancel_l (t a b : string) : t ++ a = t ++ b -> a = b.
Proof. induction t as [|c t IH]; cbn; [tauto | intros [= E]; exact (IH E)]. Qed.

(** Text can be cancelled on the right of an append. *)
Lemma append_cancel_r (t : string) : forall a b, a ++ t = b ++ t -> a = b.
Proof.
  induction a as [|c a IH]; intros [|d b] E; cbn in E.
  - reflexivity.
  - exfalso. apply (f_equal String.length) in E. cbn in E.
    rewrite append_length in E. lia.
  - exfalso. apply (f_equal String.length) in E. cbn in E.
    rewrite append_length in E. lia.
  - injection E as -> E. rewrite (IH _ E). reflexivity.
Qed.

Module ReprFacts.
Import PyStr.

(** A character is printed as itself or as an escape. *)
Lemma repr_char_cases (q c : ascii) :
  (repr_char q c = String c EmptyString /\ c <> q)
  \/ exists r, repr_char q c = String "\" r.
Proof.
  unfold repr_char. destruct (Ascii.eqb c q) eqn:E; [right; eauto|].
  apply Ascii.eqb_neq in E.
  repeat match goal with
         | |- context [if ?b then _ else _] => destruct b
         end; try (right; eexists; reflexivity).
  left. split; [reflexivity | exact E].
Qed.

(** The first character printed for a text that does not start with an
    escape is the first character of the text. *)
Lemma repr_body_head (q c a : ascii) (k tail rest : string) :
  repr_body q (String c k) ++ tail = String a rest ->
  a <> "\"%char ->
  c = a /\ c <> q /\ repr_body q k ++ tail = rest.
Proof.
  cbn [repr_body].
  destruct (repr_char_cases q c) as [[-> Hc] | [r ->]]; cbn [append].
  - intros [= -> E] _. auto.
  - intros [= <- _] Ha. exfalso. apply Ha. reflexivity.
Qed.

(** Only the key "tone" is printed as 'tone'. *)
Lemma repr_tone (k : string) : repr k = "'tone'" -> k = "tone".
Proof.
  unfold repr.
  destruct (mem_char "'" k && negb (mem_char dquote k)); [discriminate|].
  intros [= E].
  destruct k as [|c1 k]; [discriminate|].
  apply repr_body_head in E; [|discriminate]. destruct E as (-> & _ & E).
  destruct k as [|c2 k]; [discriminate|].
  apply repr_body_head in E; [|discriminate]. destruct E as (-> & _ & E).
  destruct k as [|c3 k]; [discriminate|].
  apply repr_body_head in E; [|discriminate]. destruct E as (-> & _ & E).
  destruct k as [|c4 k]; [discriminate|].
  apply repr_body_head in E; [|discriminate]. destruct E as (-> & _ & E).
  destruct k as [|c5 k]; [reflexivity|].
  apply repr_body_head in E; [|discriminate]. destruct E as (-> & Hne & _).
  exfalso. apply Hne. reflexivity.
Qed.

End ReprFacts.

(* ===================================================================== *)
(** * The history *)
(* ===================================================================== *)

Module HistoryFacts.
Import ContentGenerator.

Lemma trim_cons (x : Result.t) (h : list Result.t) :
  trim (x :: h) = if MAX_HISTORY_SIZE <? S (List.length h) then trim h else x :: h.
Proof. reflexivity. Qed.

(** The loop leaves the last [MAX_HISTORY_SIZE] entries. *)
Lemma trim_last_n (h : list Result.t) : trim h = Spec.last_n MAX_HISTORY_SIZE h.
Proof.
  unfold Spec.last_n.
  induction h as [|x h IH]; [reflexivity|].
  rewrite trim_cons.
  remember MAX_HISTORY_SIZE as m eqn:Hm.
  destruct (Nat.ltb_spec m (S (List.length h))) as [Hlt | Hge].
  - rewrite IH. cbn [List.length].
    replace (S (List.length h) - m) with (S (List.length h - m)) by lia.
    reflexivity.
  - cbn [List.length].
    replace (S (List.length h) - m) with 0 by lia.
    reflexivity.
Qed.

Lemma last_n_length {A : Type} (n : nat) (l : list A) :
  List.length (Spec.last_n n l) = Nat.min (List.length l) n.
Proof. unfold Spec.last_n. rewrite length_skipn. lia. Qed.

(** Dropping from the front twice is dropping once. *)
Lemma last_n_snoc {A : Type} (n : nat) (l : list A) (x : A) :
  Spec.last_n n (Spec.last_n n l ++ [x])%list = Spec.last_n n (l ++ [x])%list.
Proof.
  unfold Spec.last_n.
  rewrite !length_app, length_skipn. cbn [List.length].
  destruct (Nat.le_gt_cases (List.length l) n) as [Hle | Hgt].
  - replace (List.length l - n) with 0 by lia. cbn [skipn].
    f_equal. lia.
  - replace (List.length l - (List.length l - n) + 1 - n) with 1 by lia.
    replace (List.length l + 1 - n) with (1 + (List.length l - n)) by lia.
    rewrite <- skipn_skipn, (skipn_app (List.length l - n)).
    replace (List.length l - n - List.length l) with 0 by lia.
    reflexivity.
Qed.

Lemma last_n_app {A : Type} (n : nat) (l l' : list A) :
  Spec.last_n n (Spec.last_n n l ++ l')%list = Spec.last_n n (l ++ l')%list.
Proof.
  unfold Spec.last_n.
  rewrite !length_app, length_skipn.
  destruct (Nat.le_gt_cases (List.length l) n) as [Hle | Hgt].
  - replace (List.length l - n) with 0 by lia. cbn [skipn].
    f_equal. lia.
  - replace (List.length l - (List.length l - n) + List.length l' - n)
      with (List.length l') by lia.
    replace (List.length l + List.length l' - n)
      with (List.length l' + (List.length l - n)) by lia.
    rewrite <- skipn_skipn, (skipn_app (List.length l - n)).
    replace (List.length l - n - List.length l) with 0 by lia.
    reflexivity.
Qed.

Lemma Forall_last_n {A : Type} (P : A -> Prop) (n : nat) (l : list A) :
  Forall P l -> Forall P (Spec.last_n n l).
Proof.
  unfold Spec.last_n. generalize (List.length l - n) as k.
  intros k. revert l. induction k as [|k IH]; intros l Hl; [exact Hl|].
  destruct l as [|x l]; [constructor|].
  cbn [skipn]. apply IH. inversion Hl; assumption.
Qed.

Lemma add_to_history_last_n (g : t) (r : Result.t) :
  _history (_add_to_history g r) = Spec.last_n MAX_HISTORY_SIZE (_history g ++ [r])%list.
Proof. unfold _add_to_history. cbn [_history with_history]. apply trim_last_n. Qed.

End HistoryFacts.

Module CacheFacts.
Import LRUCache.

Lemma evict_In max_size d x : In x (evict max_size d) -> In x d.
Proof.
  induction d as [|y d IH]; [exact (fun H => H)|].
  change (evict max_size (y :: d))
    with (if max_size <=? S (List.length d) then evict max_size d else y :: d).
  destruct (max_size <=? S (List.length d)); [|exact (fun H => H)].
  intros Hin. right. exact (IH Hin).
Qed.

Lemma dict_del_In (d : dict entry) k x : In x (dict_del d k) -> In x d.
Proof. unfold dict_del. intros Hin. apply filter_In in Hin. tauto. Qed.

Lemma set_In max_size ttl c key v now now' k e :
  In (k, e) (_cache (set max_size ttl c key v now now')) ->
  In (k, e) (_cache c) \/ data e = v.
Proof.
  unfold set. cbn [_cache]. intros Hin. apply in_app_or in Hin.
  destruct Hin as [Hin | [Heq | []]].
  - left. apply evict_In in Hin.
    destruct (dict_mem (_cache c) key); [apply dict_del_In in Hin|]; exact Hin.
  - right. inversion Heq. reflexivity.
Qed.

Lemma move_to_end_In (d : dict entry) key x : In x (move_to_end d key) -> In x d.
Proof.
  unfold move_to_end. destruct (dict_get d key) as [e|] eqn:E; [|exact (fun H => H)].
  intros Hin. apply in_app_or in Hin. destruct Hin as [Hin | [<- | []]].
  - exact (dict_del_In _ _ _ Hin).
  - exact (dict_get_In _ _ _ E).
Qed.

Lemma get_hit c key now d c' :
  get c key now = (Some d, c') ->
  (exists e, In (key, e) (_cache c) /\ data e = d)
  /\ (forall x, In x (_cache c') -> In x (_cache c)).
Proof.
  unfold get. destruct (dict_get (_cache c) key) as [e|] eqn:E; [|discriminate].
  destruct (expires_at e <? now)%Z; [discriminate|].
  intros [= <- <-]. split.
  - exists e. split; [exact (dict_get_In _ _ _ E) | reflexivity].
  - cbn [_cache]. apply move_to_end_In.
Qed.

Lemma get_miss c key now c' :
  get c key now = (None, c') -> forall x, In x (_cache c') -> In x (_cache c).
Proof.
  unfold get. destruct (dict_get (_cache c) key) as [e|] eqn:E.
  - destruct (expires_at e <? now)%Z; [|discriminate].
    intros [= <-]. cbn [_cache]. intros x. apply dict_del_In.
  - intros [= <-]. cbn [_cache]. exact (fun x Hx => Hx).
Qed.

Lemma update_data_In d key v k e :
  In (k, e) (update_data d key v) -> In (k, e) d \/ data e = v.
Proof.
  induction d as [|[k0 e0] d IH]; [intros []|].
  cbn [update_data]. destruct (String.eqb key k0).
  - intros [Heq | Hin].
    + right. inversion Heq. reflexivity.
    + left. right. exact Hin.
  - intros [Heq | Hin].
    + left. left. exact Heq.
    + destruct (IH Hin) as [Hd | Hv]; [left; right; exact Hd | right; exact Hv].
Qed.

Lemma update_data_nonempty d key v : update_data d key v <> [] -> d <> [].
Proof. destruct d; [intros Hn; exact Hn | discriminate]. Qed.

End CacheFacts.

Module GenerateFacts.
Import ContentGenerator.

Section WithWorld.
Context `{PyRuntime} `{ApiManager}.

Lemma api_attempts_calls remaining attempts calls p ov last :
  calls <= snd (api_attempts remaining attempts calls p ov last).
Proof.
  revert calls last. induction remaining as [|n IH]; intros calls last; simpl.
  - lia.
  - destruct (api_generate_content calls p ov) as [r | text].
    + destruct (ApiResponse.success r); simpl; [lia|].
      specialize (IH (S calls) (ApiResponse.error r)). lia.
    + specialize (IH (S calls) (Some text)). lia.
Qed.

Lemma api_attempts_calls_S n attempts calls p ov last :
  calls < snd (api_attempts (S n) attempts calls p ov last).
Proof.
  simpl. destruct (api_generate_content calls p ov) as [r | text].
  - destruct (ApiResponse.success r); simpl; [lia|].
    pose proof (api_attempts_calls n attempts (S calls) p ov (ApiResponse.error r)). lia.
  - pose proof (api_attempts_calls n attempts (S calls) p ov (Some text)). lia.
Qed.

(** A failed answer of the retry loop is the dictionary built after the
    last attempt. *)
Lemma api_attempts_failed remaining attempts calls p ov last r calls' :
  api_attempts remaining attempts calls p ov last = (r, calls') ->
  ApiResponse.success r = false ->
  exists last', r = failed_after attempts last'.
Proof.
  revert calls last. induction remaining as [|n IH]; intros calls last; simpl.
  - intros [= <- _] _. eauto.
  - destruct (api_generate_content calls p ov) as [r0 | text].
    + destruct (ApiResponse.success r0) eqn:E.
      * intros [= <- _] Hr. congruence.
      * apply IH.
    + apply IH.
Qed.

Lemma call_api_spec g p ov retry :
  exists r calls,
    _call_api_with_retry g p ov retry = (r, with_api_calls g calls)
    /\ api_calls g < calls
    /\ (ApiResponse.success r = false -> exists n last, r = failed_after n last).
Proof.
  unfold _call_api_with_retry.
  set (attempts := if retry then DEFAULT_RETRY_ATTEMPTS + 1 else 1).
  destruct (api_attempts attempts attempts (api_calls g) p ov None) as [r calls] eqn:E.
  exists r, calls. split; [reflexivity|]. split.
  - assert (Hs : exists n, attempts = S n)
      by (subst attempts; destruct retry; eexists; reflexivity).
    destruct Hs as [n Hn]. rewrite Hn in E at 1.
    pose proof (api_attempts_calls_S n attempts (api_calls g) p ov None) as Hlt.
    rewrite E in Hlt. exact Hlt.
  - intros Hf. destruct (api_attempts_failed _ _ _ _ _ _ _ _ E Hf) as [last ->].
    eauto.
Qed.

Lemma generate_remote_appended g env result template p key ov retry o g' :
  generate_remote g env result template p key ov retry = (o, g') ->
  Spec.appended g o g'.
Proof.
  unfold generate_remote, return_failed.
  destruct (negb (api_manager g)); [intros [= <- <-]; reflexivity|].
  destruct (call_api_spec g p (apply_recommendations ov template) retry)
    as (r & calls & -> & _ & _).
  destruct (negb (ApiResponse.success r)); intros [= <- <-]; reflexivity.
Qed.

Lemma generate_cached_appended g env result template p key ov uc retry o g' :
  generate_cached g env result template p key ov uc retry = (o, g') ->
  Spec.appended g o g'.
Proof.
  unfold generate_cached.
  destruct uc.
  - destruct (LRUCache.get _ _ _) as [[cached_result|] c].
    + intros [= <- <-]. reflexivity.
    + intros Hr. apply generate_remote_appended in Hr. exact Hr.
  - intros Hr. apply generate_remote_appended in Hr. exact Hr.
Qed.

Lemma generate_try_appended g env tn merged ov uc retry o g' :
  generate_try g env tn merged ov uc retry = (o, g') ->
  Spec.appended g o g'.
Proof.
  unfold generate_try, return_failed.
  destruct (Utils.validate_input tn merged) as [[|] error_msg];
    [|intros [= <- <-]; reflexivity].
  destruct (PromptEngine.get_template (prompt_engine g) tn) as [found engine].
  destruct found as [template | e].
  - destruct (PromptTemplate.generate template merged true true) as [prompt_text | e].
    + intros Hr. apply generate_cached_appended in Hr. exact Hr.
    + destruct e; intros [= <- <-]; reflexivity.
  - destruct e; intros [= <- <-]; reflexivity.
Qed.

(** [generate] returns a result and appends it to the history. *)
Lemma generate_appends g env tn variables uc retry kwargs :
  exists r g',
    generate g env tn variables uc retry kwargs = (Returned r, g')
    /\ _history g' = trim (_history g ++ [r])%list.
Proof.
  unfold generate.
  destruct (generate_try _ _ _ _ _ _ _) as [[r | e] g'] eqn:E;
    apply generate_try_appended in E; cbn in E.
  - exists r, g'. split; [reflexivity | exact E].
  - eexists _, _. split; [reflexivity|].
    unfold _add_to_history. cbn [_history with_history]. rewrite E. reflexivity.
Qed.

End WithWorld.
End GenerateFacts.

Module InvariantFacts.
Import ContentGenerator GenerateFacts.

Lemma failure_ok_success r : Result.success r = true -> Spec.failure_ok r.
Proof. intros Hs Hf. congruence. Qed.

Lemma failure_ok_base tn merged env msg :
  msg <> EmptyString ->
  Spec.failure_ok (Result.set_error (base_result tn merged env) msg).
Proof.
  intros Hne _. cbn. repeat split. exists msg. split; [reflexivity | exact Hne].
Qed.

Lemma invariant_init sid start has_api engine threshold :
  Spec.invariant (init sid start has_api engine threshold).
Proof.
  constructor; cbn.
  - intros k e [].
  - congruence.
  - constructor.
Qed.

Lemma invariant_add_history g r :
  Spec.invariant g -> Spec.failure_ok r -> Spec.invariant (_add_to_history g r).
Proof.
  intros [H1 H2 H3] Hr. constructor; cbn; [exact H1 | exact H2 |].
  rewrite HistoryFacts.trim_last_n. apply HistoryFacts.Forall_last_n.
  apply Forall_app. split; [exact H3 | constructor; [exact Hr | constructor]].
Qed.

Lemma invariant_callbacks g cbs log :
  Spec.invariant g -> Spec.invariant (with_callbacks g cbs log).
Proof. intros [H1 H2 H3]. constructor; cbn; assumption. Qed.

Lemma invariant_engine g e : Spec.invariant g -> Spec.invariant (with_engine g e).
Proof. intros [H1 H2 H3]. constructor; cbn; assumption. Qed.

Lemma invariant_counters g a b : Spec.invariant g -> Spec.invariant (with_counters g a b).
Proof. intros [H1 H2 H3]. constructor; cbn; assumption. Qed.

Lemma invariant_api_calls g n : Spec.invariant g -> Spec.invariant (with_api_calls g n).
Proof. intros [H1 H2 H3]. constructor; cbn; assumption. Qed.

Lemma invariant_total_cost g q : Spec.invariant g -> Spec.invariant (with_total_cost g q).
Proof. intros [H1 H2 H3]. constructor; cbn; assumption. Qed.

Lemma invariant_history g h :
  Spec.invariant g -> Forall Spec.failure_ok h -> Spec.invariant (with_history g h).
Proof. intros [H1 H2 H3] Hh. constructor; cbn; assumption. Qed.

(** Replacing the cache by one whose entries are old entries or
    successful results, in a generator that has an API manager or whose
    new cache is empty unless the old one was not. *)
Lemma invariant_cache g c :
  Spec.invariant g ->
  (forall k e, In (k, e) (LRUCache._cache c) ->
               In (k, e) (LRUCache._cache (_cache g))
               \/ Result.success (LRUCache.data e) = true) ->
  (LRUCache._cache c <> [] ->
   LRUCache._cache (_cache g) <> [] \/ api_manager g = true) ->
  Spec.invariant (with_cache g c).
Proof.
  intros [H1 H2 H3] Hin Hne. constructor; cbn.
  - intros k e Hk. destruct (Hin k e Hk) as [Hold | Hs]; [exact (H1 k e Hold) | exact Hs].
  - intros Hc. destruct (Hne Hc) as [Hold | Ha]; [exact (H2 Hold) | exact Ha].
  - exact H3.
Qed.

Section WithWorld.
Context `{PyRuntime} `{ApiManager}.

Lemma return_failed_ok g tn merged env msg o g' :
  Spec.invariant g -> msg <> EmptyString ->
  return_failed g (base_result tn merged env) msg = (o, g') ->
  Spec.stage_ok g o g'.
Proof.
  intros Hinv Hne [= <- <-].
  pose proof (failure_ok_base tn merged env msg Hne) as Hok.
  split; [|split]; [apply invariant_add_history; assumption | reflexivity | exact Hok].
Qed.

Lemma generate_remote_ok g env tn merged template p key ov retry o g' :
  Spec.invariant g ->
  generate_remote g env (base_result tn merged env) template p key ov retry = (o, g') ->
  Spec.stage_ok g o g'.
Proof.
  intros Hinv. unfold generate_remote.
  destruct (api_manager g) eqn:Ha; cbn [negb].
  - destruct (call_api_spec g p (apply_recommendations ov template) retry)
      as (r & calls & -> & _ & Hfail).
    destruct (ApiResponse.success r) eqn:Hs; cbn [negb]; intros [= <- <-].
    + split; [|split]; [| am | apply failure_ok_success; reflexivity].
      apply invariant_callbacks, invariant_add_history;
        [|apply failure_ok_success; reflexivity].
      apply invariant_cache.
      * apply invariant_total_cost, invariant_api_calls, Hinv.
      * intros k e Hin.
        cbn [_cache with_cache with_total_cost with_api_calls] in Hin.
        apply CacheFacts.set_In in Hin.
        destruct Hin as [Hold | Hd]; [left; exact Hold | right; rewrite Hd; reflexivity].
      * intros _. right. exact Ha.
    + destruct (Hfail eq_refl) as (n & last & ->).
      assert (Hok : Spec.failure_ok
                {| Result.success := false; Result.content := EmptyString;
                   Result.template_used := tn; Result.variables := merged;
                   Result.timestamp := env_timestamp env;
                   Result.request_id := env_request_id env;
                   Result.model := EmptyString; Result.tokens_used := no_tokens;
                   Result.cost := 0; Result.cached := false;
                   Result.generation_time := env_elapsed env;
                   Result.error := ApiResponse.error (failed_after n last) |}).
      { intros _. cbn. repeat split. eexists. split; [reflexivity | discriminate]. }
      split; [|split]; [| am | exact Hok].
      apply invariant_add_history; [apply invariant_api_calls, Hinv | exact Hok].
  - apply return_failed_ok; [exact Hinv | discriminate].
Qed.

Lemma generate_cached_ok g env tn merged template p key ov uc retry o g' :
  Spec.invariant g ->
  generate_cached g env (base_result tn merged env) template p key ov uc retry = (o, g') ->
  Spec.stage_ok g o g'.
Proof.
  intros Hinv. unfold generate_cached.
  set (g1 := with_counters g (_cache_checks g + 1) (_cache_hits g)).
  assert (Hinv1 : Spec.invariant g1) by (apply invariant_counters, Hinv).
  destruct uc.
  - destruct (LRUCache.get (_cache g1) key (env_now_get env)) as [[d|] c] eqn:Hget.
    + destruct (CacheFacts.get_hit _ _ _ _ _ Hget) as [(e & Hine & Hde) Hsub].
      assert (Hsd : Result.success d = true)
        by (rewrite <- Hde; exact (Spec.inv_cached_success _ Hinv1 _ _ Hine)).
      intros [= <- <-].
      split; [|split]; [| reflexivity | apply failure_ok_success; exact Hsd].
      apply invariant_callbacks, invariant_add_history;
        [|apply failure_ok_success; exact Hsd].
      apply invariant_cache.
      * apply invariant_counters, invariant_cache; [exact Hinv1 | |].
        -- intros k e0 Hin. left. exact (Hsub _ Hin).
        -- intros _. left. cbn. intros Hempty.
           change (LRUCache._cache (_cache g1)) with (LRUCache._cache (_cache g)) in Hine.
           rewrite Hempty in Hine. exact Hine.
      * intros k e0 Hin. cbn [LRUCache._cache] in Hin.
        apply CacheFacts.update_data_In in Hin.
        destruct Hin as [Hold | Hd]; [left; exact Hold | right; rewrite Hd; exact Hsd].
      * intros Hne. left. cbn. cbn in Hne.
        exact (CacheFacts.update_data_nonempty _ _ _ Hne).
    + intros Hr.
      pose proof (CacheFacts.get_miss _ _ _ _ Hget) as Hsub.
      assert (Hinv2 : Spec.invariant (with_cache g1 c)).
      { apply invariant_cache; [exact Hinv1 | |].
        - intros k e Hin. left. exact (Hsub _ Hin).
        - intros Hne. left. cbn. intros Hempty. destruct (LRUCache._cache c) as [|x l];
            [congruence|].
          specialize (Hsub x (or_introl eq_refl)).
          change (LRUCache._cache (_cache g1)) with (LRUCache._cache (_cache g)) in Hsub.
          rewrite Hempty in Hsub. exact Hsub. }
      destruct (generate_remote_ok _ _ _ _ _ _ _ _ _ _ _ Hinv2 Hr) as (Hi & Ha & Ho).
      split; [|split]; [exact Hi | exact Ha | exact Ho].
  - intros Hr.
    destruct (generate_remote_ok _ _ _ _ _ _ _ _ _ _ _ Hinv1 Hr) as (Hi & Ha & Ho).
    split; [|split]; [exact Hi | exact Ha | exact Ho].
Qed.

Lemma generate_try_ok g env tn merged ov uc retry o g' :
  Spec.invariant g ->
  generate_try g env tn merged ov uc retry = (o, g') ->
  Spec.stage_ok g o g'.
Proof.
  intros Hinv. unfold generate_try.
  destruct (Utils.validate_input tn merged) as [[|] error_msg].
  - destruct (PromptEngine.get_template (prompt_engine g) tn) as [found engine].
    assert (Hinv1 : Spec.invariant (with_engine g engine))
      by (apply invariant_engine, Hinv).
    destruct found as [template | e].
    + destruct (PromptTemplate.generate template merged true true) as [prompt_text | e].
      * intros Hr.
        destruct (generate_cached_ok _ _ _ _ _ _ _ _ _ _ _ _ Hinv1 Hr) as (Hi & Ha & Ho).
        split; [|split]; [exact Hi | exact Ha | exact Ho].
      * destruct e;
          try (intros [= <- <-]; split; [|split]; [exact Hinv1 | reflexivity | exact I]).
        intros Hr. apply return_failed_ok in Hr; [|exact Hinv1 | discriminate].
        destruct Hr as (Hi & Ha & Ho). split; [|split]; [exact Hi | exact Ha | exact Ho].
    + destruct e;
        try (intros [= <- <-]; split; [|split]; [exact Hinv1 | reflexivity | exact I]).
      intros Hr. apply return_failed_ok in Hr; [|exact Hinv1 | discriminate].
      destruct Hr as (Hi & Ha & Ho). split; [|split]; [exact Hi | exact Ha | exact Ho].
  - apply return_failed_ok; [exact Hinv | discriminate].
Qed.

(** [generate] returns a result, keeps the invariant, and a failed result
    is well formed. *)
Lemma generate_ok g env tn variables uc retry kwargs :
  Spec.invariant g ->
  exists r g',
    generate g env tn variables uc retry kwargs = (Returned r, g')
    /\ Spec.invariant g' /\ api_manager g' = api_manager g /\ Spec.failure_ok r.
Proof.
  intros Hinv. unfold generate.
  destruct (generate_try _ _ _ _ _ _ _) as [[r | e] g'] eqn:E;
    apply generate_try_ok in E; try exact Hinv; destruct E as (Hi & Ha & Ho).
  - exists r, g'. split; [reflexivity|]. split; [exact Hi|]. split; [exact Ha | exact Ho].
  - eexists _, _. split; [reflexivity|].
    assert (Hok : Spec.failure_ok
              (Result.set_generation_time
                 (Result.set_error
                    (base_result tn (merge_variables variables kwargs) env)
                    ("Unexpected error: " ++ exn_str e)) (env_elapsed env))).
    { intros _. cbn. repeat split. eexists. split; [reflexivity | discriminate]. }
    split; [|split]; [apply invariant_add_history; assumption | exact Ha | exact Hok].
Qed.

(** Every operation keeps the invariant. *)
Lemma step_invariant g o : Spec.invariant g -> Spec.invariant (Session.step g o).
Proof.
  intros Hinv. destruct o as [c | | | r | name | cb]; cbn [Session.step].
  - unfold Session.run_call.
    destruct (generate_ok g (Session.call_env_ c) (Session.call_template_name c)
                (Session.call_variables c) (Session.call_use_cache c)
                (Session.call_retry_on_failure c) (Session.call_kwargs c) Hinv)
      as (r & g' & -> & Hi & _). exact Hi.
  - unfold clear_cache, LRUCache.clear. cbn [snd].
    apply invariant_cache; [exact Hinv | intros k e [] | intros Hne; cbn in Hne; congruence].
  - unfold clear_history. cbn [snd]. apply invariant_history; [exact Hinv | constructor].
  - unfold Session.register_template.
    destruct (create_template _ _ _ _ _ _); cbn [snd];
      [apply invariant_engine|]; exact Hinv.
  - apply invariant_engine, Hinv.
  - unfold register_callback. apply invariant_callbacks, Hinv.
Qed.

Lemma exec_invariant g ops : Spec.invariant g -> Spec.invariant (Session.exec g ops).
Proof.
  unfold Session.exec. revert g.
  induction ops as [|o ops IH]; intros g Hinv; [exact Hinv|].
  cbn [fold_left]. apply IH, step_invariant, Hinv.
Qed.

End WithWorld.
End InvariantFacts.

Module QFacts.

Lemma round_half_even_comp (q q' : Q) :
  (q == q')%Q -> round_half_even q = round_half_even q'.
Proof.
  intros Hq. unfold round_half_even.
  assert (Hf : Qfloor q = Qfloor q') by (apply Qfloor_comp; exact Hq).
  rewrite <- Hf.
  assert (Hc : Qcompare (q - inject_Z (Qfloor q)) (1 # 2)
               = Qcompare (q' - inject_Z (Qfloor q)) (1 # 2)).
  { apply Qcompare_comp; [|reflexivity].
    unfold Qminus. apply Qplus_comp; [exact Hq | reflexivity]. }
  rewrite <- Hc. reflexivity.
Qed.

Lemma py_round_comp (q q' : Q) (n : nat) :
  (q == q')%Q -> py_round q n = py_round q' n.
Proof.
  intros Hq. unfold py_round. f_equal.
  apply round_half_even_comp. apply Qmult_comp; [exact Hq | reflexivity].
Qed.

Lemma fold_Qplus_comp (l : list Q) (a b : Q) :
  (a == b)%Q -> (fold_left Qplus l a == fold_left Qplus l b)%Q.
Proof.
  revert a b. induction l as [|x l IH]; intros a b Hab; cbn [fold_left]; [exact Hab|].
  apply IH. rewrite Hab. reflexivity.
Qed.

(** Entries without cost do not change a sum. *)
Lemma qsum_filter {A : Type} (cost : A -> Q) (keep : A -> bool) (l : list A) :
  Forall (fun x => keep x = false -> cost x = 0%Q) l ->
  (qsum (map cost l) == qsum (map cost (filter keep l)))%Q.
Proof.
  intros Hl. unfold qsum. generalize 0%Q.
  induction Hl as [|x l Hx Hl IH]; intros a; cbn [map filter fold_left]; [reflexivity|].
  destruct (keep x) eqn:Hk; cbn [map fold_left].
  - apply IH.
  - rewrite (Hx eq_refl). rewrite IH. apply fold_Qplus_comp. ring.
Qed.

End QFacts.

(* ===================================================================== *)
(** * Claims about the orchestrator *)
(* ===================================================================== *)

Module OrchestratorClaims.
Import ContentGenerator.

Section WithWorld.
Context `{PyRuntime} `{ApiManager}.

Lemma run_history g calls :
  List.length (_history g) <= MAX_HISTORY_SIZE ->
  let outs := fst (Session.run g calls) in
  outs = map Returned (Spec.records outs)
  /\ List.length (Spec.records outs) = List.length calls
  /\ _history (snd (Session.run g calls))
     = Spec.last_n MAX_HISTORY_SIZE (_history g ++ Spec.records outs)%list.
Proof.
  revert g. induction calls as [|c calls IH]; intros g Hlen; cbn [Session.run].
  - cbn [fst snd Spec.records map List.length]. repeat split.
    rewrite app_nil_r. unfold Spec.last_n.
    replace (List.length (_history g) - MAX_HISTORY_SIZE) with 0 by lia.
    reflexivity.
  - unfold Session.run_call.
    destruct (GenerateFacts.generate_appends g (Session.call_env_ c)
                (Session.call_template_name c) (Session.call_variables c)
                (Session.call_use_cache c) (Session.call_retry_on_failure c)
                (Session.call_kwargs c)) as (r & g1 & -> & Hh).
    rewrite HistoryFacts.trim_last_n in Hh.
    assert (Hlen1 : List.length (_history g1) <= MAX_HISTORY_SIZE)
      by (rewrite Hh, HistoryFacts.last_n_length; lia).
    specialize (IH g1 Hlen1).
    destruct (Session.run g1 calls) as [outs g2].
    cbn [fst snd] in IH |- *. destruct IH as (Ho & Hl & Hg).
    cbn [Spec.records map List.length]. repeat split.
    + f_equal. exact Ho.
    + f_equal. exact Hl.
    + rewrite Hg, Hh, HistoryFacts.last_n_app, <- app_assoc. reflexivity.
Qed.

(** C7: from a new generator, after any sequence of [generate] calls the
    history holds the results of the last 1000 calls, in call order, and
    so never more than 1000 entries; as the sequence is arbitrary, this
    holds after every single call. *)
Theorem C7_history_keeps_last_1000 :
  forall sid start has_api engine threshold (calls : list Session.call),
    let g0 := init sid start has_api engine threshold in
    let outs := fst (Session.run g0 calls) in
    let g := snd (Session.run g0 calls) in
    outs = map Returned (Spec.records outs)
    /\ List.length (Spec.records outs) = List.length calls
    /\ get_history g = Spec.last_n 1000 (Spec.records outs)
    /\ List.length (get_history g) = Nat.min (List.length calls) 1000
    /\ List.length (get_history g) <= 1000.
Proof.
  intros sid start has_api engine threshold calls g0 outs g.
  assert (Hlen0 : List.length (_history g0) <= MAX_HISTORY_SIZE)
    by (cbn [g0 init _history List.length]; lia).
  destruct (run_history g0 calls Hlen0) as (Ho & Hl & Hg).
  fold outs in Ho, Hl, Hg. fold g in Hg.
  change (_history g0) with (@nil Result.t) in Hg. cbn [app] in Hg.
  change MAX_HISTORY_SIZE with 1000 in Hg.
  unfold get_history.
  assert (Hn : List.length (_history g) = Nat.min (List.length calls) 1000)
    by (rewrite Hg, HistoryFacts.last_n_length, Hl; reflexivity).
  repeat split; [exact Ho | exact Hl | exact Hg | exact Hn | rewrite Hn; lia].
Qed.


(** C8: in every generator a client can reach, the [total_cost] of
    [get_statistics] is the sum of the costs of the successful entries of
    the history, rounded to six decimals; the failed entries have cost
    zero. *)
Theorem C8_total_cost_is_sum_of_successful :
  forall sid start has_api engine threshold (ops : list Session.op),
    let g := Session.exec (init sid start has_api engine threshold) ops in
    (Statistics.total_cost (Session.get_statistics g)
     == py_round (qsum (map Result.cost (filter Result.success (_history g)))) 6)%Q
    /\ Forall (fun r => Result.success r = false -> Result.cost r = 0%Q) (_history g).
Proof.
  intros sid start has_api engine threshold ops g.
  assert (Hinv : Spec.invariant g)
    by (apply InvariantFacts.exec_invariant, InvariantFacts.invariant_init).
  assert (Hzero : Forall (fun r => Result.success r = false -> Result.cost r = 0%Q)
                         (_history g)).
  { eapply Forall_impl; [|exact (Spec.inv_history _ Hinv)].
    intros r Hok Hf. destruct (Hok Hf) as (_ & _ & Hc). exact Hc. }
  split; [|exact Hzero].
  unfold Session.get_statistics.
  destruct (_history g) as [|x h] eqn:Hh.
  - cbn [Statistics.total_cost filter map]. vm_compute. reflexivity.
  - cbn [Statistics.total_cost].
    rewrite (QFacts.py_round_comp _ _ 6 (QFacts.qsum_filter Result.cost Result.success _ Hzero)).
    reflexivity.
Qed.

End WithWorld.
End OrchestratorClaims.

Module CacheClaim.
Import ContentGenerator.

Lemma dict_get_absent {V : Type} (d : dict V) (k : string) :
  (forall v, ~ In (k, v) d) -> dict_get d k = None.
Proof.
  intros Hn. destruct (dict_get d k) as [v|] eqn:E; [|reflexivity].
  exfalso. exact (Hn v (dict_get_In _ _ _ E)).
Qed.

Lemma dict_get_evict max_size d k :
  dict_get d k = None -> dict_get (LRUCache.evict max_size d) k = None.
Proof.
  intros Hn. apply dict_get_absent. intros v Hin.
  apply CacheFacts.evict_In in Hin. exact (dict_get_None_In _ _ v Hn Hin).
Qed.

(** After [set], the key holds the new entry. *)
Lemma get_after_set max_size ttl c key v now now' :
  dict_get (LRUCache._cache (LRUCache.set max_size ttl c key v now now')) key
  = Some {| LRUCache.data := v; LRUCache.expires_at := (now + seconds ttl)%Z;
            LRUCache.created_at := now' |}.
Proof.
  unfold LRUCache.set. cbn [LRUCache._cache]. rewrite dict_get_app.
  rewrite dict_get_evict.
  - cbn. rewrite String.eqb_refl. reflexivity.
  - unfold dict_mem. destruct (dict_get (LRUCache._cache c) key) eqn:E;
      [apply dict_get_del_same | exact E].
Qed.

Lemma get_after_move d key e :
  dict_get d key = Some e -> dict_get (LRUCache.move_to_end d key) key = Some e.
Proof.
  intros E. unfold LRUCache.move_to_end. rewrite E, dict_get_app, dict_get_del_same.
  cbn. rewrite String.eqb_refl. reflexivity.
Qed.

Lemma get_after_update d key v :
  dict_get (LRUCache.update_data d key v) key
  = option_map (fun e => {| LRUCache.data := v;
                            LRUCache.expires_at := LRUCache.expires_at e;
                            LRUCache.created_at := LRUCache.created_at e |})
               (dict_get d key).
Proof.
  induction d as [|[k0 e0] d IH]; [reflexivity|].
  cbn [LRUCache.update_data dict_get].
  destruct (String.eqb key k0) eqn:E; cbn [dict_get]; rewrite E; [reflexivity | exact IH].
Qed.

(** A live entry is returned by [get]. *)
Lemma get_live c key now e :
  dict_get (LRUCache._cache c) key = Some e ->
  (now <= LRUCache.expires_at e)%Z ->
  LRUCache.get c key now
  = (Some (LRUCache.data e),
     {| LRUCache._cache := LRUCache.move_to_end (LRUCache._cache c) key;
        LRUCache._hits := LRUCache._hits c + 1;
        LRUCache._misses := LRUCache._misses c |}).
Proof.
  intros E Hle. unfold LRUCache.get. rewrite E.
  destruct (Z.ltb_spec (LRUCache.expires_at e) now); [lia | reflexivity].
Qed.

Section WithWorld.
Context `{PyRuntime} `{ApiManager}.

Lemma get_template_templates engine name :
  PromptEngine._templates (snd (PromptEngine.get_template engine name))
  = PromptEngine._templates engine.
Proof.
  unfold PromptEngine.get_template.
  destruct (dict_get (PromptEngine._templates engine) name); reflexivity.
Qed.

Lemma get_template_found engine engine' name :
  PromptEngine._templates engine' = PromptEngine._templates engine ->
  fst (PromptEngine.get_template engine' name) = fst (PromptEngine.get_template engine name).
Proof.
  intros E. unfold PromptEngine.get_template. rewrite E.
  destruct (dict_get (PromptEngine._templates engine) name); reflexivity.
Qed.

Lemma generate_remote_calls g env result template p key ov retry o g' :
  api_manager g = true ->
  generate_remote g env result template p key ov retry = (o, g') ->
  api_calls g < api_calls g'
  /\ match o with inl r => Result.cached r = Result.cached result \/ Result.cached r = false
     | inr _ => False end.
Proof.
  intros Ha. unfold generate_remote. rewrite Ha. cbn [negb].
  destruct (GenerateFacts.call_api_spec g p (apply_recommendations ov template) retry)
    as (r & calls & -> & Hlt & _).
  destruct (ApiResponse.success r); cbn [negb]; intros [= <- <-]; cbn; split;
    try exact Hlt; auto.
Qed.

(** The templates, the history aside, are what [generate] reads of the
    engine; no stage changes them. *)
Lemma generate_remote_frame g env result template p key ov retry o g' :
  generate_remote g env result template p key ov retry = (o, g') ->
  prompt_engine g' = prompt_engine g.
Proof.
  unfold generate_remote, return_failed.
  destruct (negb (api_manager g)); [intros [= <- <-]; reflexivity|].
  destruct (GenerateFacts.call_api_spec g p (apply_recommendations ov template) retry)
    as (r & calls & -> & _ & _).
  destruct (negb (ApiResponse.success r)); intros [= <- <-]; reflexivity.
Qed.

Lemma generate_cached_frame g env result template p key ov uc retry o g' :
  generate_cached g env result template p key ov uc retry = (o, g') ->
  prompt_engine g' = prompt_engine g.
Proof.
  unfold generate_cached. destruct uc.
  - destruct (LRUCache.get _ _ _) as [[d|] c].
    + intros [= <- <-]. reflexivity.
    + intros Hr. apply generate_remote_frame in Hr. exact Hr.
  - intros Hr. apply generate_remote_frame in Hr. exact Hr.
Qed.

Lemma generate_try_templates g env tn merged ov uc retry o g' :
  generate_try g env tn merged ov uc retry = (o, g') ->
  PromptEngine._templates (prompt_engine g') = PromptEngine._templates (prompt_engine g).
Proof.
  unfold generate_try, return_failed.
  destruct (Utils.validate_input tn merged) as [[|] error_msg];
    [|intros [= <- <-]; reflexivity].
  pose proof (get_template_templates (prompt_engine g) tn) as Ht.
  destruct (PromptEngine.get_template (prompt_engine g) tn) as [found engine].
  cbn [snd] in Ht.
  destruct found as [template | e].
  - destruct (PromptTemplate.generate template merged true true) as [prompt_text | e].
    + intros Hr. apply generate_cached_frame in Hr. rewrite Hr. exact Ht.
    + destruct e; intros [= <- <-]; exact Ht.
  - destruct e; intros [= <- <-]; exact Ht.
Qed.

Lemma run_call_templates g c o g' :
  Session.run_call g c = (o, g') ->
  PromptEngine._templates (prompt_engine g') = PromptEngine._templates (prompt_engine g).
Proof.
  unfold Session.run_call, generate.
  destruct (generate_try _ _ _ _ _ _ _) as [[r | e] g1] eqn:E;
    apply generate_try_templates in E; intros [= <- <-]; exact E.
Qed.

(** The first call succeeded: the input passed validation, the template
    was found and rendered, and the call went through the cache stage. *)
Lemma success_went_through g env tn merged ov uc retry r g' :
  generate_try g env tn merged ov uc retry = (inl r, g') ->
  Result.success r = true ->
  exists template prompt_text,
    fst (Utils.validate_input tn merged) = true
    /\ fst (PromptEngine.get_template (prompt_engine g) tn) = inl template
    /\ PromptTemplate.generate template merged true true = inl prompt_text
    /\ generate_cached
         (with_engine g (snd (PromptEngine.get_template (prompt_engine g) tn)))
         env (base_result tn merged env) template prompt_text
         (_generate_cache_key tn merged) ov uc retry = (inl r, g').
Proof.
  unfold generate_try, return_failed.
  destruct (Utils.validate_input tn merged) as [[|] error_msg];
    [|intros [= <- <-]; discriminate].
  destruct (PromptEngine.get_template (prompt_engine g) tn) as [found engine].
  destruct found as [template | e].
  - destruct (PromptTemplate.generate template merged true true) as [prompt_text | e] eqn:Eg.
    + intros Hr _. exists template, prompt_text. cbn [fst snd]. auto.
    + destruct e; intros [= <- <-]; discriminate.
  - destruct e; intros [= <- <-]; discriminate.
Qed.

(** Conversely, with the same facts [generate_try] is the cache stage. *)
Lemma went_through_again g env tn merged ov uc retry template prompt_text :
  fst (Utils.validate_input tn merged) = true ->
  fst (PromptEngine.get_template (prompt_engine g) tn) = inl template ->
  PromptTemplate.generate template merged true true = inl prompt_text ->
  generate_try g env tn merged ov uc retry
  = generate_cached
      (with_engine g (snd (PromptEngine.get_template (prompt_engine g) tn)))
      env (base_result tn merged env) template prompt_text
      (_generate_cache_key tn merged) ov uc retry.
Proof.
  unfold generate_try.
  destruct (Utils.validate_input tn merged) as [[|] error_msg]; [|discriminate].
  destruct (PromptEngine.get_template (prompt_engine g) tn) as [found engine].
  cbn [fst snd]. intros _ -> ->. reflexivity.
Qed.

(** The cache stage of a successful call leaves an entry under the key. *)
Lemma generate_cached_stores g env tn merged template p key ov retry r g' :
  generate_cached g env (base_result tn merged env) template p key ov true retry
    = (inl r, g') ->
  Result.success r = true ->
  exists e,
    dict_get (LRUCache._cache (_cache g')) key = Some e
    /\ (Result.cached r = false ->
        LRUCache.expires_at e = (env_now_set env + seconds CACHE_TTL_SECONDS)%Z).
Proof.
  unfold generate_cached.
  destruct (LRUCache.get _ key (env_now_get env)) as [[d|] c] eqn:Hget.
  - intros [= <- <-] _.
    unfold LRUCache.get in Hget. cbn [_cache with_counters] in Hget.
    destruct (dict_get (LRUCache._cache (_cache g)) key) as [e|] eqn:E; [|discriminate].
    destruct (LRUCache.expires_at e <? env_now_get env)%Z; [discriminate|].
    injection Hget as <- <-.
    eexists. split.
    + cbn [_cache _invoke_callbacks _add_to_history with_callbacks with_history
           with_cache LRUCache._cache].
      rewrite get_after_update, (get_after_move _ _ _ E). reflexivity.
    + cbn. discriminate.
  - unfold generate_remote, return_failed.
    destruct (negb (api_manager _)); [intros [= <- <-]; discriminate|].
    destruct (GenerateFacts.call_api_spec (with_cache
                (with_counters g (_cache_checks g + 1) (_cache_hits g)) c) p
                (apply_recommendations ov template) retry)
      as (ar & calls & -> & _ & _).
    destruct (negb (ApiResponse.success ar)); intros [= <- <-]; [discriminate|].
    intros _. eexists. split.
    + cbn [_cache _invoke_callbacks _add_to_history with_callbacks with_history
           with_cache].
      apply get_after_set.
    + intros _. reflexivity.
Qed.

(** With a live entry under the key, the cache stage replays it and calls
    nobody. *)
Lemma generate_cached_replays g env result template p key ov retry e :
  dict_get (LRUCache._cache (_cache g)) key = Some e ->
  (env_now_get env <= LRUCache.expires_at e)%Z ->
  exists g',
    generate_cached g env result template p key ov true retry
    = (inl (Result.replay (LRUCache.data e) (env_request_id env) (env_timestamp env)
                          (env_elapsed env)), g')
    /\ api_calls g' = api_calls g
    /\ api_manager g' = api_manager g
    /\ prompt_engine g' = prompt_engine g
    /\ LRUCache._cache (_cache g') <> [].
Proof.
  intros E Hle. unfold generate_cached.
  cbn [_cache with_counters].
  rewrite (get_live _ _ _ _ E Hle).
  eexists. split; [reflexivity|]. repeat split.
  cbn [_cache _invoke_callbacks _add_to_history with_callbacks with_history
       with_cache LRUCache._cache].
  intros Hempty.
  pose proof (get_after_update (LRUCache.move_to_end (LRUCache._cache (_cache g)) key) key
                (Result.replay (LRUCache.data e) (env_request_id env) (env_timestamp env)
                               (env_elapsed env))) as Hg.
  rewrite Hempty, (get_after_move _ _ _ E) in Hg. discriminate.
Qed.

(** With an empty cache and an API manager, the cache stage calls the
    manager. *)
Lemma generate_cached_calls g env result template p key ov uc retry o g' :
  LRUCache._cache (_cache g) = [] ->
  api_manager g = true ->
  generate_cached g env result template p key ov uc retry = (o, g') ->
  api_calls g < api_calls g'
  /\ match o with
     | inl r => Result.cached r = Result.cached result \/ Result.cached r = false
     | inr _ => False
     end.
Proof.
  intros Hempty Ha. unfold generate_cached.
  destruct uc.
  - unfold LRUCache.get. cbn [_cache with_counters]. rewrite Hempty. cbn [dict_get].
    intros Hr. apply generate_remote_calls in Hr; [exact Hr | exact Ha].
  - intros Hr. apply generate_remote_calls in Hr; [exact Hr | exact Ha].
Qed.

(** C1: in every generator a client can reach, if a [generate] call with
    [use_cache = true] succeeds, its result is cached under the key of
    (template name, variables); when that call was answered by the API
    manager the entry expires one hour (the cache TTL) after it was stored.
    A second call with the same template name and variables made before
    the entry expires returns a result with [cached = true] and makes no
    call to the API manager; after [clear_cache()] the same call is not
    answered from the cache and calls the API manager again. *)
Theorem C1_cache_hit_within_ttl :
  forall sid start has_api engine threshold (ops : list Session.op)
         (c : Session.call) (r1 : Result.t) (g1 : t) (env2 env3 : call_env),
    let g := Session.exec (init sid start has_api engine threshold) ops in
    Session.call_use_cache c = true ->
    Session.run_call g c = (Returned r1, g1) ->
    Result.success r1 = true ->
    exists expires,
      Spec.expiry g1 (Spec.key_of c) = Some expires
      /\ (Result.cached r1 = false ->
          expires = (env_now_set (Session.call_env_ c) + seconds 3600)%Z)
      /\ ((env_now_get env2 <= expires)%Z ->
          exists r2 g2,
            Session.run_call g1 (Spec.at_env c env2) = (Returned r2, g2)
            /\ Result.cached r2 = true
            /\ Result.success r2 = true
            /\ api_calls g2 = api_calls g1
            /\ exists r3 g3,
                 Session.run_call (snd (clear_cache g2)) (Spec.at_env c env3)
                 = (Returned r3, g3)
                 /\ Result.cached r3 = false
                 /\ api_calls g2 < api_calls g3).
Proof.
  intros sid start has_api engine threshold ops c r1 g1 env2 env3 g Huc Hrun Hsucc.
  assert (Hinv : Spec.invariant g)
    by (apply InvariantFacts.exec_invariant, InvariantFacts.invariant_init).
  assert (Hinv1 : Spec.invariant g1).
  { destruct (InvariantFacts.generate_ok g (Session.call_env_ c)
                (Session.call_template_name c) (Session.call_variables c)
                (Session.call_use_cache c) (Session.call_retry_on_failure c)
                (Session.call_kwargs c) Hinv) as (r & g' & Hrun' & Hi & _).
    unfold Session.run_call in Hrun. rewrite Hrun in Hrun'.
    injection Hrun' as _ <-. exact Hi. }
  unfold Session.run_call, generate in Hrun.
  set (tn := Session.call_template_name c) in *.
  set (merged := merge_variables (Session.call_variables c) (Session.call_kwargs c)) in *.
  set (ov := fst (split_overrides (dict_of_items (Session.call_kwargs c)))) in *.
  destruct (generate_try g (Session.call_env_ c) tn merged ov (Session.call_use_cache c)
              (Session.call_retry_on_failure c)) as [[r | e] g1'] eqn:E;
    injection Hrun as <- <-; [|discriminate].
  pose proof (generate_try_templates _ _ _ _ _ _ _ _ _ E) as Htpl.
  destruct (success_went_through _ _ _ _ _ _ _ _ _ E Hsucc)
    as (template & prompt_text & Hv & Hfound & Hgen & Hcached).
  rewrite Huc in Hcached.
  destruct (generate_cached_stores _ _ _ _ _ _ _ _ _ _ _ Hcached Hsucc)
    as (e & Hget & Hexp).
  exists (LRUCache.expires_at e). split; [|split].
  - unfold Spec.expiry, Spec.key_of. fold tn merged. rewrite Hget. reflexivity.
  - exact Hexp.
  - intros Hlive.
    assert (Hfound1 : fst (PromptEngine.get_template (prompt_engine g1') tn)
                      = inl template)
      by (rewrite (get_template_found _ _ _ Htpl); exact Hfound).
    set (engine1 := snd (PromptEngine.get_template (prompt_engine g1') tn)).
    destruct (generate_cached_replays (with_engine g1' engine1) env2
                (base_result tn merged env2) template prompt_text
                (_generate_cache_key tn merged) ov
                (Session.call_retry_on_failure c) e Hget Hlive)
      as (g2 & Hrun2 & Hcalls2 & Ham2 & Heng2 & Hne2).
    exists (Result.replay (LRUCache.data e) (env_request_id env2) (env_timestamp env2)
                          (env_elapsed env2)), g2.
    assert (Hin : In (_generate_cache_key tn merged, e) (LRUCache._cache (_cache g1')))
      by exact (dict_get_In _ _ _ Hget).
    split; [|split; [reflexivity | split; [|split]]].
    + unfold Session.run_call, generate.
      cbn [Spec.at_env Session.call_env_ Session.call_template_name
           Session.call_variables Session.call_use_cache Session.call_retry_on_failure
           Session.call_kwargs].
      fold tn merged ov.
      rewrite (went_through_again g1' env2 tn merged ov (Session.call_use_cache c)
                 (Session.call_retry_on_failure c) template prompt_text Hv Hfound1 Hgen).
      rewrite Huc. fold engine1. rewrite Hrun2. reflexivity.
    + exact (Spec.inv_cached_success _ Hinv1 _ _ Hin).
    + exact Hcalls2.
    + assert (Ham : api_manager g1' = true).
      { apply (Spec.inv_cache_needs_api _ Hinv1). intros Hempty.
        rewrite Hempty in Hin. exact Hin. }
      set (g3 := snd (clear_cache g2)).
      assert (Hfound3 : fst (PromptEngine.get_template (prompt_engine g3) tn)
                        = inl template).
      { rewrite (get_template_found (prompt_engine g1')); [exact Hfound1|].
        unfold g3, clear_cache, LRUCache.clear. cbn [snd prompt_engine with_cache].
        rewrite Heng2. cbn [prompt_engine with_engine].
        apply get_template_templates. }
      set (engine3 := snd (PromptEngine.get_template (prompt_engine g3) tn)).
      destruct (generate_cached (with_engine g3 engine3) env3
                  (base_result tn merged env3) template prompt_text
                  (_generate_cache_key tn merged) ov (Session.call_use_cache c)
                  (Session.call_retry_on_failure c)) as [o g4] eqn:E3.
      assert (Hcalls : api_calls (with_engine g3 engine3) < api_calls g4
                       /\ match o with
                          | inl r => Result.cached r = false \/ Result.cached r = false
                          | inr _ => False
                          end).
      { apply generate_cached_calls in E3; [exact E3 | reflexivity |].
        unfold g3, clear_cache, LRUCache.clear.
        cbn [snd api_manager with_cache with_engine]. rewrite Ham2. exact Ham. }
      destruct Hcalls as [Hlt Ho]. destruct o as [r3 | e3]; [|contradiction].
      exists r3, g4. split; [|split].
      * unfold Session.run_call, generate.
        cbn [Spec.at_env Session.call_env_ Session.call_template_name
             Session.call_variables Session.call_use_cache
             Session.call_retry_on_failure Session.call_kwargs].
        fold tn merged ov g3.
        rewrite (went_through_again g3 env3 tn merged ov (Session.call_use_cache c)
                   (Session.call_retry_on_failure c) template prompt_text Hv Hfound3 Hgen).
        fold engine3. rewrite E3. reflexivity.
      * destruct Ho; assumption.
      * unfold g3, clear_cache, LRUCache.clear in Hlt.
        cbn [snd api_calls with_cache with_engine] in Hlt. exact Hlt.
Qed.

End WithWorld.
End CacheClaim.

Module BraceFacts.
Import PyStr.

Lemma prefix_empty (t : string) : prefix EmptyString t = true.
Proof. destruct t; reflexivity. Qed.

Lemma prefix_cons (c x : ascii) (r t : string) :
  prefix (String c r) (String x t) = Ascii.eqb x c && prefix r t.
Proof.
  cbn [prefix]. destruct (ascii_dec c x) as [-> | Hne].
  - rewrite Ascii.eqb_refl. reflexivity.
  - assert (E : Ascii.eqb x c = false) by (apply Ascii.eqb_neq; congruence).
    rewrite E. reflexivity.
Qed.

Lemma prefix_one (c x : ascii) (t : string) :
  prefix (String c EmptyString) (String x t) = Ascii.eqb x c.
Proof. rewrite prefix_cons, prefix_empty. apply andb_true_r. Qed.

Lemma prefix_two (c x : ascii) (t : string) :
  prefix (String c (String c EmptyString)) (String x t) =
  Ascii.eqb x c && match t with String y _ => Ascii.eqb y c | EmptyString => false end.
Proof.
  rewrite prefix_cons. destruct t as [|y t]; [reflexivity|].
  rewrite prefix_one. reflexivity.
Qed.

(** Replacing a character by two of it doubles every occurrence. *)
Lemma replace_doubles (c : ascii) (s : string) :
  replace (String c EmptyString) (String c (String c EmptyString)) s = Spec.double_char c s.
Proof.
  unfold replace. induction s as [|x t IH]; [reflexivity|].
  cbn [replace_from Spec.double_char]. rewrite prefix_one.
  destruct (Ascii.eqb x c) eqn:E.
  - apply Ascii.eqb_eq in E. subst x. cbn. rewrite IH. reflexivity.
  - rewrite IH. reflexivity.
Qed.

(** Replacing two of a character by one undoes the doubling. *)
Lemma replace_halves (c : ascii) (s : string) :
  replace (String c (String c EmptyString)) (String c EmptyString) (Spec.double_char c s) = s.
Proof.
  unfold replace. induction s as [|x t IH]; [reflexivity|].
  cbn [Spec.double_char]. destruct (Ascii.eqb x c) eqn:E.
  - apply Ascii.eqb_eq in E. subst x.
    cbn [replace_from]. rewrite prefix_two, Ascii.eqb_refl. cbn.
    rewrite IH. reflexivity.
  - cbn [replace_from]. rewrite prefix_two, E. cbn [andb].
    rewrite IH. reflexivity.
Qed.

(** Doubling one character commutes with halving another. *)
Lemma halve_through (c d : ascii) (s : string) :
  c <> d ->
  replace (String c (String c EmptyString)) (String c EmptyString)
          (Spec.double_char d (Spec.double_char c s))
  = Spec.double_char d s.
Proof.
  intros Hne. unfold replace.
  assert (Ecd : Ascii.eqb c d = false) by (apply Ascii.eqb_neq; exact Hne).
  assert (Edc : Ascii.eqb d c = false) by (apply Ascii.eqb_neq; congruence).
  induction s as [|x t IH]; [reflexivity|].
  cbn [Spec.double_char]. destruct (Ascii.eqb x c) eqn:E.
  - apply Ascii.eqb_eq in E. subst x. cbn [Spec.double_char]. rewrite Ecd.
    cbn [replace_from]. rewrite prefix_two, Ascii.eqb_refl. cbn.
    rewrite IH. reflexivity.
  - cbn [Spec.double_char]. destruct (Ascii.eqb x d) eqn:E'.
    + apply Ascii.eqb_eq in E'. subst x.
      cbn [replace_from]. rewrite !prefix_two, Edc. cbn [andb].
      rewrite IH. reflexivity.
    + cbn [replace_from]. rewrite prefix_two, E. cbn [andb].
      rewrite IH. reflexivity.
Qed.

Lemma double_both (s : string) :
  Spec.double_char "}" (Spec.double_char "{" s) = Spec.double_braces s.
Proof.
  induction s as [|x t IH]; [reflexivity|].
  cbn [Spec.double_char Spec.double_braces].
  destruct (Ascii.eqb x "{") eqn:E.
  - apply Ascii.eqb_eq in E. subst x. cbn. rewrite IH. reflexivity.
  - cbn [Spec.double_char orb]. destruct (Ascii.eqb x "}"); rewrite IH; reflexivity.
Qed.

Lemma escape_doubles (s : string) :
  PromptTemplate.escape_braces s = Spec.double_braces s.
Proof.
  unfold PromptTemplate.escape_braces.
  rewrite (replace_doubles "{"), (replace_doubles "}"). apply double_both.
Qed.

(** Escaping and then unescaping gives the text back. *)
Lemma unescape_escape (s : string) :
  PromptTemplate.unescape_braces (PromptTemplate.escape_braces s) = s.
Proof.
  unfold PromptTemplate.unescape_braces, PromptTemplate.escape_braces.
  rewrite (replace_doubles "{"), (replace_doubles "}").
  rewrite (halve_through "{" "}"); [|discriminate].
  apply (replace_halves "}").
Qed.

End BraceFacts.

Module FormatFacts.
Import Format.

Lemma exn_of_ext_not_key (e : ext_error) (k : string) : exn_of_ext e <> KeyError k.
Proof. destruct e; discriminate. Qed.

Section Scan.
Variable ext_access : string -> option ascii -> string -> option ext_error.
Variable ext_render : string -> option ascii -> string -> string -> string + ext_error.
Variable expand : dict string -> string -> string + exn.
Hypothesis expand_key :
  forall kw s k, expand kw s = inr (KeyError k) -> dict_get kw k = None.

Lemma render_field_key kw f k :
  render_field ext_access ext_render expand kw f = inr (KeyError k) ->
  dict_get kw k = None.
Proof.
  unfold render_field.
  destruct (split_first (field_name f)) as [first rest].
  destruct (get_integer first) as [[i | u]|]; try discriminate.
  destruct first as [|a first']; [discriminate|].
  destruct (dict_get kw (String a first')) as [v|] eqn:E; [|intros [= <-]; exact E].
  destruct (match rest with EmptyString => _ | _ => _ end) eqn:Hplain.
  - destruct (if format_spec_needs_expanding f then expand kw (format_spec f)
              else inl (format_spec f)) as [sp | e] eqn:Hs.
    + destruct sp; [discriminate|].
      destruct (ext_render _ _ _ _) as [out | e]; [discriminate|].
      intros [= Hk]. exfalso. exact (exn_of_ext_not_key _ _ Hk).
    + intros [= ->]. destruct (format_spec_needs_expanding f); [|discriminate].
      exact (expand_key _ _ _ Hs).
  - destruct (ext_access rest (conversion f) v) as [e|].
    + intros [= Hk]. exfalso. exact (exn_of_ext_not_key _ _ Hk).
    + destruct (if format_spec_needs_expanding f then expand kw (format_spec f)
                else inl (format_spec f)) as [sp | e] eqn:Hs.
      * destruct (ext_render _ _ _ _) as [out | e]; [discriminate|].
        intros [= Hk]. exfalso. exact (exn_of_ext_not_key _ _ Hk).
      * intros [= ->]. destruct (format_spec_needs_expanding f); [|discriminate].
        exact (expand_key _ _ _ Hs).
Qed.

(** A [KeyError] of the scanner names a key that [kwargs] lacks. *)
Lemma scan_key kw (n : nat) :
  forall s st out k,
    String.length s <= n ->
    scan ext_access ext_render expand kw s st out = inr (KeyError k) ->
    dict_get kw k = None.
Proof.
  induction n as [|n IH]; intros s st out k Hlen.
  - destruct s; [|cbn in Hlen; lia]. destruct st; cbn; discriminate.
  - destruct s as [|c t]; [destruct st; cbn; discriminate|].
    cbn [String.length] in Hlen.
    destruct st as [| acc [|] | fname | fname conv | fname conv acc count expanding];
      cbn [scan].
    + destruct (Ascii.eqb c "{").
      * destruct t as [|c' t']; [discriminate|]. scan_step IH render_field_key.
      * destruct (Ascii.eqb c "}").
        -- destruct t as [|c' t']; [discriminate|]. scan_step IH render_field_key.
        -- scan_step IH render_field_key.
    + scan_step IH render_field_key.
    + scan_step IH render_field_key.
    + scan_step IH render_field_key.
    + scan_step IH render_field_key.
    + destruct count as [|[|count']]; scan_step IH render_field_key.
Qed.

(** A [KeyError] of the formatter names a key that [kwargs] lacks. *)
Lemma scan_key_any kw s st out k :
  scan ext_access ext_render expand kw s st out = inr (KeyError k) ->
  dict_get kw k = None.
Proof. apply (scan_key kw (String.length s)). lia. Qed.

End Scan.

Lemma format_key ext_access ext_render s kw k :
  format ext_access ext_render s kw = inr (KeyError k) -> dict_get kw k = None.
Proof.
  unfold format. apply scan_key_any.
  intros kw' s' k'. unfold build_string_1. apply scan_key_any.
  intros kw'' s'' k''. unfold build_string_0. discriminate.
Qed.

Lemma exn_of_ext_not_validation (e : ext_error) (m : string) :
  exn_of_ext e <> VariableValidationError m.
Proof. destruct e; discriminate. Qed.

Section ScanClass.
Variable ext_access : string -> option ascii -> string -> option ext_error.
Variable ext_render : string -> option ascii -> string -> string -> string + ext_error.
Variable expand : dict string -> string -> string + exn.
Hypothesis expand_class :
  forall kw s m, expand kw s <> inr (VariableValidationError m).

Lemma render_field_class kw f m :
  render_field ext_access ext_render expand kw f = inr (VariableValidationError m) ->
  False.
Proof.
  unfold render_field.
  destruct (split_first (field_name f)) as [first rest].
  destruct (get_integer first) as [[i | u]|]; try discriminate.
  destruct first as [|a first']; [discriminate|].
  destruct (dict_get kw (String a first')) as [v|]; [|discriminate].
  destruct (match rest with EmptyString => _ | _ => _ end).
  - destruct (if format_spec_needs_expanding f then expand kw (format_spec f)
              else inl (format_spec f)) as [sp | e] eqn:Hs.
    + destruct sp; [discriminate|].
      destruct (ext_render _ _ _ _) as [out | e]; [discriminate|].
      intros [= Hk]. exact (exn_of_ext_not_validation _ _ Hk).
    + intros [= ->]. destruct (format_spec_needs_expanding f); [|discriminate].
      exact (expand_class _ _ _ Hs).
  - destruct (ext_access rest (conversion f) v) as [e|].
    + intros [= Hk]. exact (exn_of_ext_not_validation _ _ Hk).
    + destruct (if format_spec_needs_expanding f then expand kw (format_spec f)
                else inl (format_spec f)) as [sp | e] eqn:Hs.
      * destruct (ext_render _ _ _ _) as [out | e]; [discriminate|].
        intros [= Hk]. exact (exn_of_ext_not_validation _ _ Hk).
      * intros [= ->]. destruct (format_spec_needs_expanding f); [|discriminate].
        exact (expand_class _ _ _ Hs).
Qed.

Lemma scan_class kw (n : nat) :
  forall s st out m,
    String.length s <= n ->
    scan ext_access ext_render expand kw s st out = inr (VariableValidationError m) ->
    False.
Proof.
  induction n as [|n IH]; intros s st out m Hlen.
  - destruct s; [|cbn in Hlen; lia]. destruct st; cbn; discriminate.
  - destruct s as [|c t]; [destruct st; cbn; discriminate|].
    cbn [String.length] in Hlen.
    destruct st as [| acc [|] | fname | fname conv | fname conv acc count expanding];
      cbn [scan].
    + destruct (Ascii.eqb c "{").
      * destruct t as [|c' t']; [discriminate|]. scan_step IH render_field_class.
      * destruct (Ascii.eqb c "}").
        -- destruct t as [|c' t']; [discriminate|]. scan_step IH render_field_class.
        -- scan_step IH render_field_class.
    + scan_step IH render_field_class.
    + scan_step IH render_field_class.
    + scan_step IH render_field_class.
    + scan_step IH render_field_class.
    + destruct count as [|[|count']]; scan_step IH render_field_class.
Qed.

End ScanClass.

(** [str.format] does not raise the engine's own validation error. *)
Lemma format_class ext_access ext_render s kw m :
  format ext_access ext_render s kw <> inr (VariableValidationError m).
Proof.
  unfold format. intros E. revert E.
  apply (scan_class _ _ _) with (n := String.length s); [|lia].
  intros kw' s' m' E. revert E. unfold build_string_1.
  apply (scan_class _ _ _) with (n := String.length s'); [|lia].
  intros kw'' s'' m''. unfold build_string_0. discriminate.
Qed.

Lemma rev_append_app (acc : string) : forall out,
  rev_append acc out = rev_append acc EmptyString ++ out.
Proof.
  induction acc as [|c acc IH]; intros out; cbn [rev_append]; [reflexivity|].
  rewrite (IH (String c out)), (IH (String c EmptyString)).
  rewrite append_assoc. reflexivity.
Qed.

(** Pushing a text on the output appends it to what is read back. *)
Lemma unrev_rev_append (txt : string) : forall out,
  unrev (rev_append txt out) = unrev out ++ txt.
Proof.
  induction txt as [|c txt IH]; intros out; cbn [rev_append].
  - unfold unrev. symmetry. apply append_nil_r.
  - rewrite IH. unfold unrev. cbn [rev_append].
    rewrite (rev_append_app out (String c EmptyString)).
    rewrite append_assoc. reflexivity.
Qed.

(** The body "Say {msg}" is rendered as "Say " and the value of msg. *)
Lemma format_echo ea er kw v :
  dict_get kw "msg" = Some v ->
  format ea er "Say {msg}" kw = inl ("Say " ++ v).
Proof.
  intros E. unfold format. cbn [scan Ascii.eqb Bool.eqb].
  unfold finish, render_field.
  cbn [unrev rev_append field_name conversion format_spec format_spec_needs_expanding].
  change (split_first "msg") with ("msg", EmptyString).
  cbv iota beta. rewrite E. cbv iota beta.
  change (get_integer "msg") with (@None (Z + unit)). cbv iota.
  rewrite unrev_rev_append. reflexivity.
Qed.

End FormatFacts.

(* ===================================================================== *)
(** * Claims about templates *)
(* ===================================================================== *)

Module TemplateClaims.
Import PromptTemplate.

Lemma dict_get_rev_None {V : Type} (d : dict V) (k : string) :
  dict_get (rev d) k = None -> dict_get d k = None.
Proof.
  intros Hn. destruct (dict_get d k) as [v|] eqn:E; [|reflexivity].
  exfalso. apply (dict_get_None_In _ _ v Hn). apply in_rev. rewrite rev_involutive.
  exact (dict_get_In _ _ _ E).
Qed.

Section WithRuntime.
Context `{PyRuntime}.

Lemma sanitize_value_doubles value s :
  _sanitize_value value = inl s -> s = Spec.double_braces (Spec.text_of value).
Proof.
  unfold _sanitize_value. fold (Spec.text_of value).
  destruct (MAX_VARIABLE_LENGTH <? Utils.len (Spec.text_of value))%Z; [discriminate|].
  destruct (existsb _ DANGEROUS_PATTERNS); [discriminate|].
  intros [= <-]. apply BraceFacts.escape_doubles.
Qed.

(** The loop leaves alone the keys the caller did not supply. *)
Lemma override_vars_other sanitize variables : forall merged0 merged k,
  override_vars sanitize merged0 variables = inl merged ->
  dict_get variables k = None ->
  dict_get merged k = dict_get merged0 k.
Proof.
  induction variables as [|[key value] rest IH]; intros merged0 merged k;
    cbn [override_vars dict_get].
  - intros [= <-] _. reflexivity.
  - destruct (String.eqb k key) eqn:E; [discriminate|].
    assert (Hne : key <> k) by (intros ->; rewrite String.eqb_refl in E; discriminate).
    destruct sanitize.
    + destruct (_sanitize_value value) as [v | e]; [|discriminate].
      intros Hr Hn. rewrite (IH _ _ _ Hr Hn). apply dict_get_set_other. exact Hne.
    + intros Hr Hn. rewrite (IH _ _ _ Hr Hn). apply dict_get_set_other. exact Hne.
Qed.

(** The loop keeps every key and adds the caller's. *)
Lemma override_vars_mem sanitize variables : forall merged0 merged k,
  override_vars sanitize merged0 variables = inl merged ->
  dict_mem merged0 k || dict_mem variables k = true ->
  dict_mem merged k = true.
Proof.
  induction variables as [|[key value] rest IH]; intros merged0 merged k;
    cbn [override_vars].
  - intros [= <-]. unfold dict_mem at 2. cbn [dict_get]. rewrite orb_false_r. tauto.
  - intros Hr Hm.
    assert (Hm' : forall v, dict_mem (dict_set merged0 key v) k || dict_mem rest k = true).
    { intros v. rewrite dict_mem_set. unfold dict_mem in Hm |- *. cbn [dict_get] in Hm.
      rewrite (String.eqb_sym key k).
      destruct (String.eqb k key); [reflexivity | exact Hm]. }
    destruct sanitize.
    + destruct (_sanitize_value value) as [v | e]; [|discriminate].
      exact (IH _ _ _ Hr (Hm' v)).
    + exact (IH _ _ _ Hr (Hm' _)).
Qed.

(** With sanitising on, the value substituted for a key of the caller is
    the text of the value the caller gave last for that key. *)
Lemma override_vars_final variables : forall merged0 merged k value,
  override_vars true merged0 variables = inl merged ->
  dict_get (rev variables) k = Some value ->
  dict_get (final_vars merged) k = Some (Spec.text_of value).
Proof.
  induction variables as [|[key v0] rest IH]; intros merged0 merged k value;
    cbn [override_vars rev]; [discriminate|].
  destruct (_sanitize_value v0) as [s | e] eqn:Es; [|discriminate].
  intros Hr. rewrite dict_get_app.
  destruct (dict_get (rev rest) k) as [v|] eqn:E.
  - intros [= ->]. exact (IH _ _ _ _ Hr E).
  - cbn [dict_get]. destruct (String.eqb k key) eqn:Ek; [|discriminate].
    intros [= <-]. apply String.eqb_eq in Ek. subst key.
    unfold final_vars. rewrite dict_get_map.
    rewrite (override_vars_other _ _ _ _ _ Hr (dict_get_rev_None _ _ E)).
    rewrite dict_get_set_same. cbn [option_map].
    unfold _sanitize_value in Es. fold (Spec.text_of v0) in Es.
    destruct (MAX_VARIABLE_LENGTH <? Utils.len (Spec.text_of v0))%Z; [discriminate|].
    destruct (existsb _ DANGEROUS_PATTERNS); [discriminate|].
    injection Es as <-. rewrite BraceFacts.unescape_escape. reflexivity.
Qed.

Lemma sanitize_value_restored value s :
  _sanitize_value value = inl s -> unescape_braces s = Spec.text_of value.
Proof.
  intros Hs. rewrite (sanitize_value_doubles _ _ Hs).
  rewrite <- BraceFacts.escape_doubles. apply BraceFacts.unescape_escape.
Qed.

(** The template "Say {msg}" renders every accepted value as it was given. *)
Lemma generate_echo value s :
  _sanitize_value value = inl s ->
  is_missing [("msg", value)] "msg" = false ->
  generate Demo.echo_template [("msg", value)] true false
  = inl ("Say " ++ Spec.text_of value).
Proof.
  intros Hs Hm. unfold generate, validate_variables.
  cbn [required_variables Demo.echo_template filter]. rewrite Hm. cbn [negb].
  change (initial_vars Demo.echo_template [("msg", value)])
    with [("tone", "professional")].
  cbn [override_vars]. rewrite Hs.
  change (dict_set [("tone", "professional")] "msg" s)
    with [("tone", "professional"); ("msg", s)].
  cbn [template Demo.echo_template].
  rewrite (FormatFacts.format_echo _ _ _ (Spec.text_of value)); [reflexivity|].
  unfold final_vars. cbn [map fst snd dict_get].
  change ("msg" =? "tone")%string with false. change ("msg" =? "msg")%string with true.
  cbv iota. rewrite (sanitize_value_restored _ _ Hs). reflexivity.
Qed.

(** [generate] does not report "tone" as unresolved when the formatter
    does not miss it. *)
Lemma generate_tone (self : t) variables sanitize merged include_system :
  override_vars sanitize (initial_vars self variables) variables = inl merged ->
  Format.format ext_access ext_render (template self) (final_vars merged)
    <> inr (KeyError "tone") ->
  generate self variables sanitize include_system
  <> inr (VariableValidationError
            "Template variable 'tone' not provided and has no default").
Proof.
  intros Hr Hfmt. unfold generate.
  destruct (validate_variables self variables) as [is_valid missing].
  destruct is_valid; cbn [negb]; [|discriminate].
  rewrite Hr.
  destruct (Format.format ext_access ext_render (template self) (final_vars merged))
    as [result | e] eqn:Ef.
  - destruct (include_system && PyStr.truthy (system_instructions self)); discriminate.
  - destruct e; try discriminate.
    + intros [= ->]. exact (FormatFacts.format_class _ _ _ _ _ Ef).
    + intros E.
      apply (f_equal (fun r => match r with
                               | inr e => exn_str e
                               | inl _ => EmptyString
                               end)) in E.
      apply Hfmt. f_equal. f_equal.
      apply ReprFacts.repr_tone.
      apply (append_cancel_r " not provided and has no default").
      apply (append_cancel_l "Template variable ").
      exact E.
Qed.

(** C5, as the code has it: with sanitising on, [_sanitize_value] doubles
    every brace of a caller's value, [generate] halves them again before
    substitution, and the value substituted is the caller's text with its
    braces as given, not doubled; the template "Say {msg}" renders every
    accepted value of msg as "Say " followed by that text. *)
Theorem C5_braces_doubled_then_restored :
  (forall value s,
      _sanitize_value value = inl s -> s = Spec.double_braces (Spec.text_of value))
  /\ (forall s, unescape_braces (escape_braces s) = s)
  /\ (forall (self : t) variables merged k value,
         override_vars true (initial_vars self variables) variables = inl merged ->
         dict_get (rev variables) k = Some value ->
         dict_get (final_vars merged) k = Some (Spec.text_of value))
  /\ (forall value s,
         _sanitize_value value = inl s ->
         is_missing [("msg", value)] "msg" = false ->
         generate Demo.echo_template [("msg", value)] true false
         = inl ("Say " ++ Spec.text_of value)).
Proof.
  split; [exact sanitize_value_doubles|].
  split; [exact BraceFacts.unescape_escape|].
  split; [|exact generate_echo].
  intros self variables merged k value. apply override_vars_final.
Qed.

(** C10: when neither the caller's variables nor the optional defaults
    have the key "tone", the template's default tone is the value of
    "tone" when the loop over the caller's variables is done; in every
    case "tone" is among the substituted variables, the substitution
    never fails on a missing key "tone", and [generate] never raises the
    VariableValidationError that reports "tone" as not provided. *)
Theorem C10_tone_always_resolved :
  forall (self : t) (variables : dict pyval) (sanitize : bool) (merged : dict string),
    override_vars sanitize (initial_vars self variables) variables = inl merged ->
    (dict_mem variables "tone" = false ->
     dict_mem (optional_variables self) "tone" = false ->
     dict_get merged "tone" = Some (default_tone self))
    /\ dict_mem (final_vars merged) "tone" = true
    /\ Format.format ext_access ext_render (template self) (final_vars merged)
       <> inr (KeyError "tone")
    /\ (forall include_system : bool,
          generate self variables sanitize include_system
          <> inr (VariableValidationError
                    "Template variable 'tone' not provided and has no default")).
Proof.
  intros self variables sanitize merged Hr.
  assert (Hmem : dict_mem (final_vars merged) "tone" = true).
  { unfold dict_mem, final_vars. rewrite dict_get_map.
    assert (Hm : dict_mem merged "tone" = true).
    { apply (override_vars_mem _ _ _ _ _ Hr). unfold initial_vars.
      destruct (dict_mem (optional_variables self) "tone") eqn:Eo;
        [cbn [negb andb]; rewrite Eo; reflexivity|].
      destruct (dict_mem variables "tone") eqn:Ev; [apply orb_true_r|].
      cbn [negb andb]. rewrite dict_mem_set. reflexivity. }
    unfold dict_mem in Hm. destruct (dict_get merged "tone"); [reflexivity | discriminate]. }
  assert (Hfmt : Format.format ext_access ext_render (template self) (final_vars merged)
                 <> inr (KeyError "tone")).
  { intros Hk. apply FormatFacts.format_key in Hk.
    unfold dict_mem in Hmem. rewrite Hk in Hmem. discriminate. }
  split; [|split; [exact Hmem|split; [exact Hfmt|]]].
  - intros Hv Ho.
    assert (Hn : dict_get variables "tone" = None)
      by (unfold dict_mem in Hv; destruct (dict_get variables "tone");
          [discriminate | reflexivity]).
    rewrite (override_vars_other _ _ _ _ _ Hr Hn).
    unfold initial_vars. rewrite Hv, Ho. cbn [negb andb]. apply dict_get_set_same.
  - intros include_system. exact (generate_tone _ _ _ _ _ Hr Hfmt).
Qed.

Lemma validate_template_class (f : t) (e : exn) :
  _validate_template f = Some e -> exists m, e = TemplateValidationError m.
Proof.
  unfold _validate_template.
  repeat match goal with
         | |- context [if ?b then _ else _] => destruct b
         end; try discriminate; intros [= <-]; eauto.
Qed.

Lemma truthy_eqb (s : string) : PyStr.truthy s = negb (String.eqb s EmptyString).
Proof. destruct s; reflexivity. Qed.

Lemma validate_template_spec (f : t) :
  Spec.structurally_valid f
  = match _validate_template f with None => true | Some _ => false end.
Proof.
  unfold Spec.structurally_valid, _validate_template, MAX_NAME_LENGTH,
    MAX_TEMPLATE_LENGTH, float_between.
  rewrite !truthy_eqb, !negb_involutive.
  destruct (String.eqb (name f) EmptyString); [reflexivity|]. cbn [negb andb].
  rewrite (Z.leb_antisym 100 (Utils.len (name f))).
  destruct (100 <? Utils.len (name f))%Z; [reflexivity|]. cbn [negb andb].
  destruct (String.eqb (template f) EmptyString); [reflexivity|]. cbn [negb andb].
  rewrite (Z.leb_antisym 10000 (Utils.len (template f))).
  destruct (10000 <? Utils.len (template f))%Z; [reflexivity|]. cbn [negb andb].
  rewrite (Z.leb_antisym (max_tokens_recommendation f) 1).
  destruct (temperature_recommendation f) as [| neg | q]; try reflexivity.
  destruct (Qle_bool 0 q && Qle_bool q 2); [|reflexivity]. cbn [negb andb].
  destruct (max_tokens_recommendation f <? 1)%Z; reflexivity.
Qed.

End WithRuntime.
End TemplateClaims.

Module RegistrationClaims.
Import ContentGenerator.

Section WithWorld.
Context `{PyRuntime} `{ApiManager}.


(** C3: with the built-in product_description template in the catalogue,
    generate("product_description", {"product_name": "X"}) returns a
    failed result whose error names the missing variables features and
    audience, in this order, and no other. *)
Theorem C3_missing_variables_named :
  forall (g : t) (env : call_env) (use_cache retry_on_failure : bool),
    dict_get (PromptEngine._templates (prompt_engine g)) "product_description"
      = Some builtin_product_description ->
    exists r g',
      generate g env "product_description" (Some [("product_name", VStr "X")])
               use_cache retry_on_failure [] = (Returned r, g')
      /\ Result.success r = false
      /\ snd (PromptTemplate.validate_variables builtin_product_description
                [("product_name", VStr "X")]) = ["features"; "audience"]
      /\ Result.error r
         = Some ("Variable validation failed: Missing required variables for "
                 ++ "template 'product_description': ['features', 'audience']").
Proof.
  intros g env use_cache retry_on_failure Hget.
  unfold generate, generate_try.
  change (merge_variables (Some [("product_name", VStr "X")]) [])
    with [("product_name", VStr "X")].
  rewrite validate_input_accepts.
  unfold PromptEngine.get_template. rewrite Hget.
  change (PromptTemplate.new builtin_product_description)
    with (@inl PromptTemplate.t exn builtin_product_description).
  change (PromptTemplate.generate builtin_product_description
            [("product_name", VStr "X")] true true)
    with (@inr string exn
            (VariableValidationError
               ("Missing required variables for template 'product_description': "
                ++ "['features', 'audience']"))).
  unfold return_failed. eexists _, _. split; [reflexivity|].
  repeat split.
Qed.

End WithWorld.
End RegistrationClaims.

(* ===================================================================== *)
(** * Claims about the API manager *)
(* ===================================================================== *)

Module ManagerClaims.
Import OpenAIManager.

Section WithClient.
Context `{Client}.


(** The decorated call makes between one and three attempts. *)
Lemma make_api_call_attempts (self : t) (rq : request) :
  1 <= calls (_make_api_call self rq) <= 3.
Proof.
  unfold _make_api_call, retry_with_backoff, MAX_RETRY_ATTEMPTS.
  cbn [retry_loop Nat.sub Nat.ltb Nat.leb].
  repeat match goal with
         | |- context [match _make_api_call_body ?m ?q ?n with _ => _ end] =>
             destruct (_make_api_call_body m q n)
         | |- context [if is_transient ?e then _ else _] => destruct (is_transient e)
         end; cbn [calls]; lia.
Qed.



Lemma int_or_zero (default : Z) : int_or (Some 0%Z) default = default.
Proof. reflexivity. Qed.

Lemma float_or_zero (q : Q) (default : pyfloat) :
  (q == 0)%Q -> float_or (Some (FFin q)) default = default.
Proof.
  intros Hq. unfold float_or.
  assert (E : Qeq_bool q 0 = true) by (apply Qeq_bool_iff; exact Hq).
  rewrite E. reflexivity.
Qed.

(** Every request of one call of [generate_content] carries the resolved
    parameters. *)
Lemma generate_content_requests (self : t) (e : env) (prompt_text : string)
    (max_tokens_arg : option Z) (temperature_arg : option pyfloat)
    (system_message : option string) (use_cache : bool) :
  Forall (fun rq => rq_max_tokens rq = int_or max_tokens_arg (max_tokens self)
                    /\ rq_temperature rq = float_or temperature_arg (temperature self)
                    /\ rq_model rq = model self)
         (sent (generate_content self e prompt_text max_tokens_arg temperature_arg
                                 system_message use_cache)).
Proof.
  unfold generate_content.
  destruct (negb (PyStr.truthy prompt_text) || negb (PyStr.truthy (PyStr.strip prompt_text)));
    [constructor|].
  match goal with
  | |- context [match (if use_cache then ?a else ?b) with _ => _ end] =>
      destruct (if use_cache then a else b) as [[entry|] cache1]
  end; [constructor|].
  match goal with
  | |- context [repeat ?rq ?n] =>
      assert (Hall : Forall (fun rq0 => rq_max_tokens rq0 = int_or max_tokens_arg (max_tokens self)
                                /\ rq_temperature rq0
                                   = float_or temperature_arg (temperature self)
                                /\ rq_model rq0 = model self)
                            (repeat rq n))
  end.
  { apply Forall_forall. intros x Hx. apply repeat_spec in Hx. subst x.
    cbn. repeat split. }
  repeat match goal with
         | |- context [match ?x with _ => _ end] => destruct x
         end; cbn [sent]; exact Hall.
Qed.

(** A call that passes the prompt check and does not read the cache
    sends a request. *)
Lemma generate_content_sends (self : t) (e : env) (prompt_text : string)
    (max_tokens_arg : option Z) (temperature_arg : option pyfloat)
    (system_message : option string) :
  PyStr.truthy prompt_text = true ->
  PyStr.truthy (PyStr.strip prompt_text) = true ->
  sent (generate_content self e prompt_text max_tokens_arg temperature_arg
                         system_message false) <> [].
Proof.
  intros H1 H2. unfold generate_content. rewrite H1, H2. cbn [negb orb].
  match goal with
  | |- context [repeat ?rq (calls ?a)] =>
      pose proof (make_api_call_attempts
                    (with_state self (_stats self) (_cache self)
                                (_request_counter self + 1) (client_calls self)) rq)
        as Hcalls;
      assert (Hne : repeat rq (calls a) <> [])
  end.
  { match goal with
    | |- repeat _ ?n <> [] => destruct n; [lia | discriminate]
    end. }
  repeat match goal with
         | |- context [match ?x with _ => _ end] => destruct x
         end; cbn [sent]; exact Hne.
Qed.

(** C9: when [generate_content] is called with [temperature = 0.0], every
    request it sends carries the manager's own temperature, and with
    [max_tokens = 0] the manager's own token limit: a zero is read as an
    absent value.  A call with a prompt that is not blank and
    [use_cache = false] does send a request. *)
Theorem C9_zero_overrides_are_dropped :
  forall (self : t) (e : env) (prompt_text : string) (max_tokens_arg : option Z)
         (temperature_arg : option pyfloat) (system_message : option string)
         (use_cache : bool),
    let gen := generate_content self e prompt_text max_tokens_arg temperature_arg
                                system_message use_cache in
    (forall q, temperature_arg = Some (FFin q) -> (q == 0)%Q ->
       Forall (fun rq => rq_temperature rq = temperature self) (sent gen))
    /\ (max_tokens_arg = Some 0%Z ->
        Forall (fun rq => rq_max_tokens rq = max_tokens self) (sent gen))
    /\ (PyStr.truthy prompt_text = true ->
        PyStr.truthy (PyStr.strip prompt_text) = true ->
        use_cache = false -> sent gen <> []).
Proof.
  intros self e prompt_text max_tokens_arg temperature_arg system_message use_cache gen.
  pose proof (generate_content_requests self e prompt_text max_tokens_arg
                temperature_arg system_message use_cache) as Hall.
  fold gen in Hall.
  split; [|split].
  - intros q -> Hq. eapply Forall_impl; [|exact Hall].
    intros rq (_ & Ht & _). rewrite Ht. apply float_or_zero. exact Hq.
  - intros ->. eapply Forall_impl; [|exact Hall].
    intros rq (Hm & _). rewrite Hm. apply int_or_zero.
  - intros H1 H2 ->. apply generate_content_sends; assumption.
Qed.

End WithClient.
End ManagerClaims.

(* ===================================================================== *)
(** * The claims on concrete inputs *)
(* ===================================================================== *)

Module Examples.
Import ContentGenerator.

(** A first call answered by the mock manager at time 0, the same call ten
    seconds later, and the same call again after [clear_cache()]. *)
Lemma C1_cache_hit_example :
  let c := Demo.product_call 0 in
  let first := @Session.run_call Demo.runtime Demo.mock_manager Demo.fresh c in
  exists r1,
    fst first = Returned r1 /\ Result.success r1 = true
    /\ exists expires,
         Spec.expiry (snd first) (@Spec.key_of Demo.runtime c) = Some expires
         /\ (env_now_get (Demo.env_at 10) <= expires)%Z
         /\ exists r2 g2,
              @Session.run_call Demo.runtime Demo.mock_manager (snd first)
                (Spec.at_env c (Demo.env_at 10)) = (Returned r2, g2)
              /\ Result.cached r2 = true
              /\ api_calls g2 = api_calls (snd first)
              /\ exists r3 g3,
                   @Session.run_call Demo.runtime Demo.mock_manager (snd (clear_cache g2))
                     (Spec.at_env c (Demo.env_at 20)) = (Returned r3, g3)
                   /\ Result.cached r3 = false
                   /\ api_calls g2 < api_calls g3.
Proof.
  intros c first. destruct first as [o g1] eqn:E. cbn [fst snd].
  assert (Ho : exists r1, o = Returned r1 /\ Result.success r1 = true
                          /\ Result.cached r1 = false).
  { subst first. vm_compute in E. injection E as <- _.
    eexists. repeat split. }
  destruct Ho as (r1 & -> & Hs & Hc).
  exists r1. split; [reflexivity|]. split; [exact Hs|].
  destruct (@CacheClaim.C1_cache_hit_within_ttl Demo.runtime Demo.mock_manager
              "session" "start" true PromptEngine.create_engine_with_defaults None []
              c r1 g1 (Demo.env_at 10) (Demo.env_at 20) eq_refl E Hs)
    as (expires & Hexp & Hmiss & Hnext).
  exists expires. split; [exact Hexp|].
  assert (Hlive : (env_now_get (Demo.env_at 10) <= expires)%Z).
  { rewrite (Hmiss Hc). apply Z.leb_le. vm_compute. reflexivity. }
  split; [exact Hlive|].
  destruct (Hnext Hlive) as (r2 & g2 & Hrun2 & Hc2 & _ & Hcalls2 & r3 & g3 & Hrun3 & Hc3 & Hlt).
  exists r2, g2. split; [exact Hrun2|]. split; [exact Hc2|]. split; [exact Hcalls2|].
  exists r3, g3. split; [exact Hrun3|]. split; [exact Hc3 | exact Hlt].
Defined.


(** The call of the claim on a new generator. *)
Lemma C3_missing_variables_example :
  exists r g',
    @generate Demo.runtime Demo.mock_manager Demo.fresh (Demo.env_at 0)
      "product_description" (Some [("product_name", VStr "X")]) true true []
    = (Returned r, g')
    /\ Result.success r = false
    /\ snd (PromptTemplate.validate_variables builtin_product_description
              [("product_name", VStr "X")]) = ["features"; "audience"]
    /\ Result.error r
       = Some ("Variable validation failed: Missing required variables for "
               ++ "template 'product_description': ['features', 'audience']").
Proof.
  apply (@RegistrationClaims.C3_missing_variables_named Demo.runtime Demo.mock_manager
           Demo.fresh (Demo.env_at 0) true true).
  vm_compute. reflexivity.
Defined.


(** A value with braces is rendered with its braces single. *)
Lemma C5_braces_not_doubled_in_prompt :
  PyStr.contains "{" "a{b}c" = true
  /\ @PromptTemplate.generate Demo.runtime Demo.echo_template [("msg", VStr "a{b}c")]
       true false = inl "Say a{b}c"
  /\ PyStr.contains "{{" "Say a{b}c" = false
  /\ PyStr.contains "}}" "Say a{b}c" = false.
Proof. repeat split; vm_compute; reflexivity. Defined.

Lemma C5_braces_restored_example :
  @PromptTemplate._sanitize_value Demo.runtime (VStr "a{b}c") = inl "a{{b}}c"
  /\ dict_get (PromptTemplate.final_vars [("tone", "professional"); ("msg", "a{{b}}c")])
              "msg" = Some "a{b}c"
  /\ @PromptTemplate.generate Demo.runtime Demo.echo_template [("msg", VStr "a{b}c")]
       true false = inl ("Say " ++ "a{b}c").
Proof.
  destruct (@TemplateClaims.C5_braces_doubled_then_restored Demo.runtime)
    as (Hdouble & _ & Hfinal & Hsay).
  split; [reflexivity|]. split.
  - exact (Hfinal Demo.echo_template [("msg", VStr "a{b}c")]
             [("tone", "professional"); ("msg", "a{{b}}c")] "msg" (VStr "a{b}c")
             eq_refl eq_refl).
  - exact (Hsay (VStr "a{b}c") "a{{b}}c" eq_refl eq_refl).
Defined.


(** The history of a new generator after one failed call. *)
Lemma C8_total_cost_example :
  let g := @Session.exec Demo.runtime Demo.mock_manager Demo.fresh
             [Session.OpGenerate (Demo.product_call 0);
              Session.OpGenerate
                {| Session.call_env_ := Demo.env_at 5;
                   Session.call_template_name := "no_such_template";
                   Session.call_variables := None; Session.call_use_cache := true;
                   Session.call_retry_on_failure := true; Session.call_kwargs := [] |};
              Session.OpGenerate (Demo.product_call 10)] in
  (Statistics.total_cost (Session.get_statistics g) == 2 # 1000)%Q
  /\ map Result.success (_history g) = [true; false; true].
Proof.
  intros g.
  destruct (@OrchestratorClaims.C8_total_cost_is_sum_of_successful
              Demo.runtime Demo.mock_manager "session" "start" true
              PromptEngine.create_engine_with_defaults None
              [Session.OpGenerate (Demo.product_call 0);
               Session.OpGenerate
                 {| Session.call_env_ := Demo.env_at 5;
                    Session.call_template_name := "no_such_template";
                    Session.call_variables := None; Session.call_use_cache := true;
                    Session.call_retry_on_failure := true; Session.call_kwargs := [] |};
               Session.OpGenerate (Demo.product_call 10)]) as (Hsum & _).
  split.
  - etransitivity; [exact Hsum|]. vm_compute. reflexivity.
  - vm_compute. reflexivity.
Defined.

(** A call with temperature 0.0 and max_tokens 0 is sent with the
    manager's 0.7 and 2000. *)
Lemma C9_zero_temperature_example :
  let gen := @OpenAIManager.generate_content Demo.answering Demo.manager Demo.manager_env
               "Hello" (Some 0%Z) (Some (FFin 0)) None false in
  OpenAIManager.sent gen <> []
  /\ Forall (fun rq => OpenAIManager.rq_temperature rq = FFin (7 # 10))
            (OpenAIManager.sent gen)
  /\ Forall (fun rq => OpenAIManager.rq_max_tokens rq = 2000%Z) (OpenAIManager.sent gen).
Proof.
  intros gen.
  destruct (@ManagerClaims.C9_zero_overrides_are_dropped Demo.answering Demo.manager
              Demo.manager_env "Hello" (Some 0%Z) (Some (FFin 0)) None false)
    as (Htemp & Hmax & Hsent).
  fold gen in Htemp, Hmax, Hsent.
  split; [exact (Hsent eq_refl eq_refl eq_refl)|].
  split; [exact (Htemp 0%Q eq_refl (Qeq_refl 0)) | exact (Hmax eq_refl)].
Defined.

(** A template with a {tone} placeholder and no declared tone. *)
Lemma C10_default_tone_example :
  let self := Demo.tone_template in
  let variables := [("topic", VStr "tea")] in
  let merged := [("tone", "professional"); ("topic", "tea")] in
  @PromptTemplate.override_vars Demo.runtime true
     (PromptTemplate.initial_vars self variables) variables = inl merged
  /\ dict_get merged "tone" = Some (PromptTemplate.default_tone self)
  /\ Format.format Demo.no_access Demo.no_render (PromptTemplate.template self)
                   (PromptTemplate.final_vars merged) <> inr (KeyError "tone")
  /\ @PromptTemplate.generate Demo.runtime self variables true false
     <> inr (VariableValidationError
               "Template variable 'tone' not provided and has no default")
  /\ @PromptTemplate.generate Demo.runtime self variables true false
     = inl "Write about tea. Tone: professional.".
Proof.
  intros self variables merged.
  assert (Hr : @PromptTemplate.override_vars Demo.runtime true
                 (PromptTemplate.initial_vars self variables) variables
               = inl merged) by reflexivity.
  destruct (@TemplateClaims.C10_tone_always_resolved Demo.runtime self
              variables true merged Hr) as (Htone & _ & Hfmt & Hgen).
  split; [exact Hr|]. split; [exact (Htone eq_refl eq_refl)|].
  split; [exact Hfmt|]. split; [exact (Hgen false)|].
  vm_compute. reflexivity.
Defined.

End Examples.

(* ===================================================================== *)
(** * Facts about [sorted] *)
(* ===================================================================== *)

Module SortFacts.
Import PyList Catalogue.

Lemma ascii_compare_lt (a b : ascii) :
  Ascii.compare a b = Lt -> (N_of_ascii a < N_of_ascii b)%N.
Proof. unfold Ascii.compare. apply N.compare_lt_iff. Qed.

Lemma ascii_compare_gt (a b : ascii) :
  Ascii.compare a b = Gt -> (N_of_ascii b < N_of_ascii a)%N.
Proof. unfold Ascii.compare. apply N.compare_gt_iff. Qed.

Lemma ascii_lt_compare (a b : ascii) :
  (N_of_ascii a < N_of_ascii b)%N -> Ascii.compare a b = Lt.
Proof. unfold Ascii.compare. apply N.compare_lt_iff. Qed.

Lemma leb_refl (a : string) : str_le a a.
Proof.
  unfold str_le, String.leb.
  destruct (String.leb_total a a) as [E | E]; exact E.
Qed.

Lemma leb_trans (a : string) : forall b c, str_le a b -> str_le b c -> str_le a c.
Proof.
  unfold str_le, String.leb.
  induction a as [|x a IH]; intros [|y b] [|z c]; cbn; try reflexivity; try discriminate.
  destruct (Ascii.compare x y) eqn:Exy; try discriminate.
  - apply Ascii.compare_eq_iff in Exy. subst y.
    destruct (Ascii.compare x z) eqn:Exz; try reflexivity; try discriminate.
    apply IH.
  - apply ascii_compare_lt in Exy.
    destruct (Ascii.compare y z) eqn:Eyz; try discriminate; intros _ _.
    + apply Ascii.compare_eq_iff in Eyz. subst z.
      rewrite (ascii_lt_compare _ _ Exy). reflexivity.
    + apply ascii_compare_lt in Eyz.
      rewrite (ascii_lt_compare x z); [reflexivity | lia].
Qed.

Lemma insert_perm (x : string) (l : list string) : Permutation (insert x l) (x :: l).
Proof.
  induction l as [|y t IH]; cbn; [reflexivity|].
  destruct (String.leb x y); [reflexivity|].
  rewrite IH. apply perm_swap.
Qed.

Lemma sorted_perm (l : list string) : Permutation (sorted l) l.
Proof.
  induction l as [|x t IH]; cbn; [reflexivity|].
  rewrite insert_perm. constructor. exact IH.
Qed.

Lemma insert_sorted (x : string) (l : list string) :
  StronglySorted str_le l -> StronglySorted str_le (insert x l).
Proof.
  induction l as [|y t IH]; cbn; intros Hs.
  - constructor; [constructor | constructor].
  - apply StronglySorted_inv in Hs. destruct Hs as [Ht Hy].
    destruct (String.leb x y) eqn:E.
    + constructor; [constructor; assumption|].
      constructor; [exact E|].
      rewrite Forall_forall in *. intros z Hz. apply (leb_trans x y z E). apply Hy, Hz.
    + constructor; [exact (IH Ht)|].
      assert (Hyx : str_le y x).
      { destruct (String.leb_total x y) as [H1 | H1]; [congruence | exact H1]. }
      rewrite Forall_forall in *. intros z Hz.
      apply (Permutation_in _ (insert_perm x t)) in Hz.
      destruct Hz as [<- | Hz]; [exact Hyx | apply Hy, Hz].
Qed.

(** [sorted] returns an ascending list. *)
Lemma sorted_ascending (l : list string) : StronglySorted str_le (sorted l).
Proof.
  induction l as [|x t IH]; cbn; [constructor|]. apply insert_sorted, IH.
Qed.

Lemma sorted_In (l : list string) (x : string) : In x (sorted l) <-> In x l.
Proof.
  split; apply Permutation_in; [apply sorted_perm | symmetry; apply sorted_perm].
Qed.

Lemma sorted_NoDup (l : list string) : NoDup l -> NoDup (sorted l).
Proof. apply Permutation_NoDup. symmetry. apply sorted_perm. Qed.

Lemma sorted_length (l : list string) : List.length (sorted l) = List.length l.
Proof. apply Permutation_length, sorted_perm. Qed.

Lemma mem_In (x : string) (l : list string) : mem x l = true <-> In x l.
Proof.
  unfold mem. rewrite existsb_exists. split.
  - intros (y & Hy & E). apply String.eqb_eq in E. subst. exact Hy.
  - intros Hx. exists x. split; [exact Hx | apply String.eqb_refl].
Qed.

End SortFacts.

(* ===================================================================== *)
(** * The catalogue of templates *)
(* ===================================================================== *)

Module CatalogueFacts.
Import MemoEngine Catalogue.

Lemma In_dict_get {V : Type} (d : dict V) (k : string) (v : V) :
  keys_unique d -> In (k, v) d -> dict_get d k = Some v.
Proof.
  unfold keys_unique, dict_keys.
  induction d as [|[k' v'] d IH]; cbn; [tauto|].
  intros Hn [Heq | Hin].
  - injection Heq as -> ->. rewrite String.eqb_refl. reflexivity.
  - inversion Hn as [|? ? Hk Hd]; subst.
    destruct (String.eqb k k') eqn:E.
    + apply String.eqb_eq in E. subst k'. exfalso. apply Hk.
      apply (in_map fst) in Hin. exact Hin.
    + exact (IH Hd Hin).
Qed.

Lemma dict_get_keys {V : Type} (d : dict V) (k : string) :
  dict_get d k = None <-> ~ In k (dict_keys d).
Proof.
  unfold dict_keys. induction d as [|[k' v'] d IH]; cbn; [tauto|].
  destruct (String.eqb k k') eqn:E.
  - apply String.eqb_eq in E. subst. split; [discriminate | tauto].
  - rewrite IH. split.
    + intros Hn [-> | Hin]; [rewrite String.eqb_refl in E; discriminate | tauto].
    + tauto.
Qed.

Lemma dict_set_keys_absent {V : Type} (d : dict V) (k : string) (v : V) :
  dict_get d k = None -> dict_set d k v = (d ++ [(k, v)])%list.
Proof.
  induction d as [|[k' v'] d IH]; cbn; [reflexivity|].
  destruct (String.eqb k k'); [discriminate|].
  intros Hn. rewrite (IH Hn). reflexivity.
Qed.

Lemma dict_set_keys_present {V : Type} (d : dict V) (k : string) (v : V) :
  dict_get d k <> None -> dict_keys (dict_set d k v) = dict_keys d.
Proof.
  unfold dict_keys. induction d as [|[k' v'] d IH]; cbn; [congruence|].
  destruct (String.eqb k k') eqn:E; cbn; [reflexivity|].
  intros Hn. rewrite (IH Hn). reflexivity.
Qed.

Lemma dict_set_unique {V : Type} (d : dict V) (k : string) (v : V) :
  keys_unique d -> keys_unique (dict_set d k v).
Proof.
  unfold keys_unique. intros Hn.
  destruct (dict_get d k) eqn:E.
  - rewrite dict_set_keys_present; [exact Hn | congruence].
  - rewrite (dict_set_keys_absent _ _ _ E). unfold dict_keys. rewrite map_app. cbn.
    apply NoDup_app; [exact Hn | constructor; [tauto | constructor] |].
    intros x Hx [<- | []]. apply dict_get_keys in E. exact (E Hx).
Qed.

Lemma dict_del_unique {V : Type} (d : dict V) (k : string) :
  keys_unique d -> keys_unique (dict_del d k).
Proof.
  unfold keys_unique, dict_keys, dict_del.
  induction d as [|[k' v'] d IH]; cbn; [tauto|].
  intros Hn. inversion Hn as [|? ? Hk Hd]; subst.
  destruct (String.eqb k k'); cbn; [exact (IH Hd)|].
  constructor; [|exact (IH Hd)].
  intros Hin. apply Hk. apply in_map_iff in Hin. destruct Hin as ([k0 v0] & E & Hin).
  apply filter_In in Hin. apply in_map_iff. exists (k0, v0). tauto.
Qed.

Lemma keys_unique_check {V : Type} (d : dict V) :
  nodup String.string_dec (dict_keys d) = dict_keys d -> keys_unique d.
Proof. unfold keys_unique. intros <-. apply NoDup_nodup. Qed.

End CatalogueFacts.

Module EngineFacts.
Import MemoEngine Catalogue CatalogueFacts.

Section WithRuntime.
Context `{PyRuntime}.

Lemma from_dict_to_dict (t0 : PromptTemplate.t) :
  TemplateDict.from_dict (TemplateDict.to_dict t0) = PromptTemplate.new t0.
Proof. destruct t0. reflexivity. Qed.

Lemma new_valid (t0 : PromptTemplate.t) :
  Spec.structurally_valid t0 = true -> PromptTemplate.new t0 = inl t0.
Proof.
  intros Hv. unfold PromptTemplate.new.
  rewrite TemplateClaims.validate_template_spec in Hv.
  destruct (PromptTemplate._validate_template t0); [discriminate | reflexivity].
Qed.

Lemma new_invalid (t0 : PromptTemplate.t) :
  Spec.structurally_valid t0 = false ->
  exists m, PromptTemplate.new t0 = inr (TemplateValidationError m).
Proof.
  intros Hv. unfold PromptTemplate.new.
  rewrite TemplateClaims.validate_template_spec in Hv.
  destruct (PromptTemplate._validate_template t0) as [e|] eqn:E; [|discriminate].
  destruct (TemplateClaims.validate_template_class _ _ E) as [m ->]. eauto.
Qed.




Lemma clone_is_new (t0 : PromptTemplate.t) (new_name : string) :
  TemplateDict.clone t0 new_name = PromptTemplate.new (apply_update t0 (SetName new_name)).
Proof. destruct t0. reflexivity. Qed.

(** Counting a use leaves the catalogue as it is. *)
Lemma count_use_templates (e : PromptEngine.t) (name : string) :
  PromptEngine._templates (count_use e name) = PromptEngine._templates e.
Proof. reflexivity. Qed.

Lemma coherent_get (s : t) (name : string) (use_cache : bool) :
  coherent s -> coherent (snd (get_template s name use_cache)).
Proof.
  intros Hc. unfold get_template.
  destruct (dict_get (PromptEngine._templates (engine s)) name) as [template|] eqn:Et;
    [|exact Hc].
  destruct use_cache; [|exact Hc].
  unfold coherent in *.
  destruct (dict_get (memo s) name) as [cached|] eqn:Em; cbn [snd engine memo].
  - unfold memo_touch. apply Forall_app. split.
    + unfold dict_del. rewrite Forall_forall in *. intros kd Hin.
      apply filter_In in Hin. exact (Hc kd (proj1 Hin)).
    + constructor; [|constructor].
      rewrite Forall_forall in Hc. exact (Hc _ (dict_get_In _ _ _ Em)).
  - unfold memo_store. apply Forall_app. split.
    + destruct (DEFAULT_CACHE_SIZE <=? List.length (memo s)); [|exact Hc].
      destruct (memo s) as [|x m]; [constructor|]. cbn [tl].
      inversion Hc; assumption.
    + constructor; [|constructor]. exists template. cbn [fst snd]. auto.
Qed.

Lemma coherent_clone (s : t) (name new_name : string) (updates : list field_update) :
  coherent s -> coherent (snd (clone_template s name new_name updates)).
Proof.
  intros Hc. unfold clone_template.
  destruct (dict_get (PromptEngine._templates (engine s)) name) as [source|]; [|exact Hc].
  destruct (dict_mem (PromptEngine._templates (engine s)) new_name) eqn:Em; [exact Hc|].
  destruct (TemplateDict.clone source new_name) as [cloned0 | e]; [|exact Hc].
  unfold coherent in *. cbn [snd engine memo with_templates PromptEngine._templates].
  rewrite Forall_forall in *. intros kd Hin.
  destruct (Hc kd Hin) as (template & Hg & Hd).
  exists template. split; [|exact Hd].
  rewrite dict_get_set_other; [exact Hg|].
  intros E. rewrite <- E in Hg. unfold dict_mem in Em. rewrite Hg in Em. discriminate.
Qed.

Lemma coherent_import_one (overwrite : bool) (acc : ((nat * nat) + exn) * t)
                          (data : TemplateDict.t) :
  coherent (snd acc) -> coherent (snd (import_one overwrite acc data)).
Proof.
  destruct acc as [[[imported skipped] | e] s]; cbn [snd import_one]; [|tauto].
  intros Hc.
  destruct (dict_mem _ _ && negb overwrite); [exact Hc|].
  destruct (TemplateDict.from_dict data) as [template | e]; [constructor|].
  destruct e; exact Hc.
Qed.

Lemma coherent_import (overwrite : bool) (l : list TemplateDict.t) :
  forall acc, coherent (snd acc) ->
              coherent (snd (fold_left (import_one overwrite) l acc)).
Proof.
  induction l as [|data l IH]; intros acc Hc; cbn [fold_left]; [exact Hc|].
  apply IH, coherent_import_one, Hc.
Qed.

Lemma coherent_step (s : t) (o : op) : coherent s -> coherent (step s o).
Proof.
  intros Hc. destruct o as [name uc | template | name | name new_name updates | l ow];
    cbn [step].
  - apply coherent_get, Hc.
  - constructor.
  - unfold remove_template. destruct (dict_mem _ name); [constructor | exact Hc].
  - apply coherent_clone, Hc.
  - apply (coherent_import ow l (inl (0, 0), s)), Hc.
Qed.

Lemma coherent_exec (ops : list op) : forall s, coherent s -> coherent (exec s ops).
Proof.
  unfold exec. induction ops as [|o ops IH]; intros s Hc; cbn [fold_left]; [exact Hc|].
  apply IH, coherent_step, Hc.
Qed.

(** With a coherent memo the cached lookup builds its answer from the
    stored template. *)
Lemma get_template_coherent (s : t) (name : string) :
  coherent s ->
  fst (get_template s name true) = fst (PromptEngine.get_template (engine s) name)
  /\ engine (snd (get_template s name true))
     = snd (PromptEngine.get_template (engine s) name).
Proof.
  intros Hc. unfold get_template, PromptEngine.get_template.
  destruct (dict_get (PromptEngine._templates (engine s)) name) as [template|] eqn:Et;
    [|split; reflexivity].
  destruct (dict_get (memo s) name) as [cached|] eqn:Em; cbn [fst snd engine].
  - unfold coherent in Hc. rewrite Forall_forall in Hc.
    destruct (Hc _ (dict_get_In _ _ _ Em)) as (template' & Hg & Hd).
    cbn [fst snd] in Hg, Hd. rewrite Et in Hg. injection Hg as <-. subst cached.
    split; [apply from_dict_to_dict | reflexivity].
  - split; [apply from_dict_to_dict | reflexivity].
Qed.

(** X1: after any sequence of get, register, remove, clone and import
    operations on an engine whose memo was coherent at the start,
    [get_template(name)] returns what the constructor makes of the
    template now stored under [name], as if there were no memo: the
    lookup of [PromptEngine.get_template]. *)
Theorem memo_never_stale_without_enable_disable :
  forall (s0 : t) (ops : list op) (name : string),
    coherent s0 ->
    let s := exec s0 ops in
    fst (get_template s name true) = fst (PromptEngine.get_template (engine s) name)
    /\ engine (snd (get_template s name true))
       = snd (PromptEngine.get_template (engine s) name)
    /\ (forall template,
          dict_get (PromptEngine._templates (engine s)) name = Some template ->
          fst (get_template s name true) = PromptTemplate.new template).
Proof.
  intros s0 ops name Hc s.
  assert (Hs : coherent s) by (apply coherent_exec, Hc).
  destruct (get_template_coherent s name Hs) as [Hf He].
  split; [exact Hf|]. split; [exact He|].
  intros template Hg. rewrite Hf. unfold PromptEngine.get_template. rewrite Hg. reflexivity.
Qed.

Lemma In_dict_set_same {V : Type} (d : dict V) (k : string) (v x : V) :
  keys_unique d -> dict_get d k <> None -> In (k, v) (dict_set d k x) -> v = x.
Proof.
  intros Hu Hp Hin.
  assert (Hu' : keys_unique (dict_set d k x)) by (apply dict_set_unique, Hu).
  pose proof (In_dict_get _ _ _ Hu' Hin) as Hg.
  rewrite dict_get_set_same in Hg. congruence.
Qed.

(** X2: a template that was fetched once and is then disabled is still
    handed out as enabled by the cached lookup, although the catalogue,
    the uncached lookup and [list_templates] all see it disabled. *)
Theorem disable_template_not_seen_by_cached_lookup :
  forall (s : t) (name : string) (template : PromptTemplate.t),
    coherent s ->
    keys_unique (PromptEngine._templates (engine s)) ->
    dict_get (PromptEngine._templates (engine s)) name = Some template ->
    Spec.structurally_valid template = true ->
    let s1 := snd (get_template s name true) in
    let s2 := snd (disable_template s1 name) in
    fst (disable_template s1 name) = true
    /\ fst (get_template s2 name true) = inl template
    /\ fst (get_template s2 name false) = inl (set_enabled template false)
    /\ dict_get (PromptEngine._templates (engine s2)) name
       = Some (set_enabled template false)
    /\ ~ In name (list_templates s2 None None true).
Proof.
  intros s name template Hc Hu Hg Hv s1 s2.
  assert (Hm1 : dict_get (memo s1) name = Some (TemplateDict.to_dict template)).
  { subst s1. unfold get_template. rewrite Hg.
    destruct (dict_get (memo s) name) as [cached|] eqn:Em; cbn [snd memo].
    - unfold coherent in Hc. rewrite Forall_forall in Hc.
      destruct (Hc _ (dict_get_In _ _ _ Em)) as (template' & Hg' & Hd).
      cbn [fst snd] in Hg', Hd. rewrite Hg in Hg'. injection Hg' as <-. subst cached.
      unfold memo_touch. rewrite dict_get_app, dict_get_del_same. cbn.
      rewrite String.eqb_refl. reflexivity.
    - unfold memo_store. rewrite dict_get_app.
      assert (Hn : forall b : bool,
                 dict_get (if b then tl (memo s) else memo s) name = None).
      { intros [|]; [|exact Em].
        destruct (memo s) as [|[k d] m]; [reflexivity|]. cbn [tl]. cbn in Em.
        destruct (String.eqb name k); [discriminate | exact Em]. }
      rewrite Hn. cbn. rewrite String.eqb_refl. reflexivity. }
  assert (Ht1 : dict_get (PromptEngine._templates (engine s1)) name = Some template).
  { subst s1. unfold get_template. rewrite Hg. destruct (dict_get (memo s) name); exact Hg. }
  assert (Hd : disable_template s1 name
               = (true,
                  {| engine :=
                       with_templates (engine s1)
                         (dict_set (PromptEngine._templates (engine s1)) name
                                   (set_enabled template false))
                         (PromptEngine.set_discard
                            (PromptEngine._active_templates (engine s1)) name);
                     memo := memo s1 |})).
  { unfold disable_template. rewrite Ht1. reflexivity. }
  assert (Ht2 : dict_get (PromptEngine._templates (engine s2)) name
                = Some (set_enabled template false)).
  { subst s2. rewrite Hd. cbn [snd engine with_templates PromptEngine._templates].
    apply dict_get_set_same. }
  assert (Hm2 : memo s2 = memo s1) by (subst s2; rewrite Hd; reflexivity).
  split; [rewrite Hd; reflexivity|].
  split; [|split; [|split; [exact Ht2|]]].
  - unfold get_template. rewrite Ht2, Hm2, Hm1. cbn [fst].
    rewrite from_dict_to_dict. apply new_valid, Hv.
  - unfold get_template. rewrite Ht2. reflexivity.
  - unfold list_templates. rewrite SortFacts.sorted_In, in_map_iff.
    intros ([k v] & Hk & Hin). cbn [fst] in Hk. subst k.
    apply filter_In in Hin. destruct Hin as [Hin Hl]. cbn [snd] in Hl.
    subst s2. rewrite Hd in Hin. cbn [snd engine with_templates PromptEngine._templates] in Hin.
    assert (Hv' : v = set_enabled template false).
    { apply (In_dict_set_same _ _ _ _) in Hin; [exact Hin | | congruence].
      subst s1. unfold get_template. rewrite Hg.
      destruct (dict_get (memo s) name); exact Hu. }
    subst v. unfold listed in Hl. cbn in Hl. discriminate.
Qed.

(** X3: [from_dict(to_dict(t))] gives [t] back exactly when [t] passes
    the constructor's validation and raises [TemplateValidationError]
    otherwise; [clone(new_name)] does the same for [t] with its name
    replaced, so a clone differs from its source in the name only. *)
Theorem to_dict_from_dict_round_trip :
  forall (t0 : PromptTemplate.t) (new_name : string),
    match TemplateDict.from_dict (TemplateDict.to_dict t0) with
    | inl r => r = t0 /\ Spec.structurally_valid t0 = true
    | inr e => Spec.structurally_valid t0 = false /\ exists m, e = TemplateValidationError m
    end
    /\ match TemplateDict.clone t0 new_name with
       | inl r =>
           r = apply_update t0 (SetName new_name)
           /\ PromptTemplate.name r = new_name
           /\ TemplateDict.set_name (TemplateDict.to_dict t0) new_name = TemplateDict.to_dict r
       | inr e =>
           Spec.structurally_valid (apply_update t0 (SetName new_name)) = false
           /\ exists m, e = TemplateValidationError m
       end.
Proof.
  intros t0 new_name. split.
  - rewrite from_dict_to_dict.
    destruct (Spec.structurally_valid t0) eqn:Hv.
    + rewrite (new_valid _ Hv). auto.
    + destruct (new_invalid _ Hv) as [m ->]. eauto.
  - rewrite clone_is_new.
    destruct (Spec.structurally_valid (apply_update t0 (SetName new_name))) eqn:Hv.
    + rewrite (new_valid _ Hv). destruct t0. auto.
    + destruct (new_invalid _ Hv) as [m ->]. eauto.
Qed.

(** X4: [clone_template] raises [TemplateNotFoundError] when the source is
    missing, [TemplateValidationError] when the new name is taken or the
    renamed copy fails the constructor's validation, and then changes
    nothing.  Otherwise it returns the renamed copy with the updates
    assigned, stores it under the new name and leaves every other entry
    and the memo as they were. *)
Theorem clone_template_outcomes :
  forall (s : t) (name new_name : string) (updates : list field_update),
    let templates := PromptEngine._templates (engine s) in
    match clone_template s name new_name updates with
    | (inl cloned, s') =>
        exists source,
          dict_get templates name = Some source
          /\ dict_get templates new_name = None
          /\ Spec.structurally_valid (apply_update source (SetName new_name)) = true
          /\ cloned = fold_left apply_update updates (apply_update source (SetName new_name))
          /\ dict_get (PromptEngine._templates (engine s')) new_name = Some cloned
          /\ (forall k, k <> new_name ->
                dict_get (PromptEngine._templates (engine s')) k = dict_get templates k)
          /\ memo s' = memo s
    | (inr e, s') =>
        s' = s
        /\ match dict_get templates name with
           | None => e = TemplateNotFoundError ("Template '" ++ name ++ "' not found")
           | Some source =>
               if dict_mem templates new_name
               then e = TemplateValidationError
                          ("Template '" ++ new_name ++ "' already exists")
               else Spec.structurally_valid (apply_update source (SetName new_name)) = false
                    /\ exists m, e = TemplateValidationError m
           end
    end.
Proof.
  intros s name new_name updates templates. unfold clone_template. fold templates.
  destruct (dict_get templates name) as [source|] eqn:Es; [|split; reflexivity].
  destruct (dict_mem templates new_name) eqn:Em; [split; reflexivity|].
  rewrite clone_is_new.
  destruct (Spec.structurally_valid (apply_update source (SetName new_name))) eqn:Hv.
  - rewrite (new_valid _ Hv). exists source.
    cbn [engine memo with_templates PromptEngine._templates].
    split; [reflexivity|].
    split; [unfold dict_mem in Em; destruct (dict_get templates new_name);
            [discriminate | reflexivity]|].
    split; [exact Hv|]. split; [reflexivity|].
    split; [apply dict_get_set_same|].
    split; [|reflexivity].
    intros k Hk. apply dict_get_set_other. congruence.
  - destruct (new_invalid _ Hv) as [m ->]. split; [reflexivity|]. eauto.
Qed.

(** No entry of a coherent memo belongs to a name the catalogue lacks. *)
Lemma coherent_absent (s : t) (name : string) :
  coherent s -> dict_get (PromptEngine._templates (engine s)) name = None ->
  dict_get (memo s) name = None.
Proof.
  intros Hc Hn. destruct (dict_get (memo s) name) as [d|] eqn:E; [|reflexivity].
  unfold coherent in Hc. rewrite Forall_forall in Hc.
  destruct (Hc _ (dict_get_In _ _ _ E)) as (template & Hg & _).
  cbn [fst] in Hg. congruence.
Qed.

(** X5: the updates of [clone_template] are assigned after the
    constructor ran, so a clone that fails the structural checks is stored
    all the same; [get_template] then raises [TemplateValidationError] for
    it, while the uncached lookup and [list_templates] hand it out. *)
Theorem clone_updates_skip_validation :
  forall (s s' : t) (name new_name : string) (updates : list field_update)
         (cloned : PromptTemplate.t),
    coherent s ->
    clone_template s name new_name updates = (inl cloned, s') ->
    Spec.structurally_valid cloned = false ->
    (exists m, fst (get_template s' new_name true) = inr (TemplateValidationError m))
    /\ fst (get_template s' new_name false) = inl cloned
    /\ In new_name (list_templates s' None None false).
Proof.
  intros s s' name new_name updates cloned Hc Hclone Hv.
  pose proof (clone_template_outcomes s name new_name updates) as Hspec.
  cbv zeta in Hspec. rewrite Hclone in Hspec.
  destruct Hspec as (source & Hs & Hn & _ & _ & Hg & _ & Hm).
  assert (Hmemo : dict_get (memo s') new_name = None)
    by (rewrite Hm; apply coherent_absent; assumption).
  split; [|split].
  - unfold get_template. rewrite Hg, Hmemo. cbn [fst].
    rewrite from_dict_to_dict. apply new_invalid, Hv.
  - unfold get_template. rewrite Hg. reflexivity.
  - unfold list_templates. rewrite SortFacts.sorted_In, in_map_iff.
    exists (new_name, cloned). split; [reflexivity|].
    apply filter_In. split; [apply dict_get_In, Hg | reflexivity].
Qed.

Lemma listed_spec (category : option string) (tags : option (list string))
                  (enabled_only : bool) (template : PromptTemplate.t) :
  listed category tags enabled_only template = true <->
  (enabled_only = true -> PromptTemplate.enabled template = true)
  /\ (forall c, category = Some c -> c <> EmptyString ->
                PromptTemplate.category template = c)
  /\ (forall wanted tag, tags = Some wanted -> In tag wanted ->
                         In tag (PromptTemplate.tags template)).
Proof.
  unfold listed. rewrite !andb_true_iff. split.
  - intros [[He Hcat] Htags]. split; [|split].
    + intros ->. exact He.
    + intros c -> Hc. destruct c; [congruence|]. cbn in Hcat.
      apply String.eqb_eq, Hcat.
    + intros wanted tag -> Hin. rewrite forallb_forall in Htags.
      apply SortFacts.mem_In, Htags, Hin.
  - intros (He & Hcat & Htags). split; [split|].
    + destruct enabled_only; [apply He; reflexivity | reflexivity].
    + destruct category as [c|]; [|reflexivity].
      destruct c as [|a c]; [reflexivity|]. cbn [PyStr.truthy negb orb].
      apply String.eqb_eq, Hcat; [reflexivity | discriminate].
    + destruct tags as [wanted|]; [|reflexivity].
      apply forallb_forall. intros tag Hin. apply SortFacts.mem_In.
      exact (Htags wanted tag eq_refl Hin).
Qed.

Lemma keys_unique_filter {V : Type} (p : string * V -> bool) (d : dict V) :
  keys_unique d -> NoDup (map fst (filter p d)).
Proof.
  unfold keys_unique, dict_keys. induction d as [|[k v] d IH]; cbn; [constructor|].
  intros Hn. inversion Hn as [|? ? Hk Hd]; subst.
  destruct (p (k, v)); cbn; [|exact (IH Hd)].
  constructor; [|exact (IH Hd)].
  intros Hin. apply Hk. apply in_map_iff in Hin. destruct Hin as (kv & E & Hin).
  apply filter_In in Hin. apply in_map_iff. exists kv. tauto.
Qed.

(** X6: [list_templates] returns, in ascending order and without
    repetition, exactly the names of the stored templates that are enabled
    (when [enabled_only] is set), have the wanted category (when one is
    given and is not empty) and carry every wanted tag. *)
Theorem list_templates_sorted_and_exact :
  forall (s : t) (category : option string) (tags : option (list string))
         (enabled_only : bool),
    keys_unique (PromptEngine._templates (engine s)) ->
    let names := list_templates s category tags enabled_only in
    StronglySorted str_le names
    /\ NoDup names
    /\ forall name,
         In name names <->
         exists template,
           dict_get (PromptEngine._templates (engine s)) name = Some template
           /\ (enabled_only = true -> PromptTemplate.enabled template = true)
           /\ (forall c, category = Some c -> c <> EmptyString ->
                         PromptTemplate.category template = c)
           /\ (forall wanted tag, tags = Some wanted -> In tag wanted ->
                                  In tag (PromptTemplate.tags template)).
Proof.
  intros s category tags enabled_only Hu names. subst names. unfold list_templates.
  split; [apply SortFacts.sorted_ascending|].
  split; [apply SortFacts.sorted_NoDup, keys_unique_filter, Hu|].
  intros name. rewrite SortFacts.sorted_In, in_map_iff. split.
  - intros ([k template] & Hk & Hin). cbn [fst] in Hk. subst k.
    apply filter_In in Hin. destruct Hin as [Hin Hl]. cbn [snd] in Hl.
    exists template. split; [exact (In_dict_get _ _ _ Hu Hin)|].
    apply listed_spec, Hl.
  - intros (template & Hg & Hl). exists (name, template). split; [reflexivity|].
    apply filter_In. split; [apply dict_get_In, Hg|].
    cbn [snd]. apply listed_spec, Hl.
Qed.





Lemma export_all (d : dict PromptTemplate.t) :
  keys_unique d ->
  flat_map (fun name => match dict_get d name with
                        | Some template => [TemplateDict.to_dict template]
                        | None => []
                        end) (dict_keys d)
  = map (fun kv => TemplateDict.to_dict (snd kv)) d.
Proof.
  intros Hu.
  assert (Hall : forall l, incl l d ->
            flat_map (fun name => match dict_get d name with
                                  | Some template => [TemplateDict.to_dict template]
                                  | None => []
                                  end) (dict_keys l)
            = map (fun kv => TemplateDict.to_dict (snd kv)) l).
  { induction l as [|[k v] l IH]; intros Hincl; cbn; [reflexivity|].
    rewrite (In_dict_get d k v Hu); [|apply Hincl; left; reflexivity].
    cbn. f_equal. apply IH. intros x Hx. apply Hincl. right. exact Hx. }
  apply Hall, incl_refl.
Qed.

Lemma import_rebuilds (overwrite : bool) (rest : dict PromptTemplate.t) :
  forall (done : dict PromptTemplate.t) (imported : nat) (s : t),
    well_formed (done ++ rest)%list ->
    PromptEngine._templates (engine s) = done ->
    let r := fold_left (import_one overwrite)
                       (map (fun kv => TemplateDict.to_dict (snd kv)) rest)
                       (inl (imported, 0), s) in
    fst r = inl (imported + List.length rest, 0)
    /\ PromptEngine._templates (engine (snd r)) = (done ++ rest)%list.
Proof.
  induction rest as [|[k v] rest IH]; intros done imported s Hwf Hs r; subst r;
    cbn [map fold_left List.length].
  - cbn [fst snd]. rewrite app_nil_r, Nat.add_0_r. auto.
  - destruct Hwf as [Hu Hall].
    assert (Hkv : PromptTemplate.name v = k /\ PromptTemplate.new v = inl v).
    { rewrite Forall_forall in Hall. apply (Hall (k, v)).
      apply in_or_app. right. left. reflexivity. }
    destruct Hkv as [Hname Hnew].
    assert (Habsent : dict_get done k = None).
    { apply dict_get_keys. intros Hin. unfold keys_unique, dict_keys in Hu.
      rewrite map_app in Hu. cbn in Hu. apply NoDup_remove_2 in Hu. apply Hu.
      apply in_or_app. left. exact Hin. }
    cbn [import_one snd TemplateDict.to_dict TemplateDict.d_name or_default].
    rewrite Hname, Hs. unfold dict_mem. rewrite Habsent. cbn [andb].
    change (TemplateDict.from_dict _) with (TemplateDict.from_dict (TemplateDict.to_dict v)).
    rewrite from_dict_to_dict, Hnew.
    assert (Hwf' : well_formed ((done ++ [(k, v)]) ++ rest)%list)
      by (rewrite <- app_assoc; split; assumption).
    destruct (IH (done ++ [(k, v)])%list (imported + 1) (register_template s v) Hwf')
      as [Hr Ht].
    { cbn [register_template engine PromptEngine.register_template
           PromptEngine._templates].
      rewrite Hs, Hname. apply dict_set_keys_absent, Habsent. }
    split.
    + rewrite Hr. f_equal. f_equal. lia.
    + rewrite Ht, <- app_assoc. reflexivity.
Qed.

(** X8: exporting a catalogue in which every template is stored under
    its own name and passes validation, and importing the export into a
    new engine, imports every entry, skips none and rebuilds the same
    catalogue in the same order. *)
Theorem export_then_import_rebuilds_catalogue :
  forall (s : t) (overwrite : bool),
    well_formed (PromptEngine._templates (engine s)) ->
    let r := import_templates empty (export_templates s None) overwrite in
    fst r = inl (List.length (PromptEngine._templates (engine s)), 0)
    /\ PromptEngine._templates (engine (snd r)) = PromptEngine._templates (engine s).
Proof.
  intros s overwrite Hwf r. subst r. unfold import_templates, export_templates.
  cbn [or_default]. rewrite (export_all _ (proj1 Hwf)).
  exact (import_rebuilds overwrite (PromptEngine._templates (engine s)) [] 0 empty
                         Hwf eq_refl).
Qed.

(** X9: with the default fields, [search_templates] returns, in ascending
    order and without repetition, exactly the names of the stored
    templates whose lower-cased name, description or one of whose
    lower-cased tags contains the lower-cased query. *)
Theorem search_templates_sorted_and_exact :
  forall (s : t) (query : string),
    keys_unique (PromptEngine._templates (engine s)) ->
    let names := search_templates s query None in
    let q := PyList.lower query in
    StronglySorted str_le names
    /\ NoDup names
    /\ forall name,
         In name names <->
         exists template,
           dict_get (PromptEngine._templates (engine s)) name = Some template
           /\ (PyStr.contains q (PyList.lower (PromptTemplate.name template)) = true
               \/ PyStr.contains q (PyList.lower (PromptTemplate.description template)) = true
               \/ exists tag, In tag (PromptTemplate.tags template)
                              /\ PyStr.contains q (PyList.lower tag) = true).
Proof.
  intros s query Hu names q. subst names. unfold search_templates. cbn [or_default].
  fold q.
  assert (Hm : forall template,
             existsb (field_matches q template) [FieldName; FieldDescription; FieldTags]
             = true <->
             (PyStr.contains q (PyList.lower (PromptTemplate.name template)) = true
              \/ PyStr.contains q (PyList.lower (PromptTemplate.description template)) = true
              \/ exists tag, In tag (PromptTemplate.tags template)
                             /\ PyStr.contains q (PyList.lower tag) = true)).
  { intros template. cbn [existsb field_matches field_of].
    rewrite orb_false_r, !orb_true_iff, existsb_exists. tauto. }
  split; [apply SortFacts.sorted_ascending|].
  split; [apply SortFacts.sorted_NoDup, keys_unique_filter, Hu|].
  intros name. rewrite SortFacts.sorted_In, in_map_iff. split.
  - intros ([k template] & Hk & Hin). cbn [fst] in Hk. subst k.
    apply filter_In in Hin. destruct Hin as [Hin Hl]. cbn [snd] in Hl.
    exists template. split; [exact (In_dict_get _ _ _ Hu Hin) | apply Hm, Hl].
  - intros (template & Hg & Hl). exists (name, template). split; [reflexivity|].
    apply filter_In. split; [apply dict_get_In, Hg | apply Hm, Hl].
Qed.

(** X10: [remove_template] returns [False] and changes nothing when the
    name is not in the catalogue.  Otherwise it returns [True]; the name
    is then gone from the catalogue and from the active set, the memo is
    empty, every other entry is untouched, and [get_template] raises
    [TemplateNotFoundError] for the name, cached or not. *)
Theorem remove_template_outcomes :
  forall (s : t) (name : string),
    let templates := PromptEngine._templates (engine s) in
    match remove_template s name with
    | (true, s') =>
        dict_get templates name <> None
        /\ dict_get (PromptEngine._templates (engine s')) name = None
        /\ (forall k, k <> name ->
              dict_get (PromptEngine._templates (engine s')) k = dict_get templates k)
        /\ ~ In name (PromptEngine._active_templates (engine s'))
        /\ memo s' = []
        /\ forall use_cache,
             get_template s' name use_cache
             = (inr (TemplateNotFoundError ("Template '" ++ name ++ "' not found")), s')
    | (false, s') => s' = s /\ dict_get templates name = None
    end.
Proof.
  intros s name templates. unfold remove_template, PromptEngine.remove_template.
  fold templates. unfold dict_mem.
  destruct (dict_get templates name) as [template|] eqn:Eg; [|auto].
  cbn [snd engine memo PromptEngine._templates PromptEngine._active_templates].
  assert (Hgone : dict_get (dict_del templates name) name = None)
    by apply dict_get_del_same.
  split; [discriminate|]. split; [exact Hgone|].
  split; [intros k Hk; apply dict_get_del_other; congruence|].
  split.
  - unfold PromptEngine.set_discard. intros Hin. apply filter_In in Hin.
    destruct Hin as [_ Hne]. rewrite String.eqb_refl in Hne. discriminate.
  - split; [reflexivity|]. intros use_cache. unfold get_template.
    cbn [engine PromptEngine._templates]. rewrite Hgone. reflexivity.
Qed.

End WithRuntime.
End EngineFacts.

(* ===================================================================== *)
(** * What one call of [generate] does to the generator *)
(* ===================================================================== *)

Module EffectFacts.
Import ContentGenerator Effects.

Lemma Qplus_0_r_eq (q : Q) : (q == q + 0)%Q.
Proof. symmetry. apply Qplus_0_r. Qed.

Lemma evict_length (max_size : nat) (d : dict LRUCache.entry) :
  0 < max_size -> List.length (LRUCache.evict max_size d) < max_size.
Proof.
  intros Hpos. induction d as [|x d IH]; cbn [LRUCache.evict]; [cbn; lia|].
  destruct (max_size <=? List.length (x :: d)) eqn:E; [exact IH|].
  apply Nat.leb_gt in E. exact E.
Qed.

Lemma set_length max_size ttl c key v now now' :
  0 < max_size ->
  LRUCache.len (LRUCache.set max_size ttl c key v now now') <= max_size.
Proof.
  intros Hpos. unfold LRUCache.len, LRUCache.set. cbn [LRUCache._cache].
  rewrite length_app. cbn [List.length].
  pose proof (evict_length max_size
                (if dict_mem (LRUCache._cache c) key
                 then dict_del (LRUCache._cache c) key else LRUCache._cache c) Hpos).
  lia.
Qed.

Lemma dict_del_length {V : Type} (d : dict V) (k : string) :
  List.length (dict_del d k) <= List.length d.
Proof. unfold dict_del. apply filter_length_le. Qed.

Lemma dict_del_length_lt {V : Type} (d : dict V) (k : string) (v : V) :
  dict_get d k = Some v -> List.length (dict_del d k) < List.length d.
Proof.
  unfold dict_del. induction d as [|[k' v'] d IH]; cbn; [discriminate|].
  destruct (String.eqb k k') eqn:E; cbn.
  - intros _. pose proof (filter_length_le (fun kv => negb (String.eqb k (fst kv))) d). lia.
  - intros Hg. specialize (IH Hg). lia.
Qed.

Lemma get_length c key now :
  LRUCache.len (snd (LRUCache.get c key now)) <= LRUCache.len c.
Proof.
  unfold LRUCache.get, LRUCache.len.
  destruct (dict_get (LRUCache._cache c) key) as [e|] eqn:E; cbn [snd LRUCache._cache];
    [|lia].
  destruct (LRUCache.expires_at e <? now)%Z; cbn [snd LRUCache._cache].
  - apply dict_del_length.
  - unfold LRUCache.move_to_end. rewrite E, length_app. cbn [List.length].
    pose proof (dict_del_length_lt _ _ _ E). lia.
Qed.

Lemma update_data_length d key v :
  List.length (LRUCache.update_data d key v) = List.length d.
Proof.
  induction d as [|[k e] d IH]; cbn; [reflexivity|].
  destruct (String.eqb key k); cbn; [reflexivity | rewrite IH; reflexivity].
Qed.

Section WithWorld.
Context `{PyRuntime} `{ApiManager}.

(** A failed result built from the base result. *)
Lemma failed_effects g env uc tn merged msg :
  of_result g env uc (Result.set_error (base_result tn merged env) msg)
            (_add_to_history g (Result.set_error (base_result tn merged env) msg)).
Proof.
  constructor; unfold invoked, charged; gen_fields.
  - auto.
  - reflexivity.
  - rewrite app_nil_r. reflexivity.
  - apply Qplus_0_r_eq.
  - tauto.
  - auto.
Qed.

Lemma remote_effects g env tn merged template p key ov retry o g' :
  generate_remote g env (base_result tn merged env) template p key ov retry = (o, g') ->
  exists r, o = inl r /\ of_result g env false r g'.
Proof.
  unfold generate_remote, return_failed.
  destruct (negb (api_manager g));
    [intros [= <- <-]; eexists; split; [reflexivity | apply failed_effects]|].
  destruct (GenerateFacts.call_api_spec g p (apply_recommendations ov template) retry)
    as (r & calls & -> & _ & _).
  destruct (negb (ApiResponse.success r)); intros [= <- <-];
    (eexists; split; [reflexivity|]).
  - constructor; unfold invoked, charged; gen_fields.
    + auto.
    + reflexivity.
    + rewrite app_nil_r. reflexivity.
    + apply Qplus_0_r_eq.
    + tauto.
    + auto.
  - constructor; unfold invoked, charged; gen_fields.
    + auto.
    + reflexivity.
    + reflexivity.
    + reflexivity.
    + intros _. apply set_length. unfold MAX_CACHE_SIZE. lia.
    + auto.
Qed.

Lemma cached_effects g env tn merged template p key ov uc retry o g' :
  Spec.invariant g ->
  generate_cached g env (base_result tn merged env) template p key ov uc retry = (o, g') ->
  exists r, o = inl r /\ of_result g env uc r g'.
Proof.
  intros Hinv. unfold generate_cached.
  destruct uc.
  - destruct (LRUCache.get (_cache (with_counters g (_cache_checks g + 1) (_cache_hits g)))
                           key (env_now_get env)) as [[cached_result|] c] eqn:Eg.
    + intros [= <- <-]. eexists. split; [reflexivity|].
      assert (Hs : Result.success cached_result = true).
      { destruct (CacheFacts.get_hit _ _ _ _ _ Eg) as ((e & Hin & <-) & _).
        exact (Spec.inv_cached_success g Hinv _ _ Hin). }
      pose proof (get_length (_cache g) key (env_now_get env)) as Hlen.
      change (_cache (with_counters g (_cache_checks g + 1) (_cache_hits g)))
        with (_cache g) in Eg.
      rewrite Eg in Hlen. cbn [snd] in Hlen.
      constructor; unfold invoked, charged; gen_fields.
      * auto.
      * reflexivity.
      * rewrite Hs. reflexivity.
      * apply Qplus_0_r_eq.
      * intros Hb. unfold LRUCache.len in *. cbn [LRUCache._cache].
        rewrite update_data_length. lia.
      * discriminate.
    + intros Hr. apply remote_effects in Hr. destruct Hr as (r & -> & Hr).
      exists r. split; [reflexivity|].
      pose proof (get_length (_cache g) key (env_now_get env)) as Hlen.
      change (_cache (with_counters g (_cache_checks g + 1) (_cache_hits g)))
        with (_cache g) in Eg.
      rewrite Eg in Hlen. cbn [snd] in Hlen.
      destruct Hr as [Hids Hcb Hlog Hcost Hbound _]. revert Hcb Hlog Hcost Hbound.
      unfold invoked. gen_fields. intros Hcb Hlog Hcost Hbound.
      constructor; unfold invoked; try assumption; [|discriminate].
      intros Hb. apply Hbound. lia.
  - intros Hr. apply remote_effects in Hr. destruct Hr as (r & -> & Hr).
    exists r. split; [reflexivity|].
    destruct Hr as [Hids Hcb Hlog Hcost Hbound Hno]. revert Hcb Hlog Hcost Hbound Hno.
    unfold invoked. gen_fields. intros Hcb Hlog Hcost Hbound Hno.
    constructor; unfold invoked; assumption.
Qed.

Lemma of_result_engine g engine env uc r g' :
  of_result (with_engine g engine) env uc r g' -> of_result g env uc r g'.
Proof.
  intros [Hids Hcb Hlog Hcost Hbound Hno].
  revert Hcb Hlog Hcost Hbound Hno. unfold invoked. gen_fields.
  intros Hcb Hlog Hcost Hbound Hno. constructor; unfold invoked; assumption.
Qed.

Lemma try_effects g env tn merged ov uc retry o g' :
  Spec.invariant g ->
  generate_try g env tn merged ov uc retry = (o, g') ->
  of_stage g env uc o g'.
Proof.
  intros Hinv. unfold generate_try, return_failed.
  destruct (Utils.validate_input tn merged) as [[|] error_msg];
    [|intros [= <- <-]; apply failed_effects].
  destruct (PromptEngine.get_template (prompt_engine g) tn) as [found engine].
  assert (Hinv1 : Spec.invariant (with_engine g engine))
    by (apply InvariantFacts.invariant_engine, Hinv).
  destruct found as [template | e].
  - destruct (PromptTemplate.generate template merged true true) as [prompt_text | e].
    + intros Hr. apply (cached_effects _ _ _ _ _ _ _ _ _ _ _ _ Hinv1) in Hr.
      destruct Hr as (r & -> & Hr). exact (of_result_engine _ _ _ _ _ _ Hr).
    + destruct e; intros [= <- <-];
        first [ apply (of_result_engine g engine), failed_effects
              | constructor; reflexivity ].
  - destruct e; intros [= <- <-];
      first [ apply (of_result_engine g engine), failed_effects
            | constructor; reflexivity ].
Qed.

(** [generate] returns a result, with the effects of [of_result]. *)
Lemma generate_effects g env tn variables uc retry kwargs :
  Spec.invariant g ->
  exists r g',
    generate g env tn variables uc retry kwargs = (Returned r, g')
    /\ of_result g env uc r g'.
Proof.
  intros Hinv. unfold generate.
  destruct (generate_try _ _ _ _ _ _ _) as [[r | e] g'] eqn:E;
    apply (try_effects _ _ _ _ _ _ _ _ _ Hinv) in E; cbn [of_stage] in E.
  - exists r, g'. split; [reflexivity | exact E].
  - eexists _, _. split; [reflexivity|].
    destruct E as [Hcb Hlog Hcost Hc Hh].
    constructor; unfold invoked, charged; gen_fields.
    + auto.
    + exact Hcb.
    + rewrite app_nil_r. exact Hlog.
    + rewrite Hcost. apply Qplus_0_r_eq.
    + rewrite Hc. tauto.
    + rewrite Hc, Hh. auto.
Qed.

(** Every generator a client can reach keeps the invariant and the bound
    of the cache. *)
Lemma step_bound g o :
  Spec.invariant g -> LRUCache.len (_cache g) <= MAX_CACHE_SIZE ->
  LRUCache.len (_cache (Session.step g o)) <= MAX_CACHE_SIZE.
Proof.
  intros Hinv Hb. destruct o as [c | | | r | name | cb]; cbn [Session.step].
  - unfold Session.run_call.
    destruct (generate_effects g (Session.call_env_ c) (Session.call_template_name c)
                (Session.call_variables c) (Session.call_use_cache c)
                (Session.call_retry_on_failure c) (Session.call_kwargs c) Hinv)
      as (r & g' & -> & He).
    cbn [snd]. exact (cache_bound _ _ _ _ _ He Hb).
  - unfold clear_cache, LRUCache.clear. cbn. lia.
  - exact Hb.
  - unfold Session.register_template. destruct (create_template _ _ _ _ _ _); exact Hb.
  - exact Hb.
  - exact Hb.
Qed.

Lemma exec_bound ops : forall g,
  Spec.invariant g -> LRUCache.len (_cache g) <= MAX_CACHE_SIZE ->
  LRUCache.len (_cache (Session.exec g ops)) <= MAX_CACHE_SIZE.
Proof.
  unfold Session.exec. induction ops as [|o ops IH]; intros g Hinv Hb; cbn [fold_left];
    [exact Hb|].
  apply IH; [apply InvariantFacts.step_invariant, Hinv | apply step_bound; assumption].
Qed.

(** X11: whatever a client does with a generator, its result cache never
    holds more than 100 entries. *)
Theorem result_cache_never_exceeds_100_entries :
  forall sid start has_api engine threshold (ops : list Session.op),
    LRUCache.len (_cache (Session.exec (init sid start has_api engine threshold) ops))
    <= 100.
Proof.
  intros sid start has_api engine threshold ops.
  apply exec_bound; [apply InvariantFacts.invariant_init|]. cbn. lia.
Qed.

(** X12: in every generator a client can reach, a call of [generate]
    leaves the list of callbacks as it is and invokes the callbacks only
    for a successful result: then each registered callback is called once
    with the result, in registration order; a failed result reaches no
    callback. *)
Theorem callbacks_invoked_only_on_success :
  forall sid start has_api engine threshold (ops : list Session.op) (c : Session.call),
    let g := Session.exec (init sid start has_api engine threshold) ops in
    exists r g',
      Session.run_call g c = (Returned r, g')
      /\ _callbacks g' = _callbacks g
      /\ callback_log g'
         = (callback_log g
            ++ (if Result.success r then map (fun cb => (cb, r)) (_callbacks g) else []))%list.
Proof.
  intros sid start has_api engine threshold ops c g.
  assert (Hinv : Spec.invariant g)
    by (apply InvariantFacts.exec_invariant, InvariantFacts.invariant_init).
  unfold Session.run_call.
  destruct (generate_effects g (Session.call_env_ c) (Session.call_template_name c)
              (Session.call_variables c) (Session.call_use_cache c)
              (Session.call_retry_on_failure c) (Session.call_kwargs c) Hinv)
    as (r & g' & -> & He).
  exists r, g'. split; [reflexivity|].
  split; [exact (callbacks_kept _ _ _ _ _ He) | exact (log _ _ _ _ _ He)].
Qed.

Lemma qsum_cons (x : Q) (l : list Q) : (qsum (x :: l) == x + qsum l)%Q.
Proof.
  unfold qsum. cbn [fold_left].
  assert (Hg : forall a, (fold_left Qplus l a == a + fold_left Qplus l 0)%Q).
  { induction l as [|y l IH]; intros a; cbn [fold_left]; [ring|].
    rewrite (IH (a + y)%Q), (IH (0 + y)%Q). ring. }
  rewrite (Hg (0 + x)%Q). ring.
Qed.

Lemma run_total_cost calls : forall g,
  Spec.invariant g ->
  (_total_cost (snd (Session.run g calls))
   == _total_cost g + qsum (map charged (Spec.records (fst (Session.run g calls)))))%Q.
Proof.
  induction calls as [|c calls IH]; intros g Hinv; cbn [Session.run].
  - cbn. ring.
  - unfold Session.run_call.
    destruct (generate_effects g (Session.call_env_ c) (Session.call_template_name c)
                (Session.call_variables c) (Session.call_use_cache c)
                (Session.call_retry_on_failure c) (Session.call_kwargs c) Hinv)
      as (r & g1 & E & He).
    assert (Hinv1 : Spec.invariant g1).
    { destruct (InvariantFacts.generate_ok g (Session.call_env_ c)
                  (Session.call_template_name c) (Session.call_variables c)
                  (Session.call_use_cache c) (Session.call_retry_on_failure c)
                  (Session.call_kwargs c) Hinv) as (r' & g1' & E' & Hi & _).
      rewrite E in E'. injection E' as _ <-. exact Hi. }
    rewrite E. specialize (IH g1 Hinv1).
    destruct (Session.run g1 calls) as [outs g2]. cbn [fst snd] in IH |- *.
    cbn [Spec.records map]. rewrite IH, qsum_cons, (total_cost _ _ _ _ _ He). ring.
Qed.

(** X13: [_total_cost] of a generator is the sum of the costs of the
    results [generate] returned that did not come from the cache: a cached
    replay is not charged again, and clearing or trimming the history does
    not change the total. *)
Theorem total_cost_charges_each_fresh_result_once :
  forall sid start has_api engine threshold (calls : list Session.call),
    let g0 := init sid start has_api engine threshold in
    let results := Spec.records (fst (Session.run g0 calls)) in
    let g := snd (Session.run g0 calls) in
    (_total_cost g
     == qsum (map Result.cost (filter (fun r => negb (Result.cached r)) results)))%Q
    /\ _total_cost (snd (clear_history g)) = _total_cost g.
Proof.
  intros sid start has_api engine threshold calls g0 results g.
  split; [|reflexivity].
  pose proof (run_total_cost calls g0 (InvariantFacts.invariant_init _ _ _ _ _)) as Hr.
  fold g in Hr. fold results in Hr. rewrite Hr.
  change (_total_cost g0) with 0%Q. rewrite Qplus_0_l.
  clear. induction results as [|r l IH]; cbn [map filter]; [reflexivity|].
  rewrite qsum_cons. unfold charged at 1.
  destruct (Result.cached r); cbn [negb map].
  - rewrite IH. ring.
  - rewrite qsum_cons, IH. reflexivity.
Qed.


Lemma generate_total g env tn variables uc retry kwargs :
  Spec.invariant g ->
  exists r g',
    generate g env tn variables uc retry kwargs = (Returned r, g')
    /\ Spec.invariant g' /\ of_result g env uc r g'.
Proof.
  intros Hinv.
  destruct (generate_effects g env tn variables uc retry kwargs Hinv) as (r & g' & E & He).
  destruct (InvariantFacts.generate_ok g env tn variables uc retry kwargs Hinv)
    as (r' & g1' & E' & Hi & _).
  rewrite E in E'. injection E' as _ <-.
  exists r, g'. auto.
Qed.





Lemma variations_loop_spec envs tn variables count range indices : forall g,
  Spec.invariant g ->
  exists vs g',
    Generator.variations_loop g envs tn variables count range indices = (Returned vs, g')
    /\ Spec.invariant g'
    /\ map variation_number vs = map (fun i => (Z.of_nat i + 1)%Z) indices
    /\ Forall (fun v => Result.cached (variation_result v) = false
                        /\ (variation_temperature v = None <-> range = None)) vs
    /\ LRUCache._hits (_cache g') = LRUCache._hits (_cache g)
    /\ LRUCache._misses (_cache g') = LRUCache._misses (_cache g)
    /\ _cache_hits g' = _cache_hits g
    /\ (_total_cost g'
        == _total_cost g + qsum (map (fun v => Result.cost (variation_result v)) vs))%Q.
Proof.
  induction indices as [|i rest IH]; intros g Hinv; cbn [Generator.variations_loop].
  - exists [], g. split; [reflexivity|]. split; [exact Hinv|]. split; [reflexivity|].
    split; [constructor|]. do 3 (split; [reflexivity|]). cbn. ring.
  - cbv zeta.
    match goal with
    | |- context [generate g (envs i) tn ?vars false true ?ov] =>
        destruct (generate_total g (envs i) tn vars false true ov Hinv)
          as (r & g1 & E1 & Hi1 & He)
    end.
    rewrite E1.
    destruct (IH g1 Hi1) as (vs & g2 & E & Hi & Hn & Hf & Hh & Hm & Hc & Ht).
    rewrite E. eexists _, g2. split; [reflexivity|].
    destruct (no_lookup _ _ _ _ _ He eq_refl) as (Hcached & Hh1 & Hm1 & Hc1).
    split; [exact Hi|]. split; [cbn [map variation_number]; rewrite Hn; reflexivity|].
    split; [|split; [|split; [|split]]].
    + constructor; [|exact Hf]. cbn [variation_result variation_temperature].
      split; [exact Hcached|]. destruct range; cbn; split; congruence.
    + congruence.
    + congruence.
    + congruence.
    + cbn [map variation_result]. rewrite Ht, qsum_cons, (total_cost _ _ _ _ _ He).
      unfold charged. rewrite Hcached. ring.
Qed.

(** X17: [generate_multiple_variations] always returns [count] results
    numbered 1 to [count] (none for a [count] below 1, and then the
    generator is unchanged); none of them is read from the cache, no cache
    hit or miss is counted, every one is charged, and a result carries a
    temperature exactly when a range was given. *)
Theorem variations_are_numbered_and_never_cached :
  forall sid start has_api engine threshold (ops : list Session.op)
         (envs : nat -> call_env) (template_name : string) (variables : dict pyval)
         (count : Z) (temperature_range : option (Q * Q)),
    let g := Session.exec (init sid start has_api engine threshold) ops in
    exists vs g',
      Generator.generate_multiple_variations g envs template_name variables count
                                             temperature_range
      = (Returned vs, g')
      /\ map variation_number vs = map Z.of_nat (seq 1 (Z.to_nat count))
      /\ Forall (fun v => Result.cached (variation_result v) = false
                          /\ (variation_temperature v = None <-> temperature_range = None))
                vs
      /\ LRUCache._hits (_cache g') = LRUCache._hits (_cache g)
      /\ LRUCache._misses (_cache g') = LRUCache._misses (_cache g)
      /\ _cache_hits g' = _cache_hits g
      /\ (_total_cost g'
          == _total_cost g + qsum (map (fun v => Result.cost (variation_result v)) vs))%Q
      /\ ((count < 1)%Z -> vs = [] /\ g' = g).
Proof.
  intros sid start has_api engine threshold ops envs template_name variables count
         temperature_range g.
  assert (Hinv : Spec.invariant g)
    by (apply InvariantFacts.exec_invariant, InvariantFacts.invariant_init).
  unfold Generator.generate_multiple_variations.
  destruct (variations_loop_spec envs template_name variables count temperature_range
              (seq 0 (Z.to_nat count)) g Hinv)
    as (vs & g' & E & _ & Hn & Hf & Hh & Hm & Hc & Ht).
  exists vs, g'. split; [exact E|].
  split.
  { rewrite Hn, <- seq_shift, map_map. apply map_ext. intros i. lia. }
  split; [exact Hf|]. split; [exact Hh|]. split; [exact Hm|]. split; [exact Hc|].
  split; [exact Ht|].
  intros Hlt. replace (Z.to_nat count) with 0 in E by lia. cbn in E.
  injection E as <- <-. auto.
Qed.

End WithWorld.

(** X14: [unregister_callback] removes the first registration of the
    callback and returns [True]; a callback registered twice stays
    registered once.  For a callback that is not registered it returns
    [False] and changes nothing. *)
Theorem unregister_callback_removes_first_registration :
  forall (g : t) (callback : nat),
    match Generator.unregister_callback g callback with
    | (true, g') =>
        exists before after,
          _callbacks g = (before ++ callback :: after)%list
          /\ ~ In callback before
          /\ _callbacks g' = (before ++ after)%list
          /\ callback_log g' = callback_log g
    | (false, g') => g' = g /\ ~ In callback (_callbacks g)
    end.
Proof.
  intros g callback. unfold Generator.unregister_callback.
  assert (Hr : forall l,
             match PyList.remove_first callback l with
             | Some l' => exists before after,
                 l = (before ++ callback :: after)%list /\ ~ In callback before
                 /\ l' = (before ++ after)%list
             | None => ~ In callback l
             end).
  { induction l as [|y l IH]; cbn [PyList.remove_first]; [tauto|].
    destruct (Nat.eqb callback y) eqn:E.
    - apply Nat.eqb_eq in E. subst y. exists [], l. cbn. tauto.
    - apply Nat.eqb_neq in E.
      destruct (PyList.remove_first callback l) as [l'|].
      + destruct IH as (before & after & -> & Hn & ->).
        exists (y :: before), after. cbn. split; [reflexivity|]. split; [|reflexivity].
        intros [Heq | Hin]; [congruence | tauto].
      + intros [Heq | Hin]; [congruence | tauto]. }
  specialize (Hr (_callbacks g)).
  destruct (PyList.remove_first callback (_callbacks g)) as [l'|].
  - destruct Hr as (before & after & Hl & Hn & ->).
    exists before, after. cbn [_callbacks callback_log with_callbacks]. auto.
  - auto.
Qed.

(** X15: the [limit] of [get_history] is applied after the filters and
    only when it is not zero: [limit=0] returns every entry that passes
    the filters, a positive limit the last [limit] of them, a negative
    limit all but the first [-limit].  What is returned passes the
    filters and comes from the history; without filters and limit it is
    the history itself. *)
Theorem get_history_limit_and_filters :
  forall (g : t) (template_filter start_date : option string) (success_only : bool),
    let passing := Generator.get_history g None template_filter start_date success_only in
    Generator.get_history g (Some 0%Z) template_filter start_date success_only = passing
    /\ (forall n : Z, (0 < n)%Z ->
          Generator.get_history g (Some n) template_filter start_date success_only
          = Spec.last_n (Z.to_nat n) passing)
    /\ (forall n : Z, (n < 0)%Z ->
          Generator.get_history g (Some n) template_filter start_date success_only
          = skipn (Z.to_nat (- n)) passing)
    /\ (forall h, In h passing ->
          In h (_history g)
          /\ (success_only = true -> Result.success h = true)
          /\ (forall f, template_filter = Some f -> f <> EmptyString ->
                        Result.template_used h = f)
          /\ (forall d, start_date = Some d -> d <> EmptyString ->
                        Catalogue.str_le d (Result.timestamp h)))
    /\ Generator.get_history g None None None false = get_history g.
Proof.
  intros g template_filter start_date success_only passing.
  split; [reflexivity|]. split; [|split; [|split; [|reflexivity]]].
  - intros n Hn. subst passing. unfold Generator.get_history. cbv zeta.
    assert (E : (n =? 0)%Z = false) by (apply Z.eqb_neq; lia).
    rewrite E. unfold Generator.slice_from.
    assert (E' : (- n <? 0)%Z = true) by (apply Z.ltb_lt; lia).
    rewrite E'. unfold Spec.last_n.
    match goal with |- skipn _ ?l = _ => generalize l end.
    intros l. f_equal. lia.
  - intros n Hn. subst passing. unfold Generator.get_history. cbv zeta.
    assert (E : (n =? 0)%Z = false) by (apply Z.eqb_neq; lia).
    rewrite E. unfold Generator.slice_from.
    assert (E' : (- n <? 0)%Z = false) by (apply Z.ltb_ge; lia).
    rewrite E'. reflexivity.
  - intros h Hin. subst passing. unfold Generator.get_history in Hin. cbv zeta in Hin.
    assert (Hso : In h (match start_date with
                        | Some start_iso =>
                            if PyStr.truthy start_iso
                            then filter (fun h => String.leb start_iso (Result.timestamp h))
                                   match template_filter with
                                   | Some f =>
                                       if PyStr.truthy f
                                       then filter (fun h => String.eqb (Result.template_used h) f)
                                                   (_history g)
                                       else _history g
                                   | None => _history g
                                   end
                            else match template_filter with
                                   | Some f =>
                                       if PyStr.truthy f
                                       then filter (fun h => String.eqb (Result.template_used h) f)
                                                   (_history g)
                                       else _history g
                                   | None => _history g
                                   end
                        | None => match template_filter with
                                   | Some f =>
                                       if PyStr.truthy f
                                       then filter (fun h => String.eqb (Result.template_used h) f)
                                                   (_history g)
                                       else _history g
                                   | None => _history g
                                   end
                        end)
                /\ (success_only = true -> Result.success h = true)).
    { destruct success_only; [|split; [exact Hin | discriminate]].
      apply filter_In in Hin. tauto. }
    destruct Hso as [Hsd Hso].
    assert (Htf : In h (match template_filter with
                        | Some f =>
                            if PyStr.truthy f
                            then filter (fun h => String.eqb (Result.template_used h) f)
                                        (_history g)
                            else _history g
                        | None => _history g
                        end)
                  /\ (forall d, start_date = Some d -> d <> EmptyString ->
                                Catalogue.str_le d (Result.timestamp h))).
    { destruct start_date as [d|]; [|split; [exact Hsd | discriminate]].
      destruct d as [|a d]; [split; [exact Hsd | intros ? [= <-]; congruence]|].
      cbn [PyStr.truthy] in Hsd. apply filter_In in Hsd.
      split; [tauto|]. intros d' [= <-] _. exact (proj2 Hsd). }
    destruct Htf as [Htf Hsd'].
    assert (Hh : In h (_history g)
                 /\ (forall f, template_filter = Some f -> f <> EmptyString ->
                               Result.template_used h = f)).
    { destruct template_filter as [f|]; [|split; [exact Htf | discriminate]].
      destruct f as [|a f]; [split; [exact Htf | intros ? [= <-]; congruence]|].
      cbn [PyStr.truthy] in Htf. apply filter_In in Htf.
      split; [tauto|]. intros f' [= <-] _. apply String.eqb_eq. exact (proj2 Htf). }
    tauto.
Qed.

End EffectFacts.

(* ===================================================================== *)
(** * Calls of the API manager; the two checks of the variables *)
(* ===================================================================== *)

Module CallFacts.
Import ContentGenerator Effects.

Section WithWorld.
Context `{PyRuntime} `{ApiManager}.








End WithWorld.

Lemma validated_not_missing (variables : dict pyval) (var : string) :
  Utils.validate_variables_loop variables = None ->
  dict_mem variables var = true ->
  PromptTemplate.is_missing variables var = false.
Proof.
  unfold dict_mem, PromptTemplate.is_missing.
  induction variables as [|[k v] rest IH]; cbn [Utils.validate_variables_loop dict_get];
    [discriminate|].
  destruct (Utils.validate_variable k v) eqn:Ev; [discriminate|].
  intros Hloop. destruct (String.eqb var k); [|apply IH; exact Hloop].
  intros _. unfold Utils.validate_variable in Ev.
  destruct (negb (PyStr.truthy k)); [discriminate|].
  destruct v as [|s| | | | | |]; try reflexivity; [discriminate|].
  destruct (negb (PyStr.truthy (PyStr.strip s))) eqn:Es; [discriminate|].
  reflexivity.
Qed.

Section WithWorld.
Context `{PyRuntime} `{ApiManager}.

(** X20: for a template of the catalogue, [validate_template_variables]
    reports the required variables that are not keys of [variables], and
    it counts as a use of the template.  Every name it reports is reported
    by the template's own [validate_variables]; the reverse holds when the
    variables pass [validate_input], which rejects the [None] and blank
    values that only the template's check counts as missing. *)
Theorem precheck_reports_absent_keys_only :
  forall (g : t) (template_name : string) (variables : dict pyval)
         (template : PromptTemplate.t),
    fst (PromptEngine.get_template (prompt_engine g) template_name) = inl template ->
    exists missing g',
      Generator.validate_template_variables g template_name variables
      = (Returned (match missing with [] => true | _ => false end, missing), g')
      /\ missing = filter (fun var => negb (dict_mem variables var))
                          (PromptTemplate.required_variables template)
      /\ (forall var, In var missing ->
                      In var (snd (PromptTemplate.validate_variables template variables)))
      /\ (fst (Utils.validate_input template_name variables) = true ->
          snd (PromptTemplate.validate_variables template variables) = missing)
      /\ dict_get (PromptEngine._usage_stats (prompt_engine g')) template_name
         = Some (match dict_get (PromptEngine._usage_stats (prompt_engine g)) template_name
                 with Some n => n | None => 0 end + 1).
Proof.
  intros g template_name variables template Hfound.
  unfold Generator.validate_template_variables.
  unfold PromptEngine.get_template in *.
  destruct (dict_get (PromptEngine._templates (prompt_engine g)) template_name)
    as [stored|]; [|discriminate].
  cbn [fst] in Hfound. rewrite Hfound.
  eexists _, _. split; [reflexivity|]. split; [reflexivity|].
  split; [|split].
  - intros var Hin. unfold PromptTemplate.validate_variables. cbn [snd].
    apply filter_In in Hin. destruct Hin as [Hreq Habs].
    apply filter_In. split; [exact Hreq|].
    unfold PromptTemplate.is_missing. unfold dict_mem in Habs.
    destruct (dict_get variables var); [discriminate | reflexivity].
  - intros Hv. unfold PromptTemplate.validate_variables. cbn [snd].
    assert (Hloop : Utils.validate_variables_loop variables = None).
    { unfold Utils.validate_input in Hv.
      destruct (negb (PyStr.truthy template_name)); [discriminate|].
      destruct (negb (Regex.matches Utils.no_flags Utils.TEMPLATE_NAME_PATTERN
                        template_name)); [discriminate|].
      destruct (Utils.validate_variables_loop variables); [discriminate | reflexivity]. }
    apply filter_ext. intros var.
    destruct (dict_mem variables var) eqn:Em; cbn [negb].
    + apply validated_not_missing; assumption.
    + unfold PromptTemplate.is_missing. unfold dict_mem in Em.
      destruct (dict_get variables var); [discriminate | reflexivity].
  - cbn. apply dict_get_set_same.
Qed.

End WithWorld.

End CallFacts.

(* ===================================================================== *)
(** * Which template names [validate_input] accepts *)
(* ===================================================================== *)

Module NameFacts.
Import PyStr Regex Utils.

Lemma in_set_name_char (c : ascii) :
  in_set no_flags false [CRange "a" "z"; CRange "A" "Z"; CRange "0" "9"; CChar "_"] c
  = Spec.name_char c.
Proof.
  unfold in_set, Spec.name_char, no_flags. cbn.
  rewrite !orb_false_r.
  destruct (in_range 97 122 c), (in_range 65 90 c), (in_range 48 57 c),
    (Ascii.eqb c "_"); reflexivity.
Qed.

Lemma name_char_not_newline (c : ascii) :
  Spec.name_char c = true -> Ascii.eqb c newline = false.
Proof.
  intros Hc. destruct (Ascii.eqb c newline) eqn:E; [|reflexivity].
  apply Ascii.eqb_eq in E. subst c. vm_compute in Hc. discriminate.
Qed.

(** [[A-Za-z0-9_]*$] accepts the runs of name characters and the runs
    followed by one line feed. *)
Lemma name_tail (n : nat) : forall (p : option ascii) (s : string),
  length s <= n ->
  ((fix loop (n : nat) (p : option ascii) (s0 : string) {struct n} : bool :=
      m no_flags (Seq Eol Eps) p s0 (fun _ _ => true)
      || match n with
         | O => false
         | S n' =>
             m no_flags
               (OneOf false [CRange "a" "z"; CRange "A" "Z"; CRange "0" "9"; CChar "_"])
               p s0
               (fun p' s' => if length s' <? length s0 then loop n' p' s' else false)
         end) n p s = true
   <-> exists body,
         Spec.all_chars Spec.name_char body = true
         /\ (s = body \/ s = body ++ String newline EmptyString)).
Proof.
  induction n as [|n IH]; intros p s Hlen.
  - destruct s; [|cbn in Hlen; lia]. cbn. split; [|reflexivity].
    intros _. exists EmptyString. auto.
  - destruct s as [|x t].
    + cbn. split; [|reflexivity]. intros _. exists EmptyString. auto.
    + cbn [m]. rewrite in_set_name_char.
      assert (Hlt : (length t <? length (String x t)) = true)
        by (apply Nat.ltb_lt; cbn; lia).
      rewrite Hlt.
      assert (Ht : length t <= n) by (cbn in Hlen; lia).
      specialize (IH (Some x) t Ht).
      split.
      * intros Hm. apply orb_true_iff in Hm. destruct Hm as [Hend | Hstep].
        -- destruct t; [|discriminate].
           destruct (Ascii.eqb x newline) eqn:E; [|discriminate].
           apply Ascii.eqb_eq in E. subst x. exists EmptyString. auto.
        -- destruct (Spec.name_char x) eqn:Hx; [|discriminate].
           apply IH in Hstep. destruct Hstep as (body & Hb & Hs).
           exists (String x body). cbn [Spec.all_chars]. rewrite Hx, Hb.
           split; [reflexivity|]. destruct Hs as [-> | ->]; auto.
      * intros (body & Hb & Hs). apply orb_true_iff.
        destruct body as [|c body].
        -- left. destruct Hs as [Hs | Hs]; [discriminate|].
           cbn in Hs. injection Hs as -> ->. reflexivity.
        -- right. cbn [Spec.all_chars] in Hb. apply andb_true_iff in Hb.
           destruct Hb as [Hc Hb].
           assert (Hx : x = c) by (destruct Hs as [Hs | Hs]; cbn in Hs; congruence).
           subst c. rewrite Hc. apply IH. exists body. split; [exact Hb|].
           destruct Hs as [Hs | Hs]; cbn in Hs; injection Hs as ->; auto.
Qed.

Lemma name_pattern_language (s : string) :
  matches no_flags TEMPLATE_NAME_PATTERN s = true
  <-> exists body,
        Spec.name_pattern_ok body = true
        /\ (s = body \/ s = body ++ String newline EmptyString).
Proof.
  unfold matches, TEMPLATE_NAME_PATTERN, cat, Plus. cbn [fold_right].
  destruct s as [|x t].
  - cbn. split; [discriminate|]. intros (body & Hb & Hs).
    destruct body; [discriminate|]. destruct Hs; discriminate.
  - change (m no_flags
              (Seq Bol
                 (Seq (Seq (OneOf false [CRange "a" "z"; CRange "A" "Z"; CRange "0" "9";
                                         CChar "_"])
                           (Star (OneOf false [CRange "a" "z"; CRange "A" "Z";
                                               CRange "0" "9"; CChar "_"])))
                      (Seq Eol Eps)))
              None (String x t) (fun _ _ => true))
      with (if in_set no_flags false
                 [CRange "a" "z"; CRange "A" "Z"; CRange "0" "9"; CChar "_"] x
            then (fix loop (n : nat) (p : option ascii) (s0 : string) {struct n} : bool :=
                    m no_flags (Seq Eol Eps) p s0 (fun _ _ => true)
                    || match n with
                       | O => false
                       | S n' =>
                           m no_flags
                             (OneOf false [CRange "a" "z"; CRange "A" "Z"; CRange "0" "9";
                                           CChar "_"])
                             p s0
                             (fun p' s' =>
                                if length s' <? length s0 then loop n' p' s' else false)
                       end) (length t) (Some x) t
            else false).
    rewrite in_set_name_char.
    pose proof (name_tail (length t) (Some x) t (Nat.le_refl _)) as Ht.
    split.
    + intros Hm. destruct (Spec.name_char x) eqn:Hx; [|discriminate].
      apply Ht in Hm. destruct Hm as (body & Hb & Hs).
      exists (String x body). unfold Spec.name_pattern_ok. cbn. rewrite Hx, Hb.
      split; [reflexivity|]. destruct Hs as [-> | ->]; auto.
    + intros (body & Hb & Hs). unfold Spec.name_pattern_ok in Hb.
      destruct body as [|c body]; [discriminate|].
      cbn in Hb. apply andb_true_iff in Hb. destruct Hb as [Hc Hb].
      assert (Hx : x = c) by (destruct Hs as [Hs | Hs]; cbn in Hs; congruence).
      subst c. rewrite Hc. apply Ht. exists body. split; [exact Hb|].
      destruct Hs as [Hs | Hs]; cbn in Hs; injection Hs as ->; auto.
Qed.

Lemma validate_variables_loop_spec (variables : dict pyval) :
  validate_variables_loop variables = None
  <-> Forall (fun kv => validate_variable (fst kv) (snd kv) = None) variables.
Proof.
  induction variables as [|[k v] rest IH]; cbn [validate_variables_loop].
  - split; [constructor | reflexivity].
  - destruct (validate_variable k v) eqn:E.
    + split; [discriminate|]. intros Hf. inversion Hf as [|? ? Hk _]. cbn in Hk. congruence.
    + rewrite IH. split.
      * intros Hf. constructor; [exact E | exact Hf].
      * intros Hf. inversion Hf. assumption.
Qed.

(** X18: [validate_input] accepts a template name exactly when it is a
    non-empty run of ASCII letters, digits and underscores, or such a run
    followed by one line feed ([$] also matches before a final newline),
    and every variable passes its own check. *)
Theorem validate_input_accepts_name_with_final_newline :
  forall (template_name : string) (variables : dict pyval),
    fst (validate_input template_name variables) = true
    <-> (exists body,
           Spec.name_pattern_ok body = true
           /\ (template_name = body
               \/ template_name = body ++ String newline EmptyString))
        /\ Forall (fun kv => validate_variable (fst kv) (snd kv) = None) variables.
Proof.
  intros template_name variables.
  rewrite <- name_pattern_language, <- validate_variables_loop_spec.
  unfold validate_input.
  destruct template_name as [|c rest].
  - cbn. split; [discriminate|]. intros [Hm _]. discriminate.
  - cbn [truthy negb].
    destruct (matches no_flags TEMPLATE_NAME_PATTERN (String c rest)); cbn [negb].
    + destruct (validate_variables_loop variables); cbn; split; try tauto;
        try discriminate. intros [_ Hn]. discriminate.
    + cbn. split; [discriminate|]. intros [Hm _]. discriminate.
Qed.

End NameFacts.

(* ===================================================================== *)
(** * The API manager over sequences of calls *)
(* ===================================================================== *)

Module ManagerFacts.
Import OpenAIManager ManagerSession.

Lemma update_stats_balanced (s : UsageStatistics) (r : response) :
  balanced s -> balanced (_update_stats s r)
  /\ total_requests (_update_stats s r) = total_requests s + 1.
Proof.
  unfold balanced, _update_stats. intros Hb.
  destruct (success r); cbn; lia.
Qed.

Section WithClient.
Context `{Client}.

(** What one call of [generate_content] does to the manager. *)
Lemma generate_content_effects (self : t) (e : env) (prompt_text : string)
    (mt : option Z) (temp : option pyfloat) (sys : option string) (uc : bool) :
  let gen := generate_content self e prompt_text mt temp sys uc in
  _request_counter (manager gen) = _request_counter self + 1
  /\ model (manager gen) = model self
  /\ client_calls (manager gen) = client_calls self + List.length (sent gen)
  /\ List.length (sent gen) <= 3
  /\ (if blank prompt_text
      then returned gen = inr (InvalidPromptError "Prompt cannot be empty")
           /\ sent gen = [] /\ _stats (manager gen) = _stats self
           /\ _cache (manager gen) = _cache self
      else exists r,
             returned gen = inl r
             /\ request_id r
                = "req-" ++ env_uuid8 e ++ "-"
                  ++ PyStr.str_of_nat (_request_counter self + 1)
             /\ timestamp r = env_timestamp e
             /\ _stats (manager gen)
                = (if reached_client gen then _update_stats (_stats self) r
                   else _stats self)).
Proof.
  cbv zeta. unfold generate_content, blank.
  destruct (negb (PyStr.truthy prompt_text) || negb (PyStr.truthy (PyStr.strip prompt_text))).
  - cbn. repeat split; lia.
  - cbv zeta.
    match goal with
    | |- context [match ?l with (_, _) => _ end] => destruct l as [[entry|] cache1]
    end.
    + cbn. repeat split; try lia. eexists. repeat split.
    + pose proof (ManagerClaims.make_api_call_attempts
                    (with_state self (_stats self) (_cache self)
                                (_request_counter self + 1) (client_calls self))
                    {| rq_model := model self;
                       rq_messages :=
                         (match sys with
                          | Some s => if PyStr.truthy s then [("system", s)] else []
                          | None => []
                          end ++ [("user", prompt_text)])%list;
                       rq_max_tokens := int_or mt (max_tokens self);
                       rq_temperature := float_or temp (temperature self) |}) as Hc.
      cbn [model max_tokens temperature with_state] in Hc.
      destruct (_make_api_call _ _) as [res sl n]. cbn [calls result sleeps] in *.
      assert (Hr : exists k, n = S k) by (destruct n; [lia | eauto]).
      destruct Hr as [k ->].
      destruct res as [api_response | ex].
      * destruct (choices api_response) as [|[message_content reason] others].
        -- cbn. rewrite repeat_length. repeat split; try lia.
           eexists. repeat split.
        -- destruct (usage api_response) as [u|].
           ++ cbn. rewrite repeat_length. repeat split; try lia.
              eexists. repeat split.
           ++ cbn. rewrite repeat_length. repeat split; try lia.
              eexists. repeat split.
      * destruct (is_APIManagerError ex); cbn; rewrite repeat_length;
          repeat split; try lia; eexists; repeat split.
Qed.

Lemma after_cons (self : t) (c : call) (rest : list call) :
  after self (c :: rest) = after (manager (run_call self c)) rest.
Proof. reflexivity. Qed.

(** X21: over any sequence of [generate_content] calls the statistics
    stay balanced (every counted request is a success or a failure), and
    they count exactly the calls that reached the client: a call answered
    from the cache and a call refused for its blank prompt take a request
    number but are not counted.  A call sends at most three requests. *)
Theorem statistics_count_calls_that_reach_the_client :
  forall (self : t) (calls : list call),
    balanced (_stats self) ->
    balanced (_stats (after self calls))
    /\ _request_counter (after self calls) = _request_counter self + List.length calls
    /\ total_requests (_stats (after self calls))
       = total_requests (_stats self)
         + List.length (filter reached_client (run self calls))
    /\ client_calls (after self calls)
       = client_calls self + List.length (List.concat (map sent (run self calls)))
    /\ Forall (fun gen => List.length (sent gen) <= 3) (run self calls).
Proof.
  intros self calls. revert self.
  induction calls as [|c rest IH]; intros self Hb.
  - cbn. repeat split; try lia; [exact Hb | constructor].
  - rewrite after_cons. cbn [run map List.concat filter List.length].
    pose proof (generate_content_effects self (call_env c) (call_prompt c)
                  (call_max_tokens c) (call_temperature c) (call_system_message c)
                  (call_use_cache c)) as He.
    cbv zeta in He. fold (run_call self c) in He.
    destruct He as (Hn & _ & Hcalls & Hle & Hcase).
    assert (Hstats : balanced (_stats (manager (run_call self c)))
                     /\ total_requests (_stats (manager (run_call self c)))
                        = total_requests (_stats self)
                          + (if reached_client (run_call self c) then 1 else 0)).
    { destruct (blank (call_prompt c)).
      - destruct Hcase as (_ & Hs & -> & _). unfold reached_client. rewrite Hs.
        split; [exact Hb | lia].
      - destruct Hcase as (r & _ & _ & _ & ->).
        destruct (reached_client (run_call self c)); [|split; [exact Hb | lia]].
        apply update_stats_balanced. exact Hb. }
    destruct Hstats as [Hb1 Ht1].
    destruct (IH (manager (run_call self c)) Hb1) as (Hb2 & Hn2 & Ht2 & Hc2 & Hf2).
    split; [exact Hb2|]. split; [lia|]. split; [|split].
    + rewrite Ht2, Ht1. destruct (reached_client (run_call self c)); cbn; lia.
    + rewrite Hc2, Hcalls, length_app. lia.
    + constructor; [exact Hle | exact Hf2].
Qed.

(** X22: the cache of the manager is keyed by the prompt, the system
    message and the model only.  After a successful call that reached the
    client, a call with the same prompt and system message made before the
    entry is one hour old is answered from the cache whatever [max_tokens]
    and [temperature] it asks for: nothing is sent, the statistics do not
    move, and the answer repeats the content, the tokens and the cost of
    the first one under a new request id and timestamp. *)
Theorem cached_answer_ignores_temperature_and_max_tokens :
  forall (self : t) (e1 e2 : env) (prompt_text : string) (sys : option string)
         (mt1 mt2 : option Z) (temp1 temp2 : option pyfloat) (r1 : response),
    returned (generate_content self e1 prompt_text mt1 temp1 sys true) = inl r1 ->
    success r1 = true ->
    reached_client (generate_content self e1 prompt_text mt1 temp1 sys true) = true ->
    (env_now_check e2 <= env_now_store e1 + seconds CACHE_TTL_SECONDS)%Z ->
    let second :=
      generate_content (manager (generate_content self e1 prompt_text mt1 temp1 sys true))
                       e2 prompt_text mt2 temp2 sys true in
    sent second = []
    /\ _stats (manager second)
       = _stats (manager (generate_content self e1 prompt_text mt1 temp1 sys true))
    /\ exists r2,
         returned second = inl r2
         /\ success r2 = true
         /\ content r2 = content r1
         /\ tokens_used r2 = tokens_used r1
         /\ cost r2 = cost r1
         /\ timestamp r2 = env_timestamp e2
         /\ request_id r2
            = "req-" ++ env_uuid8 e2 ++ "-" ++ PyStr.str_of_nat (_request_counter self + 2).
Proof.
  intros self e1 e2 prompt_text sys mt1 mt2 temp1 temp2 r1 Hret Hs Hreach Hfresh.
  assert (Hstored :
            let m1 := manager (generate_content self e1 prompt_text mt1 temp1 sys true) in
            blank prompt_text = false
            /\ model m1 = model self
            /\ _request_counter m1 = _request_counter self + 1
            /\ dict_get (_cache m1) (_get_cache_key prompt_text sys (model self))
               = Some {| cached_response := r1; created_at := env_now_store e1 |}).
  { cbv zeta. revert Hret Hreach. unfold generate_content, reached_client, blank.
    destruct (negb (PyStr.truthy prompt_text) || negb (PyStr.truthy (PyStr.strip prompt_text)));
      [discriminate|].
    cbv zeta.
    match goal with
    | |- context [match ?l with (_, _) => _ end] => destruct l as [[entry|] cache1]
    end; [cbn; discriminate|].
    destruct (_make_api_call _ _) as [res sl n]. cbn [calls result sleeps].
    destruct res as [api_response | ex].
    - destruct (choices api_response) as [|[message_content reason] others].
      + cbn. intros [= <-]. cbn in Hs. discriminate.
      + destruct (usage api_response) as [u|].
        * cbn. intros [= <-] _. repeat split. apply dict_get_set_same.
        * cbn. intros [= <-]. cbn in Hs. discriminate.
    - destruct (is_APIManagerError ex); cbn; intros [= <-]; cbn in Hs; discriminate. }
  cbv zeta in Hstored. destruct Hstored as (Hnb & Hmodel & Hcount & Hget).
  cbv zeta.
  set (m1 := manager (generate_content self e1 prompt_text mt1 temp1 sys true)) in *.
  unfold generate_content at 1 2 3. unfold blank in Hnb. rewrite Hnb. cbv zeta.
  cbn [_cache with_state]. rewrite Hmodel, Hget. cbn [created_at].
  assert (Hlive : (env_now_store e1 + seconds CACHE_TTL_SECONDS <? env_now_check e2)%Z
                  = false) by (apply Z.ltb_ge; exact Hfresh).
  rewrite Hlive. cbn.
  split; [reflexivity|]. split; [reflexivity|].
  eexists. split; [reflexivity|]. cbn. rewrite Hcount.
  repeat split; try assumption.
  replace (_request_counter self + 1 + 1) with (_request_counter self + 2) by lia.
  reflexivity.
Qed.

Lemma batch_nonblank (envs : nat -> env) (prompts : list string) (mt : option Z)
    (temp : option pyfloat) (sys : option string) : forall (self : t) (i : nat),
  Forall (fun p => blank p = false) prompts ->
  exists rs,
    batch_returned (_generate_batch_sequential self envs i prompts mt temp sys) = inl rs
    /\ List.length rs = List.length prompts
    /\ _request_counter (batch_manager
                           (_generate_batch_sequential self envs i prompts mt temp sys))
       = _request_counter self + List.length prompts.
Proof.
  induction prompts as [|p rest IH]; intros self i Hall; cbn [_generate_batch_sequential].
  - exists []. cbn. repeat split. lia.
  - inversion Hall as [|? ? Hp Hrest]; subst.
    pose proof (generate_content_effects self (envs i) p mt temp sys true) as He.
    cbv zeta in He. rewrite Hp in He.
    destruct He as (Hn & _ & _ & _ & (r & Hr & _)).
    rewrite Hr.
    destruct (IH (manager (generate_content self (envs i) p mt temp sys true)) (S i) Hrest)
      as (rs & Hrs & Hlen & Hcount).
    cbn [batch_returned batch_manager]. rewrite Hrs.
    exists (r :: rs). cbn [List.length]. repeat split; [lia|]. rewrite Hcount, Hn. lia.
Qed.

Lemma batch_stops (envs : nat -> env) (before : list string) (blank_prompt : string)
    (later : list string) (mt : option Z) (temp : option pyfloat) (sys : option string) :
  forall (self : t) (i : nat),
  Forall (fun p => blank p = false) before ->
  blank blank_prompt = true ->
  let b := _generate_batch_sequential self envs i (before ++ blank_prompt :: later)
             mt temp sys in
  let b0 := _generate_batch_sequential self envs i before mt temp sys in
  batch_returned b = inr (InvalidPromptError "Prompt cannot be empty")
  /\ batch_sent b = batch_sent b0
  /\ _stats (batch_manager b) = _stats (batch_manager b0)
  /\ _cache (batch_manager b) = _cache (batch_manager b0)
  /\ _request_counter (batch_manager b) = _request_counter (batch_manager b0) + 1.
Proof.
  induction before as [|p rest IH]; intros self i Hall Hblank; cbv zeta.
  - cbn [app _generate_batch_sequential].
    pose proof (generate_content_effects self (envs i) blank_prompt mt temp sys true) as He.
    cbv zeta in He. rewrite Hblank in He.
    destruct He as (Hn & _ & _ & _ & (Hr & Hs & Hst & Hc)).
    rewrite Hr. cbn. auto.
  - inversion Hall as [|? ? Hp Hrest]; subst.
    cbn [app _generate_batch_sequential].
    pose proof (generate_content_effects self (envs i) p mt temp sys true) as He.
    cbv zeta in He. rewrite Hp in He.
    destruct He as (_ & _ & _ & _ & (r & Hr & _)).
    rewrite Hr.
    specialize (IH (manager (generate_content self (envs i) p mt temp sys true)) (S i)
                   Hrest Hblank).
    cbv zeta in IH. destruct IH as (Hret & Hsent & Hst & Hc & Hn).
    cbn [batch_returned batch_manager batch_sent]. rewrite Hret, Hsent.
    auto.
Qed.

(** X23: a sequential [generate_batch] raises only for a blank prompt,
    and then at the first one: the prompts before it were processed (their
    requests sent, the statistics and the cache updated, their request
    numbers taken) but their results are lost with the exception, and no
    prompt after it is tried.  Without a blank prompt the batch returns
    one response per prompt. *)
Theorem sequential_batch_stops_at_first_blank_prompt :
  forall (self : t) (envs : nat -> env) (before : list string) (blank_prompt : string)
         (later : list string) (mt : option Z) (temp : option pyfloat)
         (sys : option string),
    Forall (fun p => blank p = false) before ->
    blank blank_prompt = true ->
    let b := generate_batch self envs (before ++ blank_prompt :: later) mt temp sys in
    let b0 := generate_batch self envs before mt temp sys in
    batch_returned b = inr (InvalidPromptError "Prompt cannot be empty")
    /\ batch_sent b = batch_sent b0
    /\ _stats (batch_manager b) = _stats (batch_manager b0)
    /\ _cache (batch_manager b) = _cache (batch_manager b0)
    /\ _request_counter (batch_manager b)
       = _request_counter self + List.length before + 1
    /\ exists rs, batch_returned b0 = inl rs /\ List.length rs = List.length before.
Proof.
  intros self envs before blank_prompt later mt temp sys Hall Hblank. cbv zeta.
  assert (Eb : generate_batch self envs (before ++ blank_prompt :: later) mt temp sys
               = _generate_batch_sequential self envs 0 (before ++ blank_prompt :: later)
                   mt temp sys) by (destruct before; reflexivity).
  assert (Eb0 : generate_batch self envs before mt temp sys
                = _generate_batch_sequential self envs 0 before mt temp sys)
    by (destruct before; reflexivity).
  rewrite Eb, Eb0.
  destruct (batch_stops envs before blank_prompt later mt temp sys self 0 Hall Hblank)
    as (Hret & Hsent & Hst & Hc & Hn).
  destruct (batch_nonblank envs before mt temp sys self 0 Hall) as (rs & Hrs & Hlen & Hcount).
  split; [exact Hret|]. split; [exact Hsent|]. split; [exact Hst|]. split; [exact Hc|].
  split; [rewrite Hn, Hcount; reflexivity|].
  exists rs. auto.
Qed.

End WithClient.

End ManagerFacts.

(* ===================================================================== *)
(** * The order of eviction of the result cache *)
(* ===================================================================== *)

Module LRUFacts.
Import LRUCache Catalogue.

Lemma dict_del_absent {V : Type} (d : dict V) (k : string) :
  ~ In k (dict_keys d) -> dict_del d k = d.
Proof.
  unfold dict_del, dict_keys. induction d as [|[k' v] d IH]; cbn; [reflexivity|].
  intros Hn. destruct (String.eqb k k') eqn:E.
  - apply String.eqb_eq in E. subst k'. exfalso. apply Hn. left. reflexivity.
  - cbn. f_equal. apply IH. intros Hin. apply Hn. right. exact Hin.
Qed.

Lemma evict_full (max_size : nat) (x : string * entry) (d : dict entry) :
  List.length (x :: d) = max_size -> evict max_size (x :: d) = d.
Proof.
  intros Hlen. cbn [evict]. rewrite <- Hlen, Nat.leb_refl.
  destruct d as [|y d]; [reflexivity|].
  cbn [evict]. replace (List.length (x :: y :: d) <=? List.length (y :: d)) with false;
    [reflexivity|]. symmetry. apply Nat.leb_gt. cbn. lia.
Qed.

(** X24: in a full cache, [set] of a new key evicts the entry that was
    used least recently and keeps every other entry in its order.  A hit
    of [get] makes its entry the most recently used one: after a hit on
    the oldest entry, the next [set] evicts the second oldest instead. *)
Theorem full_cache_evicts_least_recently_used :
  forall (max_size : nat) (ttl_seconds : Z) (c : t) (oldest second key : string)
         (e1 e2 : entry) (rest : dict entry) (v : Result.t) (now now' now_get : Z),
    _cache c = (oldest, e1) :: (second, e2) :: rest ->
    keys_unique (_cache c) ->
    len c = max_size ->
    dict_get (_cache c) key = None ->
    (now_get <= expires_at e1)%Z ->
    let stored := (key, {| data := v; expires_at := (now + seconds ttl_seconds)%Z;
                           created_at := now' |}) in
    _cache (set max_size ttl_seconds c key v now now')
    = ((second, e2) :: rest ++ [stored])%list
    /\ fst (get c oldest now_get) = Some (data e1)
    /\ _cache (set max_size ttl_seconds (snd (get c oldest now_get)) key v now now')
       = (rest ++ [(oldest, e1); stored])%list.
Proof.
  intros max_size ttl_seconds c oldest second key e1 e2 rest v now now' now_get
         Hc Hu Hlen Hkey Hlive stored.
  unfold len in Hlen.
  assert (Hold : ~ In oldest (dict_keys ((second, e2) :: rest))).
  { unfold keys_unique in Hu. rewrite Hc in Hu. unfold dict_keys in *. cbn [map fst] in Hu.
    inversion Hu. assumption. }
  assert (Hne : String.eqb key oldest = false /\ String.eqb key second = false).
  { rewrite Hc in Hkey. cbn [dict_get] in Hkey.
    destruct (String.eqb key oldest); [discriminate|].
    destruct (String.eqb key second); [discriminate|]. auto. }
  destruct Hne as [Hko Hks].
  split; [|split].
  - unfold set. cbn [_cache]. unfold dict_mem. rewrite Hkey.
    rewrite Hc in *. rewrite (evict_full max_size _ _ Hlen). reflexivity.
  - unfold get. rewrite Hc. cbn [dict_get]. rewrite String.eqb_refl.
    replace (expires_at e1 <? now_get)%Z with false
      by (symmetry; apply Z.ltb_ge; exact Hlive).
    reflexivity.
  - unfold get. rewrite Hc. cbn [dict_get]. rewrite String.eqb_refl.
    replace (expires_at e1 <? now_get)%Z with false
      by (symmetry; apply Z.ltb_ge; exact Hlive).
    cbn [snd]. unfold set. cbn [_cache]. unfold move_to_end.
    cbn [dict_get]. rewrite String.eqb_refl.
    assert (Hdel : dict_del ((oldest, e1) :: (second, e2) :: rest) oldest
                   = (second, e2) :: rest).
    { unfold dict_del at 1. cbn [filter fst]. rewrite String.eqb_refl. cbn [negb].
      apply (dict_del_absent ((second, e2) :: rest) oldest Hold). }
    rewrite Hdel.
    assert (Hmiss : dict_get (((second, e2) :: rest) ++ [(oldest, e1)])%list key = None).
    { rewrite dict_get_app. rewrite Hc in Hkey. cbn [dict_get] in Hkey |- *.
      rewrite Hko in Hkey. rewrite Hkey, Hko. reflexivity. }
    unfold dict_mem. rewrite Hmiss.
    assert (Hlen' : List.length ((second, e2) :: rest ++ [(oldest, e1)])%list = max_size).
    { rewrite <- Hlen, Hc. cbn [List.length]. rewrite length_app. cbn. lia. }
    change (((second, e2) :: rest) ++ [(oldest, e1)])%list
      with ((second, e2) :: (rest ++ [(oldest, e1)]))%list.
    rewrite (evict_full max_size _ _ Hlen'). rewrite <- app_assoc. reflexivity.
Qed.

End LRUFacts.

(* ===================================================================== *)
(** * The properties above on sample inputs *)
(* ===================================================================== *)

Module MoreExamples.
Import Catalogue.

Lemma sample_engine_coherent : coherent Samples.engine.
Proof. unfold coherent. cbn. constructor. Qed.

Lemma sample_engine_unique :
  keys_unique (PromptEngine._templates (MemoEngine.engine Samples.engine)).
Proof. apply CatalogueFacts.keys_unique_check. vm_compute. reflexivity. Qed.

(** After a lookup, a clone, a lookup of the clone and a removal, the
    cached lookup of [echo] gives the stored template. *)
Lemma memo_after_operations_example :
  coherent Samples.engine
  /\ fst (@MemoEngine.get_template Demo.runtime
            (@MemoEngine.exec Demo.runtime Samples.engine Samples.engine_ops) "echo" true)
     = inl Demo.echo_template.
Proof.
  split; [exact sample_engine_coherent|].
  destruct (@EngineFacts.memo_never_stale_without_enable_disable Demo.runtime
              Samples.engine Samples.engine_ops "echo" sample_engine_coherent)
    as (_ & _ & Hnew).
  rewrite (Hnew Demo.echo_template); vm_compute; reflexivity.
Defined.

(** [echo] is fetched, then disabled: the cached lookup still hands it
    out as it was, and the listing no longer has it. *)
Lemma disabled_template_still_served_example :
  let s1 := snd (@MemoEngine.get_template Demo.runtime Samples.engine "echo" true) in
  let s2 := snd (MemoEngine.disable_template s1 "echo") in
  PromptTemplate.enabled Demo.echo_template = true
  /\ fst (@MemoEngine.get_template Demo.runtime s2 "echo" true) = inl Demo.echo_template
  /\ ~ In "echo" (MemoEngine.list_templates s2 None None true).
Proof.
  cbv zeta.
  destruct (@EngineFacts.disable_template_not_seen_by_cached_lookup Demo.runtime
              Samples.engine "echo" Demo.echo_template sample_engine_coherent
              sample_engine_unique eq_refl eq_refl)
    as (_ & Hcached & _ & _ & Hlist).
  split; [reflexivity|]. split; [exact Hcached | exact Hlist].
Defined.

(** A clone whose body is emptied by an update is stored, and the cached
    lookup raises for it. *)
Lemma clone_with_empty_body_example :
  let cloned :=
    MemoEngine.apply_update
      (MemoEngine.apply_update Demo.echo_template (SetName "echo2")) (SetTemplate EmptyString) in
  let s' := snd (@MemoEngine.clone_template Demo.runtime Samples.engine "echo" "echo2"
                   [SetTemplate EmptyString]) in
  Spec.structurally_valid cloned = false
  /\ (exists m, fst (@MemoEngine.get_template Demo.runtime s' "echo2" true)
                = inr (TemplateValidationError m))
  /\ fst (@MemoEngine.get_template Demo.runtime s' "echo2" false) = inl cloned
  /\ In "echo2" (MemoEngine.list_templates s' None None false).
Proof.
  cbv zeta. split; [vm_compute; reflexivity|].
  apply (@EngineFacts.clone_updates_skip_validation Demo.runtime Samples.engine _
           "echo" "echo2" [SetTemplate EmptyString] _ sample_engine_coherent);
    vm_compute; reflexivity.
Defined.

Lemma list_templates_example :
  MemoEngine.list_templates Samples.engine None None true = ["echo"; "note"]
  /\ StronglySorted str_le (MemoEngine.list_templates Samples.engine None None true)
  /\ NoDup (MemoEngine.list_templates Samples.engine None None true).
Proof.
  split; [vm_compute; reflexivity|].
  destruct (EngineFacts.list_templates_sorted_and_exact Samples.engine None None true
              sample_engine_unique) as (Hs & Hn & _).
  split; [exact Hs | exact Hn].
Defined.

Lemma export_import_example :
  let r := @MemoEngine.import_templates Demo.runtime MemoEngine.empty
             (MemoEngine.export_templates Samples.engine None) false in
  fst r = inl (2, 0)
  /\ PromptEngine._templates (MemoEngine.engine (snd r))
     = PromptEngine._templates (MemoEngine.engine Samples.engine).
Proof.
  apply (@EngineFacts.export_then_import_rebuilds_catalogue Demo.runtime Samples.engine
           false).
  split; [exact sample_engine_unique|].
  constructor; [split; vm_compute; reflexivity|].
  constructor; [split; vm_compute; reflexivity|].
  constructor.
Defined.

Lemma search_templates_example :
  MemoEngine.search_templates Samples.engine "EC" None = ["echo"]
  /\ StronglySorted str_le (MemoEngine.search_templates Samples.engine "EC" None)
  /\ NoDup (MemoEngine.search_templates Samples.engine "EC" None).
Proof.
  split; [vm_compute; reflexivity|].
  destruct (EngineFacts.search_templates_sorted_and_exact Samples.engine "EC"
              sample_engine_unique) as (Hs & Hn & _).
  split; [exact Hs | exact Hn].
Defined.

(** The check before a call names the two keys that are absent. *)
Lemma precheck_example :
  exists g',
    @Generator.validate_template_variables Demo.runtime Demo.fresh "product_description"
      [("product_name", VStr "X")]
    = (Returned (false, ["features"; "audience"]), g').
Proof.
  destruct (@CallFacts.precheck_reports_absent_keys_only Demo.runtime Demo.fresh
              "product_description" [("product_name", VStr "X")]
              builtin_product_description)
    as (missing & g' & E & Hm & _); [vm_compute; reflexivity|].
  exists g'. rewrite E. subst missing. reflexivity.
Defined.

(** Three calls: one answered by the client, one by the cache, one
    refused for its blank prompt. *)
Lemma manager_statistics_example :
  let calls := [Samples.manager_call "Write" true; Samples.manager_call "Write" true;
                Samples.manager_call " " true] in
  let m := @ManagerSession.after Demo.answering Demo.manager calls in
  OpenAIManager.total_requests (OpenAIManager._stats m) = 1
  /\ OpenAIManager._request_counter m = 3
  /\ ManagerSession.balanced (OpenAIManager._stats m).
Proof.
  cbv zeta.
  destruct (@ManagerFacts.statistics_count_calls_that_reach_the_client Demo.answering
              Demo.manager
              [Samples.manager_call "Write" true; Samples.manager_call "Write" true;
               Samples.manager_call " " true] eq_refl)
    as (Hb & Hn & Ht & _).
  split; [rewrite Ht; vm_compute; reflexivity|].
  split; [rewrite Hn; reflexivity | exact Hb].
Defined.

(** The second call asks for another temperature and token limit and is
    answered from the cache. *)
Lemma manager_cache_example :
  let first := @OpenAIManager.generate_content Demo.answering Demo.manager
                 Demo.manager_env "Write" None None None true in
  let second := @OpenAIManager.generate_content Demo.answering
                  (OpenAIManager.manager first) Demo.manager_env "Write"
                  (Some 10%Z) (Some (FFin 1)) None true in
  OpenAIManager.sent second = []
  /\ exists r2, OpenAIManager.returned second = inl r2
                /\ OpenAIManager.content r2 = "Hello".
Proof.
  cbv zeta.
  destruct (@ManagerFacts.cached_answer_ignores_temperature_and_max_tokens Demo.answering
              Demo.manager Demo.manager_env Demo.manager_env "Write" None None
              (Some 10%Z) None (Some (FFin 1))
              (match OpenAIManager.returned
                       (@OpenAIManager.generate_content Demo.answering Demo.manager
                          Demo.manager_env "Write" None None None true) with
               | inl r => r
               | inr _ => OpenAIManager.failed_response Demo.manager_env EmptyString EmptyString
               end))
    as (Hsent & _ & r2 & Hr & _ & Hc & _);
    [vm_compute; reflexivity | vm_compute; reflexivity | vm_compute; reflexivity
     | vm_compute; discriminate |].
  split; [exact Hsent|]. exists r2. split; [exact Hr|]. rewrite Hc. vm_compute. reflexivity.
Defined.

(** The second prompt is blank: the batch raises, after the request of
    the first prompt was sent. *)
Lemma manager_batch_example :
  let b := @ManagerSession.generate_batch Demo.answering Demo.manager
             (fun _ => Demo.manager_env) ["Write about cats"; "  "; "Write about dogs"]
             None None None in
  ManagerSession.batch_returned b
  = inr (OpenAIManager.InvalidPromptError "Prompt cannot be empty")
  /\ List.length (ManagerSession.batch_sent b) = 1
  /\ OpenAIManager._request_counter (ManagerSession.batch_manager b) = 2.
Proof.
  cbv zeta.
  destruct (@ManagerFacts.sequential_batch_stops_at_first_blank_prompt Demo.answering
              Demo.manager (fun _ => Demo.manager_env) ["Write about cats"] "  "
              ["Write about dogs"] None None None)
    as (Hret & Hsent & _ & _ & Hn & _);
    [constructor; [vm_compute; reflexivity | constructor] | vm_compute; reflexivity |].
  split; [exact Hret|]. split; [|exact Hn].
  change (["Write about cats"; "  "; "Write about dogs"])
    with (["Write about cats"] ++ "  " :: ["Write about dogs"])%list.
  rewrite Hsent. vm_compute. reflexivity.
Defined.

(** A cache of capacity two that holds [a] and [b]: storing [c] evicts
    [a]; after a hit on [a] it evicts [b]. *)
Lemma lru_example :
  dict_keys (LRUCache._cache
               (LRUCache.set 2 3600 Samples.two_entries "c" (Samples.sample_result "third")
                             0 0))
  = ["b"; "c"]
  /\ dict_keys (LRUCache._cache
                  (LRUCache.set 2 3600 (snd (LRUCache.get Samples.two_entries "a" 0)) "c"
                                (Samples.sample_result "third") 0 0))
     = ["a"; "c"].
Proof.
  destruct (LRUFacts.full_cache_evicts_least_recently_used 2 3600 Samples.two_entries
              "a" "b" "c" (Samples.sample_entry "first") (Samples.sample_entry "second")
              [] (Samples.sample_result "third") 0 0 0)
    as (Hset & _ & Hget);
    [reflexivity | apply CatalogueFacts.keys_unique_check; vm_compute; reflexivity
     | reflexivity | reflexivity | vm_compute; discriminate |].
  split; [rewrite Hset | rewrite Hget]; reflexivity.
Defined.

End MoreExamples.
